(** * RAG_Bot: the retrieval-and-escalation pipeline

    A shallow embedding of [chains/chroma_utils.py], [chains/rag_service.py]
    and [db.add_question], and the properties of the pipeline that follow
    from the code.

    Conventions of the embedding.
    - A Python call either returns or raises: [Outcome].  Effects made before
      an exception is raised stay in the world.
    - The world holds the Chroma collection, the relational database and a
      trace of observable events: log records and calls to collaborators
      (vector search, embedding model, upsert, ticket creation, text
      generation).
    - Python floats are IEEE binary64 numbers: [PrimFloat.float].
    - The tables of the database carry the constraints of [models.py] that
      the code can run into: the lengths of the text columns and the
      foreign keys.  A commit that breaks one raises and writes nothing.
    - Third-party libraries (chromadb search, SentenceTransformer, the
      langchain text splitter, the YandexGPT chain) are records of functions
      handed to the code, as the Python objects are.
    - The functions around the pipeline (reading and clearing the
      collection, the ingestion endpoint, the ticket functions of [db.py],
      [handle_mention] of [handlers/chat_handlers.py]) run in a site: the
      world, and a journal of their own log records and calls. *)

From Stdlib Require Import ZArith Floats Lia Ascii.
From stdpp Require Import base option list strings gmap pretty.

Set Warnings "-inexact-float".

(* ================================================================== *)
(** * Python exceptions and outcomes *)

(** Every exception met in this code is an instance of [Exception]: the class
    name and the message, and FastAPI's [HTTPException] with its fields. *)
Inductive PyExc : Type :=
  | Exception (cls : string) (msg : string)
  | HTTPException (status_code : Z) (detail : string).

Inductive Outcome (A : Type) : Type :=
  | Returns (a : A)
  | Raises (e : PyExc).
Arguments Returns {A} a.
Arguments Raises {A} e.

#[export] Instance Outcome_ret : MRet Outcome := fun A a => Returns a.
#[export] Instance Outcome_bind : MBind Outcome := fun A B f o =>
  match o with
  | Returns a => f a
  | Raises e => Raises e
  end.

(** A dictionary key looked up in the results of a library call: missing,
    bound to [None], or bound to a value. *)
Inductive PyField (A : Type) : Type :=
  | Absent
  | IsNone
  | Value (a : A).
Arguments Absent {A}.
Arguments IsNone {A}.
Arguments Value {A} a.

(* ================================================================== *)
(** * Floats: Python's comparisons on distances and thresholds *)

Module PyFloat.

(** [x > y] *)
Definition gt (x y : float) : bool := PrimFloat.ltb y x.
(** [x <= y] *)
Definition le (x y : float) : bool := PrimFloat.leb x y.
(** [x == y] *)
Definition eqb (x y : float) : bool := PrimFloat.eqb x y.
(** [math.isnan(x)] *)
Definition isnan (x : float) : bool := negb (PrimFloat.eqb x x).

Definition cmp (x y : float) : option comparison :=
  SFcompare (Prim2SF x) (Prim2SF y).

End PyFloat.

(* ================================================================== *)
(** * The vector index (chromadb collection) *)

Module Chroma.

Definition Embedding : Type := list float.

Record Entry : Type := {
  entry_document : string;
  entry_embedding : Embedding }.

(** A collection maps chunk ids to entries; its dimension is fixed by the
    first successful write (spec 4.3 and 6). *)
Record Collection : Type := {
  dimension : option nat;
  entries : gmap string Entry }.

Definition empty : Collection := {| dimension := None; entries := ∅ |}.

Definition size (c : Collection) : nat := base.size (entries c).

(** One row of a batch written by [upsert]. *)
Definition rows (ids documents : list string) (embeddings : list Embedding)
  : list (string * Entry) :=
  zip ids (zip_with Build_Entry documents embeddings).

Definition write (m : gmap string Entry) (batch : list (string * Entry))
  : gmap string Entry :=
  foldl (fun acc row => <[row.1 := row.2]> acc) m batch.

Definition same_dimension (d : nat) (embeddings : list Embedding) : bool :=
  forallb (fun e => Nat.eqb (length e) d) embeddings.

(** Modelled from the spec: [collection.upsert(ids=, documents=,
    embeddings=)] belongs to chromadb, which is not among the sources; this
    is the contract of spec 4.3.  The three lists go together; a vector
    whose length differs from the dimension of the collection is refused and
    nothing is written; otherwise every id is overwritten or created, later
    rows of the batch winning, and the first write fixes the dimension. *)
Definition upsert (ids documents : list string) (embeddings : list Embedding)
    (c : Collection) : Outcome Collection :=
  if negb (Nat.eqb (length ids) (length documents)
           && Nat.eqb (length ids) (length embeddings))
  then Raises (Exception "ValueError" "Unequal lengths for fields")
  else
    match embeddings with
    | [] => Returns c
    | e0 :: _ =>
        let d := default (length e0) (dimension c) in
        if same_dimension d embeddings
        then Returns {| dimension := Some d;
                        entries := write (entries c) (rows ids documents embeddings) |}
        else Raises (Exception "InvalidDimensionException"
                               "Embedding dimension does not match collection dimensionality")
    end.

(** What [collection.query(..., include=[documents, metadatas, distances])]
    hands back: per query text one row of documents, of distances and of
    metadata.  A document is a string, or [None] for an entry stored
    without text. *)
Inductive Document : Type :=
  | DocStr (s : string)
  | DocNone.

Definition Metadata : Type := option (list (string * string)).

Record QueryResult : Type := {
  documents : PyField (list (list Document));
  distances : PyField (list (list float));
  metadatas : PyField (list (list Metadata)) }.

End Chroma.

Import Chroma.

(** The handle the code calls [knowledge_base]: the collection together with
    the embedding function attached by [initialize_chroma_client].  Its
    nearest-neighbour search reads the collection and may fail; a falsy
    result (None or an empty mapping) is [None]. *)
Record KnowledgeBase : Type := {
  kb_query : Collection -> list string -> Z -> Outcome (option QueryResult) }.

(** [SentenceTransformer]: [encode] maps texts to vectors, or fails. *)
Record SentenceTransformer : Type := {
  encode : list string -> Outcome (list Embedding) }.

(* ================================================================== *)
(** * The relational store (models.py), as far as [add_question] uses it *)

(** [aiogram.types.User], the fields read by [add_question]. *)
Record TgUser : Type := {
  tg_username : option string;
  tg_first_name : option string;
  tg_last_name : option string }.

Record User : Type := {
  user_username : option string;
  user_full_name : string;
  user_is_admin : bool }.

Record Ticket : Type := {
  ticket_id : Z;
  ticket_telegram_id : Z;
  ticket_active : bool;
  ticket_closed_by_user : bool }.

Record Question : Type := {
  question_id : Z;
  question_telegram_id : Z;
  question_ticket_id : Z;
  question_text : string;
  question_subject : string }.

(** [users] is keyed by its primary key [telegram_id]; [tickets] and
    [questions] are held in insertion order, which is the order of the
    model: a [SELECT] without [ORDER BY] may return its rows in any order.
    Time stamps are left out.  [faults] is the number of round trips the
    database still serves before it starts failing ([None]: it never
    fails). *)
Record Database : Type := {
  users : gmap Z User;
  tickets : list Ticket;
  questions : list Question;
  faults : option nat }.

(** The next value of an autoincrement key. *)
Definition next_id (ids : list Z) : Z := (1 + foldr Z.max 0 ids)%Z.

(** The number of characters of a text.  Strings are held in UTF-8, where
    every byte but those of the form [10xxxxxx] starts a character. *)
Definition starts_character (c : Ascii.ascii) : bool :=
  let n := Ascii.nat_of_ascii c in
  negb (Nat.leb 128 n && Nat.ltb n 192).

Fixpoint char_length (s : string) : nat :=
  match s with
  | EmptyString => 0
  | String c rest => (if starts_character c then 1 else 0) + char_length rest
  end.

Fixpoint has_nul (s : string) : bool :=
  match s with
  | EmptyString => false
  | String c rest => Ascii.eqb c "000"%char || has_nul rest
  end.

(** The values that a column [String(n)] takes: texts of at most [n]
    characters, without the character NUL, which PostgreSQL does not
    store.  (PostgreSQL cuts a longer text whose excess is spaces only
    instead of refusing it; the model refuses it, and the statements below
    are about values that fit.) *)
Definition varchar (n : nat) (s : string) : bool :=
  Nat.leb (char_length s) n && negb (has_nul s).

(** What SQLAlchemy raises when the server refuses a row. *)
Definition value_too_long (n : nat) : PyExc :=
  Exception "DBAPIError"
            ("value too long for type character varying(" +:+ pretty n +:+ ")").

Definition foreign_key_violation (table : string) : PyExc :=
  Exception "IntegrityError"
            ("insert on table " +:+ table +:+ " violates foreign key constraint").

(* ================================================================== *)
(** * Text generation (YandexGPT behind a langchain chain) *)

Record ChainInput : Type := {
  input_context : list string;
  input_query : string;
  input_token_limit : Z }.

(** A chain: [chain.invoke(input_data)] gives a string, [None], or a
    failure. *)
Record Chain : Type := {
  chain_invoke : ChainInput -> Outcome (option string) }.

(** A model object, and what [create_stuff_documents_chain(llm=, prompt=,
    document_prompt=, document_variable_name=)] makes of it with the prompts
    of [generate_response_with_gpt], which are constants: a chain, or a
    failure. *)
Record Llm : Type := {
  create_stuff_documents_chain : Outcome Chain }.

(** The class [YandexGPT] of langchain: its constructor, called with
    [iam_token] and [folder_id], gives a model object or fails.  The two
    values come from [os.getenv] and are [None] when the variable is not
    set. *)
Definition YandexGPT : Type := option string -> option string -> Outcome Llm.

(* ================================================================== *)
(** * The text splitter (langchain) and the chunks *)

(** A splitter object and the class that builds one from [chunk_size] and
    [chunk_overlap] ([RecursiveCharacterTextSplitter] of langchain): the
    constructor and [split_text] belong to the library. *)
Record Splitter : Type := {
  split_text : string -> Outcome (list string) }.

Definition SplitterClass : Type := Z -> Z -> Outcome Splitter.

Record Chunk : Type := {
  chunk_id : string;
  chunk_text : string }.

(* ================================================================== *)
(** * Observable events and the world *)

Inductive LogLevel : Type := INFO | WARNING | ERROR.

(** One constructor per [logging] call of the embedded functions, carrying
    the values the message is formatted with. *)
Inductive LogMsg : Type :=
  (* add_documents_to_chroma *)
  | EmbeddingsStarted
  | EmbeddingsGenerated (count : nat)
  | EmbeddingsFailed (e : PyExc)
  | DocumentsAdded
  | EmbeddingsInvalid
  | UpsertFailed (e : PyExc)
  (* search_similar_docs *)
  | SearchResults (results : option QueryResult)
  | NoSimilarDocuments
  | SimilarDocumentsFound (count : nat)
  | CandidateSeen (number : nat) (doc : Document) (metadata : list Metadata)
                  (distance : float)
  | CandidateAboveThreshold (number : nat) (distance : float)
  | CandidateBadFormat (number : nat)
  | NoRelevantDocuments
  | TicketCreated (ticket : Z) (user : Z)
  | SearchFailed (e : PyExc)
  (* add_question *)
  | UserAdded (telegram_id : Z)
  | UserUpdated (telegram_id : Z)
  | QuestionAdded (ticket : Z)
  (* generate_response_with_gpt *)
  | BeforeInvoke (input : ChainInput)
  | GptFailed (e : PyExc).

Inductive Event : Type :=
  | Log (level : LogLevel) (msg : LogMsg)
  | QueryCall (query_texts : list string) (n_results : Z)
  | EncodeCall (texts : list string)
  | UpsertCall (ids documents : list string) (embeddings : list Embedding)
  | AddQuestionCall (user_id : Z) (text subject : string) (from_user : option TgUser)
  | InvokeCall (input : ChainInput).

Record World : Type := {
  collection : Collection;
  db : Database;
  trace : list Event }.

Definition set_collection (c : Collection) (w : World) : World :=
  {| collection := c; db := db w; trace := trace w |}.
Definition set_db (d : Database) (w : World) : World :=
  {| collection := collection w; db := d; trace := trace w |}.
Definition add_event (ev : Event) (w : World) : World :=
  {| collection := collection w; db := db w; trace := trace w ++ [ev] |}.

(** Computations: run in a world, return or raise, leave a world. *)
Definition M (A : Type) : Type := World -> Outcome A * World.

#[export] Instance M_ret : MRet M := fun A a w => (Returns a, w).
#[export] Instance M_bind : MBind M := fun A B f m w =>
  match m w with
  | (Returns a, w') => f a w'
  | (Raises e, w') => (Raises e, w')
  end.

Definition raise {A} (e : PyExc) : M A := fun w => (Raises e, w).

(** [try: body except Exception as e: handler(e)] *)
Definition try_except {A} (body : M A) (handler : PyExc -> M A) : M A :=
  fun w =>
    match body w with
    | (Returns a, w') => (Returns a, w')
    | (Raises e, w') => handler e w'
    end.

(** The value or the exception of a call without effect. *)
Definition lift {A} (o : Outcome A) : M A := fun w => (o, w).

(** Reading and changing the world. *)
Definition gets {A} (f : World -> A) : M A := fun w => (Returns (f w), w).
Definition update {A} (f : World -> A * World) : M A :=
  fun w => let '(a, w') := f w in (Returns a, w').

Definition emit (ev : Event) : M unit := update (fun w => ((), add_event ev w)).
Definition logging (level : LogLevel) (msg : LogMsg) : M unit := emit (Log level msg).

(** A [for] loop that updates a local variable. *)
Fixpoint for_each {A S} (xs : list A) (body : A -> S -> M S) (acc : S) : M S :=
  match xs with
  | [] => mret acc
  | x :: rest => acc' ← body x acc; for_each rest body acc'
  end.

(** [enumerate(xs)] *)
Definition enumerate {A} (xs : list A) : list (nat * A) :=
  zip (seq 0 (length xs)) xs.

(* ================================================================== *)
(** * db.add_question *)

(** One exchange with the database server ([await session.execute],
    [await session.commit]). *)
Definition roundtrip : M unit := fun w =>
  let d := db w in
  match faults d with
  | Some 0 => (Raises (Exception "OperationalError" "database unavailable"), w)
  | Some (S n) =>
      (Returns (),
       set_db {| users := users d; tickets := tickets d;
                 questions := questions d; faults := Some n |} w)
  | None => (Returns (), w)
  end.

(** [await session.execute(select ...)] *)
Definition session_execute {A} (read : Database -> A) : M A :=
  roundtrip;; gets (fun w => read (db w)).

(** [session.add(row); await session.commit()]: the pending change reaches
    the tables when the commit succeeds.  The server refuses a change that
    breaks a constraint of models.py: the commit raises and the tables are
    what they were. *)
Definition session_commit {A} (change : Database -> Outcome (A * Database))
    : M A :=
  roundtrip;;
  d ← gets db;
  result ← lift (change d);
  update (fun w => (result.1, set_db result.2 w)).

(** A change that no constraint bears on. *)
Definition accepted {A} (change : Database -> A * Database)
    : Database -> Outcome (A * Database) :=
  fun d => Returns (change d).

(** A row of [users]: [username] is a [String(30)] that may be NULL,
    [full_name] a [String(100)]. *)
Definition put_user (telegram_id : Z) (u : User) (d : Database)
    : Outcome (unit * Database) :=
  if negb (varchar 30 (default EmptyString (user_username u)))
  then Raises (value_too_long 30)
  else if negb (varchar 100 (user_full_name u))
  then Raises (value_too_long 100)
  else Returns ((), {| users := <[telegram_id := u]> (users d);
                       tickets := tickets d;
                       questions := questions d; faults := faults d |}).

(** A row of [tickets]: [telegram_id] refers to a row of [users]. *)
Definition new_ticket (telegram_id : Z) (d : Database)
    : Outcome (Ticket * Database) :=
  let t := {| ticket_id := next_id (ticket_id <$> tickets d);
              ticket_telegram_id := telegram_id;
              ticket_active := true;
              ticket_closed_by_user := false |} in
  match users d !! telegram_id with
  | None => Raises (foreign_key_violation "tickets")
  | Some _ =>
      Returns (t, {| users := users d; tickets := tickets d ++ [t];
                     questions := questions d; faults := faults d |})
  end.

(** A row of [questions]: [telegram_id] refers to a row of [users],
    [ticket_id] to a row of [tickets]; [text] is a [String(3000)] and
    [subject] a [String(255)]. *)
Definition new_question (telegram_id ticket : Z) (text subject : string)
    (d : Database) : Outcome (Question * Database) :=
  let q := {| question_id := next_id (question_id <$> questions d);
              question_telegram_id := telegram_id;
              question_ticket_id := ticket;
              question_text := text;
              question_subject := subject |} in
  match users d !! telegram_id with
  | None => Raises (foreign_key_violation "questions")
  | Some _ =>
      if negb (existsb (fun t => Z.eqb (ticket_id t) ticket) (tickets d))
      then Raises (foreign_key_violation "questions")
      else if negb (varchar 3000 text)
      then Raises (value_too_long 3000)
      else if negb (varchar 255 subject)
      then Raises (value_too_long 255)
      else Returns (q, {| users := users d; tickets := tickets d;
                          questions := questions d ++ [q];
                          faults := faults d |})
  end.

(** Python's [str.isspace] on the ASCII range, and [str.strip()]. Names are
    taken to hold no white space outside ASCII. *)
Definition py_isspace (c : Ascii.ascii) : bool :=
  let n := Ascii.nat_of_ascii c in
  (Nat.leb 9 n && Nat.leb n 13) || (Nat.leb 28 n && Nat.leb n 32).

Fixpoint lstrip (s : string) : string :=
  match s with
  | String c rest => if py_isspace c then lstrip rest else s
  | EmptyString => EmptyString
  end.

Definition strip (s : string) : string :=
  String.rev (lstrip (String.rev (lstrip s))).

(** [f"{from_user.first_name or ''} {from_user.last_name or ''}".strip()] *)
Definition full_name_of (u : TgUser) : string :=
  strip (default EmptyString (tg_first_name u) +:+ " "
         +:+ default EmptyString (tg_last_name u)).

(** [from_user.username if from_user and from_user.username else "unknown_user"] *)
Definition username_of (from_user : option TgUser) : string :=
  match from_user ≫= tg_username with
  | Some (String c rest) => String c rest
  | _ => "unknown_user"
  end.

(** [add_question(user_id, question_text, subject, media=None, from_user)].
    The call is recorded in the trace.  [search_similar_docs] passes no
    media, so the [if media:] block is not entered; the time stamps of the
    ticket are not part of the model, so the last commit writes nothing. *)
Definition add_question (user_id : Z) (question_text subject : string)
    (from_user : option TgUser) : M Question :=
  emit (AddQuestionCall user_id question_text subject from_user);;
  user ← session_execute (fun d => users d !! user_id);
  match user with
  | None =>
      let username := username_of from_user in
      let full_name :=
        match from_user with
        | Some u => full_name_of u
        | None => "Неизвестно"
        end in
      session_commit (put_user user_id {| user_username := Some username;
                                          user_full_name := full_name;
                                          user_is_admin := false |});;
      logging INFO (UserAdded user_id)
  | Some user =>
      match from_user with
      | Some u =>
          if bool_decide (user_username user ≠ tg_username u)
             || bool_decide (user_full_name user ≠ full_name_of u)
          then
            session_commit (put_user user_id {| user_username := tg_username u;
                                                user_full_name := full_name_of u;
                                                user_is_admin := user_is_admin user |});;
            logging INFO (UserUpdated user_id)
          else mret ()
      | None => mret ()
      end
  end;;
  ticket ← session_commit (new_ticket user_id);
  question ← session_commit (new_question user_id (ticket_id ticket)
                                          question_text subject);
  session_commit (accepted (fun d => ((), d)));;
  logging INFO (QuestionAdded (ticket_id ticket));;
  mret question.

(* ================================================================== *)
(** * chroma_utils.search_similar_docs *)

(** An element of the returned list, the dictionary with the one key
    [text]. *)
Record ProcessedDoc : Type := { doc_text : string }.

(** [knowledge_base.query(query_texts=, n_results=, include=...)] *)
Definition query (knowledge_base : KnowledgeBase) (query_texts : list string)
    (n_results : Z) : M (option QueryResult) :=
  emit (QueryCall query_texts n_results);;
  c ← gets collection;
  lift (kb_query knowledge_base c query_texts n_results).

(** [results.get(documents)] when both [results] and it are truthy. *)
Definition found_documents (results : option QueryResult)
    : option (QueryResult * list (list Document)) :=
  match results with
  | Some r =>
      match documents r with
      | Value (row :: more) => Some (r, row :: more)
      | _ => None
      end
  | None => None
  end.

(** [results[distances]], as [zip] needs it. *)
Definition distances_of (r : QueryResult) : Outcome (list (list float)) :=
  match distances r with
  | Value d => Returns d
  | IsNone => Raises (Exception "TypeError" "'NoneType' object is not iterable")
  | Absent => Raises (Exception "KeyError" "'distances'")
  end.

(** [results.get(metadatas, [[]])[idx]] *)
Definition metadata_at (r : QueryResult) (idx : nat) : Outcome (list Metadata) :=
  match metadatas r with
  | Value rows =>
      match rows !! idx with
      | Some row => Returns row
      | None => Raises (Exception "IndexError" "list index out of range")
      end
  | IsNone => Raises (Exception "TypeError" "'NoneType' object is not subscriptable")
  | Absent =>
      match [[]] !! idx with
      | Some row => Returns row
      | None => Raises (Exception "IndexError" "list index out of range")
      end
  end.

(** The body of the inner loop, for one candidate of row [idx]. *)
Definition visit (r : QueryResult) (threshold : float) (idx : nat)
    (candidate : Document * float) (processed_docs : list ProcessedDoc)
    : M (list ProcessedDoc) :=
  let '(doc, distance) := candidate in
  metadata ← lift (metadata_at r idx);
  logging INFO (CandidateSeen (idx + 1) doc metadata distance);;
  if PyFloat.gt distance threshold
  then
    logging INFO (CandidateAboveThreshold (idx + 1) distance);;
    mret processed_docs
  else
    match doc with
    | DocStr s => mret (processed_docs ++ [{| doc_text := s |}])
    | DocNone => logging WARNING (CandidateBadFormat (idx + 1));; mret processed_docs
    end.

(** The body of the outer loop, for row [idx]. *)
Definition visit_row (r : QueryResult) (threshold : float)
    (row : nat * (list Document * list float))
    (processed_docs : list ProcessedDoc) : M (list ProcessedDoc) :=
  let '(idx, (doc_list, dist_list)) := row in
  for_each (zip doc_list dist_list) (visit r threshold idx) processed_docs.

Definition default_k : Z := 3.
Definition default_threshold : float := 1.3%float.
Definition default_subject : string := "Новый вопрос".

Definition search_similar_docs (knowledge_base : KnowledgeBase)
    (query_text : string) (k : Z) (threshold : float) (user_id : option Z)
    (subject : string) (from_user : option TgUser) : M (list ProcessedDoc) :=
  try_except
    (results ← query knowledge_base [query_text] k;
     logging INFO (SearchResults results);;
     match found_documents results with
     | None =>
         logging INFO NoSimilarDocuments;;
         mret []
     | Some (r, docs) =>
         logging INFO (SimilarDocumentsFound (length docs));;
         dists ← lift (distances_of r);
         processed_docs ← for_each (enumerate (zip docs dists))
                                   (visit_row r threshold) [];
         match processed_docs with
         | [] =>
             logging INFO NoRelevantDocuments;;
             match user_id with
             | Some uid =>
                 question ← add_question uid query_text subject from_user;
                 logging INFO (TicketCreated (question_ticket_id question) uid);;
                 mret []
             | None => mret processed_docs
             end
         | _ :: _ => mret processed_docs
         end
     end)
    (fun e =>
       logging ERROR (SearchFailed e);;
       mret []).

(* ================================================================== *)
(** * rag_service.split_text_into_chunks *)

(** [f"chunk_{i + 1}"] *)
Definition chunk_name (i : nat) : string := "chunk_" +:+ pretty (i + 1).

Definition default_chunk_size : Z := 500.
Definition default_chunk_overlap : Z := 70.

Definition split_text_into_chunks (RecursiveCharacterTextSplitter : SplitterClass)
    (text : string) (chunk_size chunk_overlap : Z) : Outcome (list Chunk) :=
  splitter ← RecursiveCharacterTextSplitter chunk_size chunk_overlap;
  chunks ← split_text splitter text;
  mret ((fun ic => {| chunk_id := chunk_name ic.1; chunk_text := ic.2 |})
          <$> enumerate chunks).

(* ================================================================== *)
(** * chroma_utils.add_documents_to_chroma *)

(** [model.encode(documents)] *)
Definition model_encode (model : SentenceTransformer) (documents : list string)
    : M (list Embedding) :=
  emit (EncodeCall documents);;
  lift (encode model documents).

(** [knowledge_base.upsert(ids=, documents=, embeddings=)]: the collection
    behind the handle is the one of the world. *)
Definition kb_upsert (ids documents : list string) (embeddings : list Embedding)
    : M unit :=
  emit (UpsertCall ids documents embeddings);;
  c ← gets collection;
  c' ← lift (Chroma.upsert ids documents embeddings c);
  update (fun w => ((), set_collection c' w)).

(** [isinstance(embed, list) and len(embed) > 0], for the list that
    [embedding.tolist()] gave; a vector is a list here from the start. *)
Definition valid_embedding (embed : Embedding) : bool :=
  Nat.ltb 0 (length embed).

(** The first [try] block leaves the function in its handler: [None] stands
    for that [return]. *)
Definition add_documents_to_chroma (knowledge_base : KnowledgeBase)
    (chunks : list Chunk) (model : SentenceTransformer) : M unit :=
  let documents := chunk_text <$> chunks in
  let ids := chunk_id <$> chunks in
  logging INFO EmbeddingsStarted;;
  encoded ← try_except
    (embeddings_list ← model_encode model documents;
     logging INFO (EmbeddingsGenerated (length embeddings_list));;
     mret (Some embeddings_list))
    (fun e =>
       logging ERROR (EmbeddingsFailed e);;
       mret None);
  match encoded with
  | None => mret ()
  | Some embeddings_list =>
      let embeddings := embeddings_list in
      try_except
        (if forallb valid_embedding embeddings
         then
           kb_upsert ids documents embeddings;;
           logging INFO DocumentsAdded
         else logging ERROR EmbeddingsInvalid)
        (fun e => logging ERROR (UpsertFailed e))
  end.

(* ================================================================== *)
(** * rag_service.generate_response_with_gpt *)

(** [html.escape(s)] with its default [quote=True]. *)
Definition html_escape_char (c : Ascii.ascii) : string :=
  if Ascii.eqb c "&"%char then "&amp;"
  else if Ascii.eqb c "<"%char then "&lt;"
  else if Ascii.eqb c ">"%char then "&gt;"
  else if Ascii.eqb c "034"%char then "&quot;"
  else if Ascii.eqb c "'"%char then "&#x27;"
  else String c EmptyString.

Fixpoint html_escape (s : string) : string :=
  match s with
  | EmptyString => EmptyString
  | String c rest => html_escape_char c +:+ html_escape rest
  end.

Definition fallback_answer : string :=
  "К сожалению, не удалось найти релевантную информацию. Попробуйте переформулировать вопрос.".

Definition gpt_error : PyExc :=
  HTTPException 500 "Ошибка при обработке запроса к GPT".

Definition default_token_limit : Z := 100.

(** [chain.invoke(input_data)] *)
Definition invoke (chain : Chain) (input_data : ChainInput) : M (option string) :=
  emit (InvokeCall input_data);;
  lift (chain_invoke chain input_data).

(** [context] is a list of dictionaries.  The model object and the chain are
    built before the [try] block: what their construction raises leaves the
    function as it is.  The two prompt templates are built from constants.
    The [return response] after the [try] block is folded into its body:
    nothing between them can raise. *)
Definition generate_response_with_gpt (gpt : YandexGPT)
    (token folder_id : option string) (query_text : string)
    (context : list (gmap string string)) (token_limit : Z) : M string :=
  let escaped_context :=
    omap (fun doc => html_escape <$> doc !! "page_content") context in
  let escaped_query_text := html_escape query_text in
  llm ← lift (gpt token folder_id);
  chain ← lift (create_stuff_documents_chain llm);
  let input_data := {| input_context := escaped_context;
                       input_query := escaped_query_text;
                       input_token_limit := token_limit |} in
  logging INFO (BeforeInvoke input_data);;
  try_except
    (response ← invoke chain input_data;
     match response with
     | None => mret fallback_answer
     | Some text => mret text
     end)
    (fun e =>
       logging ERROR (GptFailed e);;
       raise gpt_error).

(** The chain that [generate_response_with_gpt] builds, or what building it
    raises. *)
Definition built_chain (gpt : YandexGPT) (token folder_id : option string)
    : Outcome Chain :=
  llm ← gpt token folder_id;
  create_stuff_documents_chain llm.

(** The input handed to the chain. *)
Definition input_data_of (query_text : string) (context : list (gmap string string))
    (token_limit : Z) : ChainInput :=
  {| input_context := omap (fun doc => html_escape <$> doc !! "page_content") context;
     input_query := html_escape query_text;
     input_token_limit := token_limit |}.

(* ================================================================== *)
(** * Observations on runs *)

Definition add_events (evs : list Event) (w : World) : World :=
  {| collection := collection w; db := db w; trace := trace w ++ evs |}.

Definition is_log (ev : Event) : bool :=
  match ev with Log _ _ => true | _ => false end.

Definition is_ticket_call (ev : Event) : bool :=
  match ev with AddQuestionCall _ _ _ _ => true | _ => false end.

Definition is_upsert_call (ev : Event) : bool :=
  match ev with UpsertCall _ _ _ => true | _ => false end.

(** The calls to the ticket collaborator, in order. *)
Definition ticket_calls (tr : list Event) : list Event :=
  List.filter is_ticket_call tr.

(** The writes sent to the vector index, in order. *)
Definition upsert_calls (tr : list Event) : list Event :=
  List.filter is_upsert_call tr.

(** [w'] is [w] after some log records, and nothing else. *)
Definition logged (w w' : World) : Prop :=
  exists evs, forallb is_log evs = true /\ w' = add_events evs w.

(** [w'] is [w] after log records and changes to the database. *)
Definition quiet (w w' : World) : Prop :=
  collection w' = collection w /\
  exists evs, forallb is_log evs = true /\ trace w' = trace w ++ evs.

Definition preserves {A} (R : World -> World -> Prop) (m : M A) : Prop :=
  forall w, R w (m w).2.

(** The effects of a run that are not log records or the query itself. *)
Record SearchRun (w w' : World) (calls : list Event) : Prop := {
  run_collection : collection w' = collection w;
  run_ticket_calls : ticket_calls (trace w') = ticket_calls (trace w) ++ calls;
  run_upsert_calls : upsert_calls (trace w') = upsert_calls (trace w);
  run_db : calls = [] -> db w' = db w }.

(* ================================================================== *)
(** * What the search and the ingestion compute *)

(** The fate of one candidate: dropped when its distance is above the
    threshold or when it is not a string, kept otherwise. *)
Definition keep (threshold : float) (candidate : Document * float)
    : option ProcessedDoc :=
  if PyFloat.gt candidate.2 threshold then None
  else match candidate.1 with
       | DocStr s => Some {| doc_text := s |}
       | DocNone => None
       end.

Definition row_candidates (row : nat * (list Document * list float))
    : list (Document * float) :=
  zip row.2.1 row.2.2.

(** The exception of the first row that has a candidate and no metadata. *)
Fixpoint row_error (r : QueryResult)
    (rows : list (nat * (list Document * list float))) : option PyExc :=
  match rows with
  | [] => None
  | row :: rest =>
      match row_candidates row, metadata_at r row.1 with
      | _ :: _, Raises e => Some e
      | _, _ => row_error r rest
      end
  end.

(** What the search has in [processed_docs] when it reaches the test
    [if not processed_docs]: an exception raised on the way, [None] for the
    early return on a falsy response, or the list. *)
Definition retrieved (knowledge_base : KnowledgeBase) (query_text : string)
    (k : Z) (threshold : float) (c : Collection)
    : Outcome (option (list ProcessedDoc)) :=
  results ← kb_query knowledge_base c [query_text] k;
  match found_documents results with
  | None => mret None
  | Some (r, docs) =>
      dists ← distances_of r;
      let rows := enumerate (zip docs dists) in
      match row_error r rows with
      | Some e => Raises e
      | None => mret (Some (omap (keep threshold) (flat_map row_candidates rows)))
      end
  end.

(** The list the search returns. *)
Definition answer (knowledge_base : KnowledgeBase) (query_text : string)
    (k : Z) (threshold : float) (c : Collection) : list ProcessedDoc :=
  match retrieved knowledge_base query_text k threshold c with
  | Returns (Some docs) => docs
  | _ => []
  end.

(** The calls to [add_question] the search makes. *)
Definition escalation (knowledge_base : KnowledgeBase) (query_text : string)
    (k : Z) (threshold : float) (user_id : option Z) (subject : string)
    (from_user : option TgUser) (c : Collection) : list Event :=
  match retrieved knowledge_base query_text k threshold c, user_id with
  | Returns (Some []), Some uid => [AddQuestionCall uid query_text subject from_user]
  | _, _ => []
  end.

(** The candidates of a response, row after row: each document with its
    distance. *)
Definition candidates (r : QueryResult) : list (Document * float) :=
  match documents r, distances r with
  | Value docs, Value dists => flat_map (fun rows => zip rows.1 rows.2) (zip docs dists)
  | _, _ => []
  end.

(** The candidates that pass, in the order of the response. *)
Definition relevant (threshold : float) (r : QueryResult) : list ProcessedDoc :=
  omap (keep threshold) (candidates r).

(** A candidate as ingestion stores them: its document is a text and its
    distance is a number. *)
Definition stored_candidate (candidate : Document * float) : bool :=
  match candidate.1 with
  | DocStr _ => negb (PyFloat.isnan candidate.2)
  | DocNone => false
  end.

(** The words of the spec: the candidates whose distance is less than or
    equal to the threshold, in the order of the response ... *)
Definition within_threshold (threshold : float) (r : QueryResult)
    : list (Document * float) :=
  List.filter (fun candidate => PyFloat.le candidate.2 threshold) (candidates r).

(** ... and what is returned for one of them. *)
Definition text_of (candidate : Document * float) : option ProcessedDoc :=
  match candidate.1 with
  | DocStr s => Some {| doc_text := s |}
  | DocNone => None
  end.

(** A response as chromadb builds it for the keys asked for: under each of
    the three keys a list with one row per query text, and at least one
    row. *)
Definition well_formed (r : QueryResult) : bool :=
  match documents r, distances r, metadatas r with
  | Value (row :: more), Value dists, Value metas =>
      Nat.eqb (length (row :: more)) (length dists)
      && Nat.eqb (length (row :: more)) (length metas)
  | _, _, _ => false
  end.

(** The response for a collection without entries. *)
Definition empty_response : QueryResult :=
  {| documents := Value [[]]; distances := Value [[]]; metadatas := Value [[]] |}.

(** The collection after [add_documents_to_chroma] on a collection [c]. *)
Definition ingested (chunks : list Chunk) (model : SentenceTransformer)
    (c : Collection) : Collection :=
  match encode model (chunk_text <$> chunks) with
  | Returns embeddings =>
      if forallb valid_embedding embeddings
      then match Chroma.upsert (chunk_id <$> chunks) (chunk_text <$> chunks)
                               embeddings c with
           | Returns c' => c'
           | Raises _ => c
           end
      else c
  | Raises _ => c
  end.

(* ================================================================== *)
(** * Fixtures *)

Definition empty_database : Database :=
  {| users := ∅; tickets := []; questions := []; faults := None |}.

(** A database that is down. *)
Definition failing_database : Database :=
  {| users := ∅; tickets := []; questions := []; faults := Some 0 |}.

Definition fresh_world : World :=
  {| collection := Chroma.empty; db := empty_database; trace := [] |}.

Definition world_without_database : World :=
  {| collection := Chroma.empty; db := failing_database; trace := [] |}.

(** An index that answers every query with the response [r]. *)
Definition answering (r : QueryResult) : KnowledgeBase :=
  {| kb_query := fun _ _ _ => Returns (Some r) |}.

(** One row with one candidate. *)
Definition one_candidate (doc : Document) (distance : float) : QueryResult :=
  {| documents := Value [[doc]];
     distances := Value [[distance]];
     metadatas := Value [[None]] |}.

(** A splitter class that accepts every pair of parameters and cuts every
    text into the same parts. *)
Definition cutting_into (parts : list string) : SplitterClass :=
  fun _ _ => Returns {| split_text := fun _ => Returns parts |}.

(** A model that maps every text to the same vector. *)
Definition constant_model (v : Embedding) : SentenceTransformer :=
  {| encode := fun texts => Returns ((fun _ => v) <$> texts) |}.

(** A model that is out of order. *)
Definition failing_model (e : PyExc) : SentenceTransformer :=
  {| encode := fun _ => Raises e |}.

Definition refund_chunks : list Chunk :=
  [ {| chunk_id := "chunk_1"; chunk_text := "The refund window is 30 days." |};
    {| chunk_id := "chunk_2"; chunk_text := "Contact support@example.com for help." |} ].

(** A model whose chain behaves as [chain], whatever the token and the
    folder id. *)
Definition gpt_with (chain : Chain) : YandexGPT :=
  fun _ _ => Returns {| create_stuff_documents_chain := Returns chain |}.

(** A text of [n] letters. *)
Fixpoint letters (n : nat) : string :=
  match n with
  | O => EmptyString
  | S m => String "a"%char (letters m)
  end.

(** A chain that fails. *)
Definition failing_gpt (e : PyExc) : YandexGPT :=
  gpt_with {| chain_invoke := fun _ => Raises e |}.

(** A chain that answers every input with the same text. *)
Definition answering_gpt (response : string) : YandexGPT :=
  gpt_with {| chain_invoke := fun _ => Returns (Some response) |}.

(** A model class that refuses to build a model without a token or without
    a folder id. *)
Definition missing_credentials : PyExc :=
  Exception "ValidationError" "1 validation error for YandexGPT".

Definition strict_gpt (chain : Chain) : YandexGPT :=
  fun token folder_id =>
    match token, folder_id with
    | Some _, Some _ => Returns {| create_stuff_documents_chain := Returns chain |}
    | _, _ => Raises missing_credentials
    end.

(* ================================================================== *)
(** * The service around the pipeline: collaborators, records, state *)

(** The arguments of [knowledge_base.get]; [None] for one that the call
    leaves out. *)
Record GetArgs : Type := {
  arg_ids : option (list string);
  arg_include : option (list string);
  arg_limit : option Z }.

(** The dictionary that [knowledge_base.get] hands back. *)
Record GetResult : Type := {
  got_ids : PyField (list string);
  got_documents : PyField (list Document);
  got_metadatas : PyField (list Metadata) }.

(** The handle [knowledge_base] seen through the two other methods that
    this code calls: [get] reads the collection, [delete] changes it; both
    belong to chromadb and may fail. *)
Record CollectionHandle : Type := {
  kb_get : Collection -> GetArgs -> Outcome (option GetResult);
  kb_delete : Collection -> list string -> Outcome Collection }.

(** [chromadb.PersistentClient(path=...)], as far as it is used:
    [get_or_create_collection(name=, embedding_function=, metadata=)]. *)
Record ChromaClient : Type := {
  get_or_create_collection :
    string -> (list string -> Outcome (list Embedding)) -> Outcome KnowledgeBase }.

(** What the modules import and read from the settings: Python's [str] on
    an exception, the file system, the libraries, and the values of
    [config.py], which [os.getenv] leaves [None] when the variable is not
    set. *)
Record Env : Type := {
  env_str : PyExc -> string;
  env_open : string -> Outcome string;
  env_splitter : SplitterClass;
  env_model : string -> Outcome SentenceTransformer;
  env_client : option string -> Outcome ChromaClient;
  env_gpt : YandexGPT;
  IAM_TOKEN : option string;
  FOLDER_ID : option string;
  CHROMA_PERSIST_DIR : option string }.

(** An element of the list given to [process_search_results]: a dictionary,
    whose values are strings or [None], or an object of another type. *)
Inductive SimilarDoc : Type :=
  | DictDoc (fields : gmap string Document)
  | OtherDoc.

(** [aiogram.types.Message], as far as [handle_mention] uses it: the text,
    the caption, the sender with its id, and the two calls to Telegram,
    [message.bot.get_me()], which gives the name of the bot, and
    [message.reply(text)]. *)
Record Message : Type := {
  message_text : option string;
  message_caption : option string;
  message_from_user : option (Z * TgUser);
  message_get_me : Outcome string;
  message_reply : string -> Outcome unit }.

(** One constructor per [logging] call of the functions below, carrying the
    values the message is formatted with. *)
Inductive Note : Type :=
  (* get_documents_from_chroma *)
  | EmptyResult
  | DocumentsFetched (count : nat)
  | FetchFailed (e : PyExc)
  (* clear_chroma_collection *)
  | CollectionCleared
  | CollectionAlreadyEmpty
  | IdsKeyMissing
  | ClearFailed (e : PyExc)
  (* load_text_file, get_hf_embeddings, load_embeddings *)
  | FileNotFound (file_path : string)
  | ModelLoading (model_name : string)
  | EmbeddingsRequested (model_name txt_path : string)
  | TextLoaded (txt_path text : string)
  | TextSplit (count : nat)
  | ModelLoaded
  | EmbeddingsStored
  | EmbeddingsLoadFailed (e : PyExc)
  (* process_search_results *)
  | DocumentFailed (doc : SimilarDoc) (e : PyExc)
  | DocumentBadFormat (doc : SimilarDoc)
  | DocumentsProcessed (count : nat)
  (* db *)
  | TicketClosed (ticket : Z)
  | TicketClosedByAdmin (ticket : Z)
  | TicketStatusChanged (ticket : Z)
  | TicketNotFound (ticket : Z)
  | UserTickets (user : Z) (found : list Ticket)
  | ClosedTickets (found : list Ticket)
  | UserClosedTickets (user : Z) (found : list Ticket)
  | QuestionAddedToTicket (ticket : Z)
  (* handle_mention *)
  | SimilarDocuments (found : list ProcessedDoc)
  | ChainRequest (input_documents : list (gmap string string))
  | RagFailed (e : PyExc).

(** What these functions do that can be observed, besides what the
    pipeline records in the trace of the world. *)
Inductive Step : Type :=
  | Noted (level : LogLevel) (msg : Note)
  | GetCall (args : GetArgs)
  | DeleteCall (ids : list string)
  | OpenCall (file_path : string)
  | ModelCall (model_name : string)
  | ClientCall (persist_directory : option string)
  | CollectionCall (name : string)
  | GetMeCall
  | ReplyCall (text : string).

(** The world of the pipeline and the journal of the service. *)
Record Site : Type := {
  world : World;
  journal : list Step }.

Definition set_world (w : World) (s : Site) : Site :=
  {| world := w; journal := journal s |}.
Definition add_step (st : Step) (s : Site) : Site :=
  {| world := world s; journal := journal s ++ [st] |}.

Definition App (A : Type) : Type := Site -> Outcome A * Site.

#[export] Instance App_ret : MRet App := fun A a s => (Returns a, s).
#[export] Instance App_bind : MBind App := fun A B f m s =>
  match m s with
  | (Returns a, s') => f a s'
  | (Raises e, s') => (Raises e, s')
  end.

Definition app_raise {A} (e : PyExc) : App A := fun s => (Raises e, s).

(** [try: body except Exception as e: handler(e)] *)
Definition app_try_except {A} (body : App A) (handler : PyExc -> App A) : App A :=
  fun s =>
    match body s with
    | (Returns a, s') => (Returns a, s')
    | (Raises e, s') => handler e s'
    end.

Definition app_lift {A} (o : Outcome A) : App A := fun s => (o, s).

(** Reading and changing the site. *)
Definition app_gets {A} (f : Site -> A) : App A := fun s => (Returns (f s), s).
Definition app_update (f : Site -> Site) : App unit := fun s => (Returns (), f s).

Definition record (st : Step) : App unit := app_update (add_step st).
Definition note (level : LogLevel) (msg : Note) : App unit :=
  record (Noted level msg).

(** A function of the pipeline, called from the service. *)
Definition core {A} (m : M A) : App A := fun s =>
  let '(o, w) := m (world s) in (o, set_world w s).

Fixpoint app_for_each {A S} (xs : list A) (body : A -> S -> App S) (acc : S)
    : App S :=
  match xs with
  | [] => mret acc
  | x :: rest => acc' ← body x acc; app_for_each rest body acc'
  end.

(* ================================================================== *)
(** * chroma_utils: the other functions *)

(** [EmbeddingFunctionWrapper(model)], called on a list of texts. *)
Definition EmbeddingFunctionWrapper (model : SentenceTransformer)
    : list string -> Outcome (list Embedding) :=
  fun input => encode model input.

Definition initialize_chroma_client (env : Env)
    (collection_name : string) (persist_directory : option string)
    : App KnowledgeBase :=
  record (ClientCall persist_directory);;
  chroma_client ← app_lift (env_client env persist_directory);
  record (ModelCall "distiluse-base-multilingual-cased-v1");;
  model ← app_lift (env_model env "distiluse-base-multilingual-cased-v1");
  let embedding_function := EmbeddingFunctionWrapper model in
  record (CollectionCall collection_name);;
  app_lift (get_or_create_collection chroma_client collection_name
                                     embedding_function).

(** [knowledge_base.get(...)]: the collection behind the handle is the one
    of the world. *)
Definition collection_get (knowledge_base : CollectionHandle) (args : GetArgs)
    : App (option GetResult) :=
  record (GetCall args);;
  c ← app_gets (fun s => collection (world s));
  app_lift (kb_get knowledge_base c args).

(** [knowledge_base.delete(ids=...)] *)
Definition collection_delete (knowledge_base : CollectionHandle) (ids : list string)
    : App unit :=
  record (DeleteCall ids);;
  c ← app_gets (fun s => collection (world s));
  c' ← app_lift (kb_delete knowledge_base c ids);
  app_update (fun s => set_world (set_collection c' (world s)) s).

(** The dictionary that [get_documents_from_chroma] returns: under
    [documents] a list, under [metadatas] a list or [None]. *)
Record Listing : Type := {
  listing_documents : list Document;
  listing_metadatas : option (list Metadata) }.

Definition empty_listing : Listing :=
  {| listing_documents := []; listing_metadatas := Some [] |}.

Definition default_limit : Z := 10.

(** [len(documents)] raises for [None]. *)
Definition get_documents_from_chroma (knowledge_base : CollectionHandle)
    (limit : Z) : App Listing :=
  app_try_except
    (result ← collection_get knowledge_base
                  {| arg_ids := None;
                     arg_include := Some ["documents"; "metadatas"];
                     arg_limit := Some limit |};
     match result with
     | None =>
         note ERROR EmptyResult;;
         mret empty_listing
     | Some result =>
         let documents :=
           match got_documents result with
           | Absent => Some []
           | IsNone => None
           | Value l => Some l
           end in
         let metadatas :=
           match got_metadatas result with
           | Absent => Some []
           | IsNone => None
           | Value l => Some l
           end in
         match documents with
         | None =>
             app_raise (Exception "TypeError" "object of type 'NoneType' has no len()")
         | Some documents =>
             note INFO (DocumentsFetched (length documents));;
             mret {| listing_documents := documents;
                     listing_metadatas := metadatas |}
         end
     end)
    (fun e =>
       note ERROR (FetchFailed e);;
       mret empty_listing).

(** ['ids' in all_items] raises for [None]; a key bound to [None] or to an
    empty list is falsy. *)
Definition clear_chroma_collection (knowledge_base : CollectionHandle)
    : App unit :=
  app_try_except
    (all_items ← collection_get knowledge_base
                     {| arg_ids := None; arg_include := None; arg_limit := None |};
     match all_items with
     | None =>
         app_raise (Exception "TypeError" "argument of type 'NoneType' is not iterable")
     | Some all_items =>
         match got_ids all_items with
         | Value (id :: more) =>
             collection_delete knowledge_base (id :: more);;
             note INFO CollectionCleared
         | Value [] | IsNone => note INFO CollectionAlreadyEmpty
         | Absent => note ERROR IdsKeyMissing
         end
     end)
    (fun e => note ERROR (ClearFailed e)).

(* ================================================================== *)
(** * rag_service: the other functions *)

(** [except FileNotFoundError] *)
Definition is_file_not_found (e : PyExc) : bool :=
  match e with
  | Exception cls _ => String.eqb cls "FileNotFoundError"
  | HTTPException _ _ => false
  end.

(** Only [FileNotFoundError] is caught; any other exception of [open] or
    [read] goes through. *)
Definition load_text_file (env : Env) (file_path : string) : App string :=
  record (OpenCall file_path);;
  match env_open env file_path with
  | Returns text => mret text
  | Raises e =>
      if is_file_not_found e
      then
        note ERROR (FileNotFound file_path);;
        app_raise (HTTPException 404 "Файл не найден")
      else app_raise e
  end.

Definition default_model_name : string := "distiluse-base-multilingual-cased-v1".

Definition get_hf_embeddings (env : Env) (model_name : string)
    : App SentenceTransformer :=
  note INFO (ModelLoading model_name);;
  record (ModelCall model_name);;
  app_lift (env_model env model_name).

(** The handler of [POST /embeddings]. *)
Definition load_embeddings (env : Env) (model_name txt_path : string)
    : App unit :=
  note INFO (EmbeddingsRequested model_name txt_path);;
  app_try_except
    (text ← load_text_file env txt_path;
     note INFO (TextLoaded txt_path text);;
     chunks ← app_lift (split_text_into_chunks (env_splitter env) text
                          default_chunk_size default_chunk_overlap);
     note INFO (TextSplit (length chunks));;
     model ← get_hf_embeddings env model_name;
     note INFO ModelLoaded;;
     knowledge_base ← initialize_chroma_client env "knowledge_base"
                                               (CHROMA_PERSIST_DIR env);
     core (add_documents_to_chroma knowledge_base chunks model);;
     note INFO EmbeddingsStored)
    (fun e =>
       note ERROR (EmbeddingsLoadFailed e);;
       app_raise (HTTPException 500
                    ("Ошибка при загрузке эмбеддингов: " +:+ env_str env e))).

(** The body of the loop of [process_search_results].  [Document_] is the
    class [langchain_core.documents.Document], called with the value under
    [text] as [page_content]. *)
Definition process_doc {D} (Document_ : Document -> Outcome D)
    (doc : SimilarDoc) (processed_docs : list D) : App (list D) :=
  match doc with
  | DictDoc fields =>
      match fields !! "text" with
      | Some text =>
          app_try_except
            (document ← app_lift (Document_ text);
             mret (processed_docs ++ [document]))
            (fun e =>
               note ERROR (DocumentFailed doc e);;
               mret processed_docs)
      | None =>
          note WARNING (DocumentBadFormat doc);;
          mret processed_docs
      end
  | OtherDoc =>
      note WARNING (DocumentBadFormat doc);;
      mret processed_docs
  end.

Definition process_search_results {D} (Document_ : Document -> Outcome D)
    (similar_docs : list SimilarDoc) : App (list D) :=
  processed_docs ← app_for_each similar_docs (process_doc Document_) [];
  note INFO (DocumentsProcessed (length processed_docs));;
  mret processed_docs.

(* ================================================================== *)
(** * db: tickets *)

(** The values of a 32-bit [Integer] column, as [ticket_id] is, and of a
    64-bit [BigInteger] column, as [telegram_id] is.  For an id outside the
    range of its column the driver refuses the statement, which the model
    does not show: the statements that depend on it take ids within the
    range. *)
Definition int32 (n : Z) : bool :=
  Z.leb (- 2 ^ 31) n && Z.ltb n (2 ^ 31).

Definition int64 (n : Z) : bool :=
  Z.leb (- 2 ^ 63) n && Z.ltb n (2 ^ 63).

(** [select(Ticket).where(Ticket.ticket_id == ticket_id)], [.first()] *)
Definition ticket_by_id (id : Z) (d : Database) : option Ticket :=
  List.find (fun t => Z.eqb (ticket_id t) id) (tickets d).

Definition with_active (value : bool) (t : Ticket) : Ticket :=
  {| ticket_id := ticket_id t;
     ticket_telegram_id := ticket_telegram_id t;
     ticket_active := value;
     ticket_closed_by_user := ticket_closed_by_user t |}.

(** The [UPDATE] that a commit issues for [ticket.active = value]: by the
    primary key of the row. *)
Definition set_active (id : Z) (value : bool) (d : Database) : unit * Database :=
  ((), {| users := users d;
          tickets := (fun t => if Z.eqb (ticket_id t) id
                               then with_active value t else t) <$> tickets d;
          questions := questions d;
          faults := faults d |}).

(** The three closing functions read the ticket and, when there is one,
    set [ticket.active] and commit; a failure of the database goes to the
    caller. *)
Definition close_ticket (id : Z) : App unit :=
  ticket ← core (session_execute (ticket_by_id id));
  match ticket with
  | Some ticket =>
      core (session_commit (accepted (set_active id false)));;
      note INFO (TicketClosed id)
  | None => note WARNING (TicketNotFound id)
  end.

Definition close_ticket_by_admin (id : Z) : App unit :=
  ticket ← core (session_execute (ticket_by_id id));
  match ticket with
  | Some ticket =>
      core (session_commit (accepted (set_active id false)));;
      note INFO (TicketClosedByAdmin id)
  | None => note WARNING (TicketNotFound id)
  end.

Definition close_ticket_by_user (id : Z) : App unit :=
  ticket ← core (session_execute (ticket_by_id id));
  match ticket with
  | Some ticket =>
      core (session_commit (accepted (set_active id (negb (ticket_active ticket)))));;
      note INFO (TicketStatusChanged id)
  | None => note WARNING (TicketNotFound id)
  end.

(** The three selections have no [ORDER BY]: the server may return the
    rows in any order.  The model lists them in the order of the table, and
    the statements about listings hold up to the order.

    [select(Ticket).where(Ticket.telegram_id == user_id)
    .where(Ticket.closed_by_user == False)] *)
Definition select_user_tickets (user_id : Z) (d : Database) : list Ticket :=
  List.filter (fun t => Z.eqb (ticket_telegram_id t) user_id
                        && negb (ticket_closed_by_user t)) (tickets d).

(** [select(Ticket).where(Ticket.active == False)] *)
Definition select_closed_tickets (d : Database) : list Ticket :=
  List.filter (fun t => negb (ticket_active t)) (tickets d).

(** [select(Ticket).where(Ticket.telegram_id == user_id,
    Ticket.closed_by_user == True)] *)
Definition select_user_closed_tickets (user_id : Z) (d : Database) : list Ticket :=
  List.filter (fun t => Z.eqb (ticket_telegram_id t) user_id
                        && ticket_closed_by_user t) (tickets d).

(** The three listings: one reading each. *)
Definition get_user_tickets (user_id : Z) : App (list Ticket) :=
  found ← core (session_execute (select_user_tickets user_id));
  note INFO (UserTickets user_id found);;
  mret found.

Definition get_closed_tickets : App (list Ticket) :=
  found ← core (session_execute select_closed_tickets);
  note INFO (ClosedTickets found);;
  mret found.

Definition get_user_closed_tickets (user_id : Z) : App (list Ticket) :=
  found ← core (session_execute (select_user_closed_tickets user_id));
  note INFO (UserClosedTickets user_id found);;
  mret found.

(** The question and the new state of the ticket reach the tables in one
    commit, or neither does. *)
Definition reopen_with_question (user_id id : Z) (text subject : string)
    (d : Database) : Outcome (Question * Database) :=
  added ← new_question user_id id text subject d;
  mret (added.1, (set_active id true added.2).2).

(** [add_question_to_ticket(user_id, ticket_id, question_text, subject)],
    called without media files, so that the loop over them is not entered;
    the time stamps are not part of the model. *)
Definition add_question_to_ticket (user_id id : Z) (text subject : string)
    : App Question :=
  ticket ← core (session_execute (ticket_by_id id));
  match ticket with
  | None =>
      app_raise (Exception "ValueError"
                   ("Тикет с id " +:+ pretty id +:+ " не найден."))
  | Some ticket =>
      new_question ← core (session_commit
                             (reopen_with_question user_id id text subject));
      note INFO (QuestionAddedToTicket id);;
      mret new_question
  end.

(* ================================================================== *)
(** * chat_handlers.handle_mention *)

(** [s.replace(old, EmptyString)] for a pattern [old] that is not empty:
    the occurrences are removed from left to right, [skip] counting the
    characters of an occurrence still to be dropped. *)
Fixpoint remove_from (old s : string) (skip : nat) : string :=
  match s with
  | EmptyString => EmptyString
  | String c rest =>
      match skip with
      | S n => remove_from old rest n
      | O =>
          if String.prefix old s
          then remove_from old rest (String.length old - 1)
          else String c (remove_from old rest 0)
      end
  end.

Definition remove_all (old s : string) : string := remove_from old s 0.

(** [message.text or message.caption] *)
Definition text_or_caption (message : Message) : option string :=
  match message_text message with
  | Some (String c rest) => Some (String c rest)
  | _ => message_caption message
  end.

(** [await message.reply(text)] *)
Definition reply (message : Message) (text : string) : App unit :=
  record (ReplyCall text);;
  app_lift (message_reply message text).

Definition no_question_reply : string :=
  "Вы не задали вопрос. Пожалуйста, введите ваш вопрос.".
Definition ticket_reply : string :=
  "Не найдено релевантных документов. Ваш вопрос зарегистрирован как новый тикет.".
Definition chat_subject : string := "Вопрос из чата".

(** The [if not similar_docs: ... else: ...] of [handle_mention].  Every
    element of the list that the search returns is a dictionary with the
    key [text], so the comprehension keeps them all. *)
Definition respond (env : Env) (message : Message) (text : string)
    (similar_docs : list ProcessedDoc) : App unit :=
  match similar_docs with
  | [] => reply message ticket_reply
  | _ :: _ =>
      note INFO (SimilarDocuments similar_docs);;
      let input_documents :=
        (fun doc => {[ "page_content" := doc_text doc ]}) <$> similar_docs in
      note INFO (ChainRequest input_documents);;
      answer ← core (generate_response_with_gpt (env_gpt env) (IAM_TOKEN env)
                       (FOLDER_ID env) text input_documents default_token_limit);
      reply message answer
  end.

(** The [except Exception as e] clause of [handle_mention]. *)
Definition mention_failed (env : Env) (message : Message) (e : PyExc)
    : App unit :=
  note ERROR (RagFailed e);;
  reply message ("Произошла ошибка: " +:+ env_str env e).

(** The [try] statement of [handle_mention], for the question [text]. *)
Definition answer_mention (env : Env) (message : Message) (text : string)
    : App unit :=
  app_try_except
    (knowledge_base ← initialize_chroma_client env "knowledge_base"
                                              (CHROMA_PERSIST_DIR env);
     from_user ←
       match message_from_user message with
       | Some from_user => mret from_user
       | None =>
           app_raise (Exception "AttributeError"
                        "'NoneType' object has no attribute 'id'")
       end;
     similar_docs ← core (search_similar_docs knowledge_base text 3
                            default_threshold (Some from_user.1)
                            chat_subject (Some from_user.2));
     respond env message text similar_docs)
    (mention_failed env message).

(** The text is taken to hold no white space outside ASCII, as the names
    are. *)
Definition handle_mention (env : Env) (message : Message) : App unit :=
  record GetMeCall;;
  bot_username ← app_lift (message_get_me message);
  match text_or_caption message with
  | None =>
      app_raise (Exception "AttributeError"
                   "'NoneType' object has no attribute 'replace'")
  | Some raw =>
      let text := strip (remove_all ("@" +:+ bot_username) raw) in
      match text with
      | EmptyString => reply message no_question_reply
      | String _ _ => answer_mention env message text
      end
  end.

(* ================================================================== *)
(** * Observations on the journal *)

Definition add_steps (sts : list Step) (s : Site) : Site :=
  {| world := world s; journal := journal s ++ sts |}.

Definition is_note (st : Step) : bool :=
  match st with Noted _ _ => true | _ => false end.

(** The texts sent to the chat, in order. *)
Definition replies (j : list Step) : list string :=
  omap (fun st => match st with ReplyCall text => Some text | _ => None end) j.

(** The deletions asked of the vector index, in order. *)
Definition delete_calls (j : list Step) : list (list string) :=
  omap (fun st => match st with DeleteCall ids => Some ids | _ => None end) j.

(** The readings asked of the vector index, in order. *)
Definition get_calls (j : list Step) : list GetArgs :=
  omap (fun st => match st with GetCall args => Some args | _ => None end) j.

(** [s'] is [s] after some log records, and nothing else. *)
Definition noted (s s' : Site) : Prop :=
  exists sts, forallb is_note sts = true /\ s' = add_steps sts s.

(* ================================================================== *)
(** * What the other functions compute *)

(** The ids of the tickets that a user finds under the open and under the
    closed tickets. *)
Definition user_lists (user_id : Z) (d : Database) : list Z * list Z :=
  (ticket_id <$> select_user_tickets user_id d,
   ticket_id <$> select_user_closed_tickets user_id d).

(** Two pairs of listings that hold the same tickets, whatever the order
    in which the server returned them. *)
Definition same_lists (a b : list Z * list Z) : Prop :=
  a.1 ≡ₚ b.1 /\ a.2 ≡ₚ b.2.

(** The username and the full name that [add_question] writes for a
    Telegram user fit their columns. *)
Definition names_fit (from_user : option TgUser) : bool :=
  match from_user with
  | Some u =>
      varchar 30 (default EmptyString (tg_username u))
      && varchar 100 (full_name_of u)
  | None => true
  end.




(** The arguments of the two readings. *)
Definition listing_args (limit : Z) : GetArgs :=
  {| arg_ids := None;
     arg_include := Some ["documents"; "metadatas"];
     arg_limit := Some limit |}.

Definition all_items_args : GetArgs :=
  {| arg_ids := None; arg_include := None; arg_limit := None |}.

(** The ids that [clear_chroma_collection] asks to delete. *)
Definition ids_to_delete (knowledge_base : CollectionHandle) (c : Collection)
    : option (list string) :=
  match kb_get knowledge_base c all_items_args with
  | Returns (Some all_items) =>
      match got_ids all_items with
      | Value (id :: more) => Some (id :: more)
      | _ => None
      end
  | _ => None
  end.

(** [load_text_file] without its log record: the text, the 404 for a file
    that is not there, or the exception of [open]. *)
Definition file_text (env : Env) (file_path : string) : Outcome string :=
  match env_open env file_path with
  | Returns text => Returns text
  | Raises e =>
      if is_file_not_found e
      then Raises (HTTPException 404 "Файл не найден")
      else Raises e
  end.

(** The handle that [initialize_chroma_client] gives. *)
Definition opened_collection (env : Env) (collection_name : string)
    (persist_directory : option string) : Outcome KnowledgeBase :=
  chroma_client ← env_client env persist_directory;
  model ← env_model env "distiluse-base-multilingual-cased-v1";
  get_or_create_collection chroma_client collection_name
                           (EmbeddingFunctionWrapper model).

(** What [load_embeddings] holds when it reaches [add_documents_to_chroma]:
    the chunks of the file, the model and the handle, or the exception
    raised on the way. *)
Definition prepared (env : Env) (model_name txt_path : string)
    : Outcome (list Chunk * SentenceTransformer * KnowledgeBase) :=
  text ← file_text env txt_path;
  chunks ← split_text_into_chunks (env_splitter env) text
             default_chunk_size default_chunk_overlap;
  model ← env_model env model_name;
  knowledge_base ← opened_collection env "knowledge_base" (CHROMA_PERSIST_DIR env);
  mret (chunks, model, knowledge_base).


Definition load_error (env : Env) (e : PyExc) : PyExc :=
  HTTPException 500 ("Ошибка при загрузке эмбеддингов: " +:+ env_str env e).

(** The value under [text] of a dictionary that has the key. *)
Definition text_field (doc : SimilarDoc) : option Document :=
  match doc with
  | DictDoc fields => fields !! "text"
  | OtherDoc => None
  end.

(** The document built from an element, if it is a dictionary with the key
    and the class accepts the value. *)
Definition built {D} (Document_ : Document -> Outcome D) (doc : SimilarDoc)
    : option D :=
  text ← text_field doc;
  match Document_ text with
  | Returns document => Some document
  | Raises _ => None
  end.

(** An element of the list that the search returns, as the Python
    dictionary it is. *)
Definition as_dict (doc : ProcessedDoc) : SimilarDoc :=
  DictDoc {[ "text" := DocStr (doc_text doc) ]}.

(* ================================================================== *)
(** * Fixtures of the service *)

(** A document class that wants a string as [page_content], as the one of
    langchain does. *)
Record PageDocument : Type := { page_content : string }.

Definition strict_document (page : Document) : Outcome PageDocument :=
  match page with
  | DocStr s => Returns {| page_content := s |}
  | DocNone => Raises (Exception "ValidationError" "page_content: str type expected")
  end.

Definition fresh_site : Site := {| world := fresh_world; journal := [] |}.

(** A handle whose [get] lists what the collection holds and whose
    [delete] removes the ids it is given. *)
Definition listing_handle : CollectionHandle :=
  {| kb_get := fun c _ =>
       Returns (Some {| got_ids := Value (map_to_list (entries c)).*1;
                        got_documents :=
                          Value ((fun row => DocStr (entry_document row.2))
                                   <$> map_to_list (entries c));
                        got_metadatas :=
                          Value ((fun _ => None) <$> map_to_list (entries c)) |});
     kb_delete := fun c ids =>
       Returns {| dimension := dimension c;
                  entries := foldr base.delete (entries c) ids |} |}.

(** A handle of an index that is out of order. *)
Definition failing_handle (e : PyExc) : CollectionHandle :=
  {| kb_get := fun _ _ => Raises e;
     kb_delete := fun _ _ => Raises e |}.

(** A handle that answers every reading with the same dictionary and
    accepts every deletion without doing anything. *)
Definition answering_handle (r : GetResult) : CollectionHandle :=
  {| kb_get := fun _ _ => Returns (Some r);
     kb_delete := fun c _ => Returns c |}.

(** The dictionary that [get] gives for a collection without entries. *)
Definition empty_get_result : GetResult :=
  {| got_ids := Value []; got_documents := Value []; got_metadatas := Value [] |}.

(** A collection with the two chunks about refunds. *)
Definition refund_collection : Collection :=
  ingested refund_chunks (constant_model [1; 0; 0]%float) Chroma.empty.

Definition refund_site : Site :=
  {| world := {| collection := refund_collection; db := empty_database;
                 trace := [] |};
     journal := [] |}.

(** A database with two tickets of user 7: one open, and one that an
    administrator has closed. *)
Definition two_tickets : Database :=
  {| users := {[ 7%Z := {| user_username := Some "ann";
                           user_full_name := "Ann";
                           user_is_admin := false |} ]};
     tickets := [ {| ticket_id := 1; ticket_telegram_id := 7;
                     ticket_active := true; ticket_closed_by_user := false |};
                  {| ticket_id := 2; ticket_telegram_id := 7;
                     ticket_active := false; ticket_closed_by_user := false |} ];
     questions := [ {| question_id := 1; question_telegram_id := 7;
                       question_ticket_id := 1; question_text := "refund window";
                       question_subject := "Вопрос из чата" |} ];
     faults := None |}.

Definition ticket_site : Site :=
  {| world := {| collection := Chroma.empty; db := two_tickets; trace := [] |};
     journal := [] |}.

(** A message of user 7 in a group chat, with a bot that is called
    [support_bot] and a chat that takes every reply. *)
Definition mention (text : string) : Message :=
  {| message_text := Some text;
     message_caption := None;
     message_from_user :=
       Some (7%Z, {| tg_username := Some "ann"; tg_first_name := Some "Ann";
                     tg_last_name := None |});
     message_get_me := Returns "support_bot";
     message_reply := fun _ => Returns () |}.

Definition down_site : Site :=
  {| world := world_without_database; journal := [] |}.

(** Python's [str] on the exceptions of this code: the message, and for an
    [HTTPException] the status and the detail. *)
Definition python_str (e : PyExc) : string :=
  match e with
  | Exception _ msg => msg
  | HTTPException status_code detail => pretty status_code +:+ ": " +:+ detail
  end.

(** A file system with one file. *)
Definition one_file (file_path text : string) : string -> Outcome string :=
  fun asked =>
    if String.eqb asked file_path then Returns text
    else Raises (Exception "FileNotFoundError"
                   ("[Errno 2] No such file or directory: " +:+ asked)).

(** A file system with two files. *)
Definition two_files (path_a text_a path_b text_b : string)
    : string -> Outcome string :=
  fun asked =>
    if String.eqb asked path_a then Returns text_a
    else one_file path_b text_b asked.

(** An environment in which the libraries work: the splitter cuts a text
    into its words, there is one model and one index. *)
Definition working_env (file : string -> Outcome string)
    (model : SentenceTransformer) (index : KnowledgeBase) (gpt : YandexGPT)
    : Env :=
  {| env_str := python_str;
     env_open := file;
     env_splitter := fun _ _ =>
       Returns {| split_text := fun text => Returns (String.words text) |};
     env_model := fun _ => Returns model;
     env_client := fun _ =>
       Returns {| get_or_create_collection := fun _ _ => Returns index |};
     env_gpt := gpt;
     IAM_TOKEN := Some "token";
     FOLDER_ID := Some "folder";
     CHROMA_PERSIST_DIR := Some "/data/chroma" |}.


(* ================================================================== *)
(** * The order of floats *)

Module PyFloatFacts.

Import PyFloat.

Lemma gt_cmp x y : gt x y = match cmp y x with Some Lt => true | _ => false end.
Proof. unfold gt, cmp. rewrite FloatAxioms.ltb_spec. reflexivity. Qed.

Lemma le_cmp x y :
  le x y = match cmp x y with Some (Lt | Eq) => true | _ => false end.
Proof. unfold le, cmp. rewrite FloatAxioms.leb_spec. reflexivity. Qed.

Lemma eqb_cmp x y : eqb x y = match cmp x y with Some Eq => true | _ => false end.
Proof. unfold eqb, cmp. rewrite FloatAxioms.eqb_spec. reflexivity. Qed.

(** The comparison of the specification floats is antisymmetric... *)
Lemma SFcompare_swap (a b : spec_float) :
  SFcompare b a = CompOpp <$> SFcompare a b.
Proof.
  destruct a as [sa| sa | |sa ma ea], b as [sb|sb| |sb mb eb]; simpl;
    try reflexivity; try (destruct sa; reflexivity);
    try (destruct sb; reflexivity); try (destruct sa, sb; reflexivity).
  destruct sa, sb; simpl; try reflexivity;
    rewrite (Z.compare_antisym ea eb);
    destruct (ea ?= eb)%Z eqn:E; simpl; try reflexivity;
    rewrite ?(Pos.compare_cont_antisym ma mb Eq); simpl;
    rewrite ?CompOpp_involutive; reflexivity.
Qed.

(** ... and a number is comparable with itself unless it is NaN. *)
Lemma SFcompare_refl (a : spec_float) :
  SFcompare a a = match a with S754_nan => None | _ => Some Eq end.
Proof.
  destruct a as [s|s| |s m e]; simpl; try reflexivity.
  - destruct s; reflexivity.
  - destruct s; rewrite Z.compare_refl; fold (Pos.compare m m);
      rewrite Pos.compare_refl; reflexivity.
Qed.

Lemma SFcompare_none (a b : spec_float) :
  SFcompare a b = None <-> a = S754_nan \/ b = S754_nan.
Proof.
  destruct a as [sa|sa| |sa ma ea], b as [sb|sb| |sb mb eb]; simpl;
    split; intros H; try discriminate; auto;
    try (destruct H; discriminate).
Qed.

Ltac cmp_cases :=
  repeat match goal with
  | H : context [Pos.compare_cont Eq ?a ?b] |- _ =>
      change (Pos.compare_cont Eq a b) with (Pos.compare a b) in H
  | |- context [Pos.compare_cont Eq ?a ?b] =>
      change (Pos.compare_cont Eq a b) with (Pos.compare a b)
  end;
  repeat match goal with
  | H : context [(?a ?= ?b)%Z] |- _ =>
      destruct (Z.compare_spec a b); simpl in H; try discriminate H
  | H : context [(?a ?= ?b)%positive] |- _ =>
      destruct (Pos.compare_spec a b); simpl in H; try discriminate H
  | |- context [(?a ?= ?b)%Z] => destruct (Z.compare_spec a b); simpl
  | |- context [(?a ?= ?b)%positive] => destruct (Pos.compare_spec a b); simpl
  end; try reflexivity; try discriminate; try lia.

(** [x <= y] and [y <= z] give [x <= z]. *)
Lemma SFleb_trans (a b c : spec_float) :
  SFleb a b = true -> SFleb b c = true -> SFleb a c = true.
Proof.
  unfold SFleb.
  destruct a as [sa|sa| |sa ma ea], b as [sb|sb| |sb mb eb],
           c as [sc|sc| |sc mc ec]; simpl;
    repeat match goal with s : bool |- _ => destruct s end; simpl;
    try discriminate; try reflexivity.
  all: intros H1 H2; cmp_cases.
Qed.

Lemma isnan_cmp x : isnan x = true <-> Prim2SF x = S754_nan.
Proof.
  unfold isnan. fold (eqb x x). rewrite eqb_cmp. unfold cmp.
  rewrite SFcompare_refl. destruct (Prim2SF x); simpl; split; congruence.
Qed.

Lemma le_trans x y z : le x y = true -> le y z = true -> le x z = true.
Proof. unfold le. rewrite !FloatAxioms.leb_spec. apply SFleb_trans. Qed.

(** [x <= y] excludes [x > y] ... *)
Lemma le_not_gt x y : le x y = true -> gt x y = false.
Proof.
  rewrite le_cmp, gt_cmp. unfold cmp.
  rewrite (SFcompare_swap (Prim2SF x) (Prim2SF y)).
  destruct (SFcompare (Prim2SF x) (Prim2SF y)) as [[]|]; simpl; congruence.
Qed.

(** ... and, NaN apart, [not (x > y)] is [x <= y]. *)
Lemma not_gt_le x y :
  isnan x = false -> isnan y = false -> gt x y = false -> le x y = true.
Proof.
  intros Hx Hy. rewrite le_cmp, gt_cmp. unfold cmp.
  rewrite (SFcompare_swap (Prim2SF x) (Prim2SF y)).
  destruct (SFcompare (Prim2SF x) (Prim2SF y)) as [[]|] eqn:E; simpl;
    try congruence.
  apply SFcompare_none in E as [E|E]; apply isnan_cmp in E; congruence.
Qed.

Lemma le_not_nan x y : le x y = true -> isnan x = false /\ isnan y = false.
Proof.
  rewrite le_cmp. unfold cmp. intros H.
  split; apply not_true_is_false; intros Hn; apply isnan_cmp in Hn;
    rewrite Hn in H; simpl in H; try discriminate.
  destruct (Prim2SF x); discriminate.
Qed.

(** A comparison with NaN is false, whichever way round. *)
Lemma gt_nan_l x y : isnan x = true -> gt x y = false.
Proof.
  intros H. rewrite gt_cmp. unfold cmp. apply isnan_cmp in H. rewrite H.
  destruct (Prim2SF y); reflexivity.
Qed.

Lemma gt_nan_r x y : isnan y = true -> gt x y = false.
Proof.
  intros H. rewrite gt_cmp. unfold cmp. apply isnan_cmp in H. rewrite H.
  reflexivity.
Qed.

(** Raising the threshold keeps every distance that was not above it. *)
Lemma gt_mono d t1 t2 : le t1 t2 = true -> gt d t1 = false -> gt d t2 = false.
Proof.
  intros H12 H1. destruct (isnan d) eqn:Hd; [by apply gt_nan_l|].
  apply le_not_gt. apply le_trans with t1; [|done].
  apply not_gt_le; [done| |done]. by apply le_not_nan in H12 as [? ?].
Qed.

End PyFloatFacts.

Lemma eqb_le x y : PyFloat.eqb x y = true -> PyFloat.le x y = true.
Proof.
  rewrite PyFloatFacts.eqb_cmp, PyFloatFacts.le_cmp.
  by destruct (PyFloat.cmp x y) as [[]|].
Qed.

(* ================================================================== *)
(** * Runs of the monad *)

Lemma add_events_nil w : add_events [] w = w.
Proof. destruct w. unfold add_events. simpl. by rewrite app_nil_r. Qed.

Lemma add_events_app evs1 evs2 w :
  add_events evs2 (add_events evs1 w) = add_events (evs1 ++ evs2) w.
Proof. unfold add_events. simpl. by rewrite app_assoc. Qed.

Lemma logged_refl w : logged w w.
Proof. exists []. by rewrite add_events_nil. Qed.

Lemma logged_trans w1 w2 w3 : logged w1 w2 -> logged w2 w3 -> logged w1 w3.
Proof.
  intros (evs1 & H1 & ->) (evs2 & H2 & ->). exists (evs1 ++ evs2).
  rewrite add_events_app, forallb_app, H1, H2. done.
Qed.

Lemma logged_log level msg w : logged w (add_event (Log level msg) w).
Proof. by exists [Log level msg]. Qed.

Lemma logs_no_ticket_call evs :
  forallb is_log evs = true -> ticket_calls evs = [].
Proof.
  induction evs as [|ev evs IH]; [done|]. simpl.
  intros [Hev Hevs]%andb_prop. destruct ev; try discriminate. by apply IH.
Qed.

Lemma logs_no_upsert_call evs :
  forallb is_log evs = true -> upsert_calls evs = [].
Proof.
  induction evs as [|ev evs IH]; [done|]. simpl.
  intros [Hev Hevs]%andb_prop. destruct ev; try discriminate. by apply IH.
Qed.

Lemma bind_run {A B} (m : M A) (f : A -> M B) w :
  (m ≫= f) w = match m w with
               | (Returns a, w') => f a w'
               | (Raises e, w') => (Raises e, w')
               end.
Proof. reflexivity. Qed.

Lemma logging_run level msg w :
  logging level msg w = (Returns (), add_event (Log level msg) w).
Proof. reflexivity. Qed.

Lemma emit_run ev w : emit ev w = (Returns (), add_event ev w).
Proof. reflexivity. Qed.

Lemma ret_run {A} (a : A) w : (mret a : M A) w = (Returns a, w).
Proof. reflexivity. Qed.

Lemma gets_run {A} (f : World -> A) w : gets f w = (Returns (f w), w).
Proof. reflexivity. Qed.

Lemma lift_run {A} (o : Outcome A) w : lift o w = (o, w).
Proof. reflexivity. Qed.

Lemma raise_run {A} (e : PyExc) w : (raise e : M A) w = (Raises e, w).
Proof. reflexivity. Qed.

Lemma try_except_run {A} (body : M A) (handler : PyExc -> M A) w :
  try_except body handler w = match body w with
                              | (Returns a, w') => (Returns a, w')
                              | (Raises e, w') => handler e w'
                              end.
Proof. reflexivity. Qed.

Ltac step :=
  first [ rewrite bind_run | rewrite try_except_run | rewrite logging_run
        | rewrite emit_run | rewrite ret_run | rewrite gets_run
        | rewrite lift_run | rewrite raise_run ];
  cbv beta iota.

Ltac steps := repeat step.

Lemma query_run knowledge_base query_texts k w :
  query knowledge_base query_texts k w =
    (kb_query knowledge_base (collection w) query_texts k,
     add_event (QueryCall query_texts k) w).
Proof. reflexivity. Qed.

(* ================================================================== *)
(** * The loops of the search *)

Lemma visit_run r t idx c acc w :
  exists w', logged w w' /\
    visit r t idx c acc w =
      (match metadata_at r idx with
       | Returns _ => Returns (acc ++ option_list (keep t c))
       | Raises e => Raises e
       end, w').
Proof.
  destruct c as [doc distance]. unfold visit, keep. simpl.
  rewrite bind_run. unfold lift.
  destruct (metadata_at r idx) as [m|e]; [|exists w; split; [apply logged_refl|done]].
  rewrite bind_run, logging_run.
  destruct (PyFloat.gt distance t).
  - rewrite bind_run, logging_run. eexists. split; [|by rewrite app_nil_r].
    eapply logged_trans; apply logged_log.
  - destruct doc as [s|].
    + eexists. split; [apply logged_log|done].
    + rewrite bind_run, logging_run. eexists. split; [|by rewrite app_nil_r].
      eapply logged_trans; apply logged_log.
Qed.

Lemma inner_loop_run r t idx cands acc w :
  exists w', logged w w' /\
    for_each cands (visit r t idx) acc w =
      (match cands, metadata_at r idx with
       | _ :: _, Raises e => Raises e
       | _, _ => Returns (acc ++ omap (keep t) cands)
       end, w').
Proof.
  revert acc w. induction cands as [|c cands IH]; intros acc w.
  - exists w. split; [apply logged_refl|]. simpl. rewrite app_nil_r.
    by destruct (metadata_at r idx).
  - simpl. rewrite bind_run.
    destruct (visit_run r t idx c acc w) as (w1 & Hw1 & ->).
    destruct (metadata_at r idx) as [m|e] eqn:Hm; [|by exists w1].
    destruct (IH (acc ++ option_list (keep t c)) w1) as (w2 & Hw2 & ->).
    exists w2. split; [by eapply logged_trans|].
    f_equal.
    destruct cands; simpl; destruct (keep t c); simpl;
      rewrite <- ?app_assoc; done.
Qed.

Lemma outer_loop_run r t rows acc w :
  exists w', logged w w' /\
    for_each rows (visit_row r t) acc w =
      (match row_error r rows with
       | Some e => Raises e
       | None => Returns (acc ++ omap (keep t) (flat_map row_candidates rows))
       end, w').
Proof.
  revert acc w. induction rows as [|row rows IH]; intros acc w.
  - exists w. split; [apply logged_refl|]. simpl. by rewrite app_nil_r.
  - destruct row as [idx [dl dsl]].
    cbn [for_each row_error flat_map]. rewrite bind_run.
    change (visit_row r t (idx, (dl, dsl)) acc)
      with (for_each (zip dl dsl) (visit r t idx) acc).
    change (row_candidates (idx, (dl, dsl))) with (zip dl dsl).
    cbn [fst].
    destruct (inner_loop_run r t idx (zip dl dsl) acc w) as (w1 & Hw1 & ->).
    assert (Hnext : forall acc1,
      exists w2, logged w w2 /\
        for_each rows (visit_row r t) acc1 w1 =
          (match row_error r rows with
           | Some e => Raises e
           | None => Returns (acc1 ++ omap (keep t) (flat_map row_candidates rows))
           end, w2)).
    { intros acc1. destruct (IH acc1 w1) as (w2 & Hw2 & ->).
      exists w2. split; [by eapply logged_trans|done]. }
    destruct (zip dl dsl) as [|c cands].
    + destruct (Hnext (acc ++ omap (keep t) [])) as (w2 & Hw2 & Heq).
      exists w2. split; [done|].
      assert (Hrun : for_each rows (visit_row r t) (acc ++ omap (keep t) []) w1 =
        (match row_error r rows with
         | Some e => Raises e
         | None => Returns (acc ++ omap (keep t) (flat_map row_candidates rows))
         end, w2)).
      { rewrite Heq. simpl. by rewrite app_nil_r. }
      by destruct (metadata_at r idx).
    + destruct (metadata_at r idx) as [m|e]; [|by exists w1].
      destruct (Hnext (acc ++ omap (keep t) (c :: cands))) as (w2 & Hw2 & ->).
      exists w2. split; [done|].
      destruct (row_error r rows); [done|].
      by rewrite omap_app, app_assoc.
Qed.

(* ================================================================== *)
(** * The ticket collaborator *)

Lemma quiet_refl w : quiet w w.
Proof. split; [done|]. exists []. by rewrite app_nil_r. Qed.

Lemma quiet_trans w1 w2 w3 : quiet w1 w2 -> quiet w2 w3 -> quiet w1 w3.
Proof.
  intros [Hc1 (evs1 & H1 & Ht1)] [Hc2 (evs2 & H2 & Ht2)].
  split; [congruence|]. exists (evs1 ++ evs2).
  rewrite forallb_app, H1, H2, Ht2, Ht1, app_assoc. done.
Qed.

Lemma preserves_ret {A} (a : A) : preserves quiet (mret a).
Proof. intros w. apply quiet_refl. Qed.

Lemma preserves_bind {A B} (m : M A) (f : A -> M B) :
  preserves quiet m -> (forall a, preserves quiet (f a)) ->
  preserves quiet (m ≫= f).
Proof.
  intros Hm Hf w. rewrite bind_run. specialize (Hm w).
  destruct (m w) as [[a|e] w1]; simpl in *; [|done].
  eapply quiet_trans; [done|]. apply Hf.
Qed.

Lemma preserves_logging level msg : preserves quiet (logging level msg).
Proof.
  intros w. split; [done|]. exists [Log level msg]. done.
Qed.

Lemma preserves_roundtrip : preserves quiet roundtrip.
Proof.
  intros w. unfold roundtrip.
  destruct (faults (db w)) as [[|n]|]; simpl; try apply quiet_refl.
  split; [done|]. exists []. by rewrite app_nil_r.
Qed.

Lemma preserves_session_execute {A} (read : Database -> A) :
  preserves quiet (session_execute read).
Proof.
  apply preserves_bind; [apply preserves_roundtrip|].
  intros _ w. apply quiet_refl.
Qed.

(** A commit: one exchange, then the change or its refusal. *)
Lemma session_commit_run {A} (change : Database -> Outcome (A * Database)) w :
  session_commit change w
  = match roundtrip w with
    | (Returns _, w1) =>
        match change (db w1) with
        | Returns (a, d) => (Returns a, set_db d w1)
        | Raises e => (Raises e, w1)
        end
    | (Raises e, w1) => (Raises e, w1)
    end.
Proof.
  unfold session_commit. rewrite bind_run.
  destruct (roundtrip w) as [[[]|e] w1]; [|done]. steps.
  destruct (change (db w1)) as [[a d]|e]; steps; done.
Qed.

Lemma preserves_session_commit {A} (change : Database -> Outcome (A * Database)) :
  preserves quiet (session_commit change).
Proof.
  intros w. rewrite session_commit_run.
  pose proof (preserves_roundtrip w) as Hquiet.
  destruct (roundtrip w) as [[[]|e] w1]; [|done]. cbn [snd] in Hquiet.
  destruct (change (db w1)) as [[a d]|e]; [|done]. cbn [snd].
  eapply quiet_trans; [exact Hquiet|].
  split; [done|]. exists []. by rewrite app_nil_r.
Qed.

(** A call of [add_question] is recorded once; after that the function logs
    and works on the database, and on nothing else. *)
Lemma add_question_run user_id question_text subject from_user w :
  exists o w',
    add_question user_id question_text subject from_user w = (o, w')
    /\ quiet (add_event (AddQuestionCall user_id question_text subject from_user) w)
             w'.
Proof.
  unfold add_question. rewrite bind_run.
  change (emit ?ev w) with (Returns (), add_event ev w). cbv iota beta.
  match goal with
  | |- context [?m (add_event ?ev w)] =>
      assert (Hq : preserves quiet m); [|specialize (Hq (add_event ev w));
        destruct (m (add_event ev w)) as [o w']; by exists o, w']
  end.
  repeat first
    [ apply preserves_session_execute
    | apply preserves_session_commit
    | apply preserves_logging
    | apply preserves_ret
    | apply preserves_bind
    | match goal with
      | |- forall _, preserves _ _ => intros ?
      | |- preserves _ (match ?x with _ => _ end) => destruct x
      | |- preserves _ (if ?x then _ else _) => destruct x
      end ].
Qed.

Lemma quiet_ticket_calls w w' :
  quiet w w' -> ticket_calls (trace w') = ticket_calls (trace w).
Proof.
  intros [_ (evs & Hevs & ->)]. unfold ticket_calls.
  rewrite List.filter_app. fold (ticket_calls evs).
  by rewrite (logs_no_ticket_call _ Hevs), app_nil_r.
Qed.

Lemma logged_quiet w w' : logged w w' -> quiet w w' /\ db w' = db w.
Proof.
  intros (evs & Hevs & ->). split; [|done]. split; [done|]. by exists evs.
Qed.

Lemma roundtrip_down w :
  faults (db w) = Some 0 ->
  roundtrip w = (Raises (Exception "OperationalError" "database unavailable"), w).
Proof. intros H. unfold roundtrip. by rewrite H. Qed.

(** On a database that is down the first exchange fails. *)
Lemma add_question_database_down user_id text subject from_user w :
  faults (db w) = Some 0 ->
  add_question user_id text subject from_user w
  = (Raises (Exception "OperationalError" "database unavailable"),
     add_event (AddQuestionCall user_id text subject from_user) w).
Proof.
  intros H. unfold add_question, session_execute. steps.
  rewrite roundtrip_down by done. done.
Qed.

(* ================================================================== *)
(** * The search, step by step *)

Lemma logged_search_run w w' : logged w w' -> SearchRun w w' [].
Proof.
  intros (evs & Hevs & ->). split; simpl; try done.
  - unfold ticket_calls. rewrite List.filter_app. fold (ticket_calls evs).
    by rewrite (logs_no_ticket_call _ Hevs).
  - unfold upsert_calls. rewrite List.filter_app. fold (upsert_calls evs).
    by rewrite (logs_no_upsert_call _ Hevs), app_nil_r.
Qed.

Lemma search_run_query w w' q k calls :
  SearchRun (add_event (QueryCall q k) w) w' calls -> SearchRun w w' calls.
Proof.
  intros [Hc Ht Hu Hd]. split; try done.
  - rewrite Ht. simpl. unfold ticket_calls. rewrite List.filter_app.
    simpl. by rewrite app_nil_r.
  - rewrite Hu. simpl. unfold upsert_calls. rewrite List.filter_app.
    simpl. by rewrite app_nil_r.
Qed.

Lemma search_run_logged_l w1 w2 w3 calls :
  logged w1 w2 -> SearchRun w2 w3 calls -> SearchRun w1 w3 calls.
Proof.
  intros [Hc12 Ht12 Hu12 Hd12]%logged_search_run [Hc Ht Hu Hd].
  split; [congruence| | |].
  - by rewrite Ht, Ht12, app_nil_r.
  - by rewrite Hu.
  - intros Hnil. rewrite Hd, Hd12; done.
Qed.

Lemma search_run_logged_r w1 w2 w3 calls :
  SearchRun w1 w2 calls -> logged w2 w3 -> SearchRun w1 w3 calls.
Proof.
  intros [Hc Ht Hu Hd] [Hc23 Ht23 Hu23 Hd23]%logged_search_run.
  split; [congruence| | |].
  - by rewrite Ht23, app_nil_r.
  - by rewrite Hu23.
  - intros Hnil. rewrite Hd23, Hd; done.
Qed.

Lemma search_run_add_question w w' uid q s fu :
  quiet (add_event (AddQuestionCall uid q s fu) w) w' ->
  SearchRun w w' [AddQuestionCall uid q s fu].
Proof.
  intros Hq. split; [by destruct Hq| | |done].
  - rewrite (quiet_ticket_calls _ _ Hq). simpl. unfold ticket_calls.
    by rewrite List.filter_app.
  - destruct Hq as [_ (evs & Hevs & ->)]. simpl. unfold upsert_calls.
    rewrite !List.filter_app. fold (upsert_calls evs).
    rewrite (logs_no_upsert_call _ Hevs). simpl. by rewrite !app_nil_r.
Qed.

(** The search step by step: up to the test on [processed_docs] it queries
    the index and logs, reaching a world [w'], and only then, with an empty
    list and a user id, calls [add_question]; whatever that call does, and
    whatever was raised before, the search returns a list. *)
Lemma search_similar_docs_steps knowledge_base query_text k threshold user_id
    subject from_user w :
  exists w',
    logged (add_event (QueryCall [query_text] k) w) w' /\
    search_similar_docs knowledge_base query_text k threshold user_id
                        subject from_user w =
      match retrieved knowledge_base query_text k threshold (collection w),
            user_id with
      | Returns (Some []), Some uid =>
          match add_question uid query_text subject from_user w' with
          | (Returns question, w'') =>
              (Returns [],
               add_event (Log INFO (TicketCreated (question_ticket_id question) uid))
                         w'')
          | (Raises e, w'') =>
              (Returns [], add_event (Log ERROR (SearchFailed e)) w'')
          end
      | Returns (Some docs), _ => (Returns docs, w')
      | Returns None, _ => (Returns [], w')
      | Raises e, _ => (Returns [], w')
      end.
Proof.
  unfold search_similar_docs, try_except, retrieved.
  rewrite bind_run, query_run.
  set (w0 := add_event (QueryCall [query_text] k) w).
  destruct (kb_query knowledge_base (collection w) [query_text] k)
    as [results|e]; cbn [mbind Outcome_bind]; cbv beta iota.
  2: { eexists. split; [|reflexivity]. apply logged_log. }
  rewrite bind_run, logging_run.
  set (w1 := add_event (Log INFO (SearchResults results)) w0).
  assert (Hw1 : logged w0 w1) by apply logged_log.
  destruct (found_documents results) as [[r docs]|];
    cbn [mbind Outcome_bind]; cbv beta iota.
  2: { eexists. split; [|reflexivity].
       eapply logged_trans; [exact Hw1|apply logged_log]. }
  rewrite bind_run, logging_run.
  set (w2 := add_event (Log INFO (SimilarDocumentsFound (length docs))) w1).
  assert (Hw2 : logged w0 w2).
  { eapply logged_trans; [exact Hw1|apply logged_log]. }
  rewrite bind_run. unfold lift at 1.
  destruct (distances_of r) as [dists|e];
    cbn [mbind Outcome_bind]; cbv beta iota.
  2: { eexists. split; [|reflexivity].
       eapply logged_trans; [exact Hw2|apply logged_log]. }
  rewrite bind_run.
  destruct (outer_loop_run r threshold (enumerate (zip docs dists)) [] w2)
    as (w3 & Hw3 & ->); cbv beta iota.
  assert (Hw03 : logged w0 w3) by (eapply logged_trans; eauto).
  destruct (row_error r (enumerate (zip docs dists))) as [e|]; cbv beta iota.
  { eexists. split; [|reflexivity].
    eapply logged_trans; [exact Hw03|apply logged_log]. }
  cbn [app mret Outcome_ret].
  destruct (omap (keep threshold)
                 (flat_map row_candidates (enumerate (zip docs dists))))
    as [|doc docs']; cbv beta iota.
  2: { exists w3. split; [done|]. by destruct user_id. }
  rewrite bind_run, logging_run.
  set (w4 := add_event (Log INFO NoRelevantDocuments) w3).
  assert (Hw4 : logged w0 w4).
  { eapply logged_trans; [exact Hw03|apply logged_log]. }
  exists w4. split; [done|].
  destruct user_id as [uid|]; [|reflexivity].
  rewrite bind_run.
  destruct (add_question uid query_text subject from_user w4) as [[question|e] w5];
    reflexivity.
Qed.

(** Every run of the search returns, with the list [answer], and makes the
    calls [escalation] to the ticket collaborator. *)
Lemma search_similar_docs_run knowledge_base query_text k threshold user_id
    subject from_user w :
  exists w',
    search_similar_docs knowledge_base query_text k threshold user_id
                        subject from_user w
      = (Returns (answer knowledge_base query_text k threshold (collection w)), w')
    /\ SearchRun w w' (escalation knowledge_base query_text k threshold user_id
                                  subject from_user (collection w)).
Proof.
  destruct (search_similar_docs_steps knowledge_base query_text k threshold
              user_id subject from_user w) as (w1 & Hw1 & ->).
  unfold answer, escalation.
  assert (Hquiet : SearchRun w w1 []).
  { by eapply search_run_query, logged_search_run. }
  destruct (retrieved knowledge_base query_text k threshold (collection w))
    as [[[|doc docs]|]|e]; try (by eexists; split; [reflexivity|];
                                 destruct user_id).
  destruct user_id as [uid|]; [|by eexists].
  destruct (add_question_run uid query_text subject from_user w1)
    as (o & w2 & -> & Hq).
  apply search_run_add_question in Hq.
  assert (Hcall : forall w3, logged w2 w3 ->
    SearchRun w w3 [AddQuestionCall uid query_text subject from_user]).
  { intros w3 Hw3. eapply search_run_query.
    eapply search_run_logged_l; [exact Hw1|].
    eapply search_run_logged_r; [exact Hq|exact Hw3]. }
  destruct o as [question|e]; eexists; (split; [reflexivity|]);
    apply Hcall, logged_log.
Qed.

(* ================================================================== *)
(** * Responses of the index *)

Lemma numbered_candidates (start : nat) (l : list (list Document * list float)) :
  flat_map row_candidates (zip (seq start (length l)) l)
  = flat_map (fun rows => zip rows.1 rows.2) l.
Proof.
  revert start. induction l as [|x l IH]; intros start; [done|].
  simpl. by rewrite IH.
Qed.

Lemma numbered_row_error r metas (start : nat)
    (l : list (list Document * list float)) :
  metadatas r = Value metas -> start + length l <= length metas ->
  row_error r (zip (seq start (length l)) l) = None.
Proof.
  intros Hm. revert start. induction l as [|x l IH]; intros start Hlen; [done|].
  simpl in *. unfold metadata_at. rewrite Hm.
  destruct (lookup_lt_is_Some_2 metas start) as [row Hrow]; [lia|].
  rewrite Hrow. rewrite IH by lia. by destruct (row_candidates (start, x)).
Qed.

Lemma retrieved_cases knowledge_base query_text k threshold c docs :
  retrieved knowledge_base query_text k threshold c = Returns (Some docs) ->
  exists r, kb_query knowledge_base c [query_text] k = Returns (Some r)
            /\ docs = relevant threshold r.
Proof.
  unfold retrieved.
  destruct (kb_query knowledge_base c [query_text] k) as [[r|]|e];
    cbn; try discriminate.
  destruct (documents r) as [| |[|row more]] eqn:Hd; cbn; try discriminate.
  unfold distances_of.
  destruct (distances r) as [| |dists] eqn:Hs; cbn; try discriminate.
  destruct (row_error r _); [discriminate|]. intros [= <-].
  exists r. split; [done|]. unfold relevant, candidates, enumerate.
  by rewrite Hd, Hs, numbered_candidates.
Qed.

Lemma retrieved_well_formed knowledge_base query_text k threshold c r :
  kb_query knowledge_base c [query_text] k = Returns (Some r) ->
  well_formed r = true ->
  retrieved knowledge_base query_text k threshold c
  = Returns (Some (relevant threshold r)).
Proof.
  intros Hq Hwf. unfold retrieved, well_formed, relevant, candidates in *.
  rewrite Hq. cbn.
  destruct (documents r) as [| |[|row more]] eqn:Hd; try discriminate.
  unfold distances_of.
  destruct (distances r) as [| |dists] eqn:Hs; try discriminate.
  destruct (metadatas r) as [| |metas] eqn:Hm; try discriminate.
  apply andb_prop in Hwf as [Hl1%Nat.eqb_eq Hl2%Nat.eqb_eq]. cbn.
  unfold enumerate.
  rewrite (numbered_row_error r metas), numbered_candidates; [done|done|].
  destruct dists as [|drow dmore]; simpl in *; [lia|].
  rewrite length_zip_with. lia.
Qed.

Lemma answer_cases knowledge_base query_text k threshold c :
  answer knowledge_base query_text k threshold c = []
  \/ exists r, kb_query knowledge_base c [query_text] k = Returns (Some r)
               /\ answer knowledge_base query_text k threshold c
                  = relevant threshold r.
Proof.
  unfold answer.
  destruct (retrieved knowledge_base query_text k threshold c)
    as [[docs|]|e] eqn:Hr; auto.
  apply retrieved_cases in Hr as (r & Hq & ->). right. by exists r.
Qed.

Lemma keep_some threshold doc distance :
  is_Some (keep threshold (doc, distance))
  <-> (exists s, doc = DocStr s) /\ PyFloat.gt distance threshold = false.
Proof.
  unfold keep. simpl.
  destruct (PyFloat.gt distance threshold), doc as [s|]; split;
    try (intros [x Hx]; discriminate Hx);
    try (intros [[x Hx] Hg]; discriminate).
  - intros _. split; [by exists s|done].
  - intros _. by eexists.
Qed.

Lemma keep_mono t1 t2 c :
  PyFloat.le t1 t2 = true -> is_Some (keep t1 c) -> is_Some (keep t2 c).
Proof.
  destruct c as [doc d]. rewrite !keep_some. intros Hle [Hs Hgt].
  split; [done|]. by eapply PyFloatFacts.gt_mono.
Qed.

Lemma omap_length_mono {A B} (f g : A -> option B) (l : list A) :
  (forall x, is_Some (f x) -> is_Some (g x)) ->
  length (omap f l) <= length (omap g l).
Proof.
  intros Hfg. induction l as [|x l IH]; [done|].
  specialize (Hfg x). cbn [omap list_omap] in *.
  destruct (f x), (g x); cbn [length]; try lia.
  assert (Hg : is_Some (@None B)) by (apply Hfg; by eexists).
  destruct Hg as [y Hy]. discriminate Hy.
Qed.

Lemma omap_all_none {A B} (f : A -> option B) (l : list A) :
  Forall (fun x => f x = None) l -> omap f l = [].
Proof.
  induction 1 as [|x l Hx _ IH]; [done|]. simpl. by rewrite Hx.
Qed.

Lemma answer_mono knowledge_base query_text k t1 t2 c :
  PyFloat.le t1 t2 = true ->
  length (answer knowledge_base query_text k t1 c)
  <= length (answer knowledge_base query_text k t2 c).
Proof.
  intros Hle. unfold answer, retrieved.
  destruct (kb_query knowledge_base c [query_text] k) as [results|e];
    cbn; [|done].
  destruct (found_documents results) as [[r docs]|]; cbn; [|done].
  destruct (distances_of r) as [dists|e]; cbn; [|done].
  destruct (row_error r (enumerate (zip docs dists))); cbn; [done|].
  apply omap_length_mono. intros c0. by apply keep_mono.
Qed.

(** For a well-formed response: the list returned and the calls made. *)
Lemma search_response knowledge_base query_text k threshold user_id subject
    from_user w r :
  kb_query knowledge_base (collection w) [query_text] k = Returns (Some r) ->
  well_formed r = true ->
  (search_similar_docs knowledge_base query_text k threshold user_id subject
                       from_user w).1 = Returns (relevant threshold r)
  /\ ticket_calls (trace (search_similar_docs knowledge_base query_text k
                            threshold user_id subject from_user w).2)
     = ticket_calls (trace w)
       ++ match relevant threshold r, user_id with
          | [], Some uid => [AddQuestionCall uid query_text subject from_user]
          | _, _ => []
          end.
Proof.
  intros Hq Hwf.
  destruct (search_similar_docs_run knowledge_base query_text k threshold
              user_id subject from_user w) as (w' & -> & [_ Ht _ _]).
  unfold answer, escalation in *.
  by rewrite (retrieved_well_formed _ _ _ _ _ r Hq Hwf) in *.
Qed.

(* ================================================================== *)
(** * Escalation *)

(** C1, as amended.  A run of the search returns a list and makes at most
    one call to the ticket collaborator, and none when the list is not
    empty.  For a well-formed response of the index the list holds the
    documents that pass; when there is at least one, no call is made and the
    database is untouched; when there is none, exactly one call is made,
    with the query text and the subject given by the caller, provided a user
    id was given, and no call otherwise. *)
Theorem escalation_exclusive knowledge_base query_text k threshold user_id
    subject from_user w :
  let run := search_similar_docs knowledge_base query_text k threshold
                                 user_id subject from_user w in
  (exists docs calls,
     run.1 = Returns docs
     /\ ticket_calls (trace run.2) = ticket_calls (trace w) ++ calls
     /\ (calls = []
         \/ docs = []
            /\ exists uid, user_id = Some uid
                 /\ calls = [AddQuestionCall uid query_text subject from_user]))
  /\ forall r,
      kb_query knowledge_base (collection w) [query_text] k = Returns (Some r) ->
      well_formed r = true ->
      run.1 = Returns (relevant threshold r)
      /\ ticket_calls (trace run.2)
         = ticket_calls (trace w)
           ++ match relevant threshold r, user_id with
              | [], Some uid => [AddQuestionCall uid query_text subject from_user]
              | _, _ => []
              end
      /\ (relevant threshold r <> [] -> db run.2 = db w).
Proof.
  intros run. subst run.
  destruct (search_similar_docs_run knowledge_base query_text k threshold
              user_id subject from_user w) as (w' & Hrun & [_ Ht _ Hd]).
  unfold answer, escalation in *. rewrite Hrun. cbn [fst snd].
  split.
  { do 2 eexists. split; [reflexivity|]. split; [exact Ht|].
    destruct (retrieved knowledge_base query_text k threshold (collection w))
      as [[[|doc docs]|]|e]; auto.
    destruct user_id as [uid|]; [|by left]. right. split; [done|].
    by exists uid. }
  intros r Hq Hwf.
  rewrite (retrieved_well_formed _ _ _ _ _ r Hq Hwf) in *.
  split; [done|]. split; [done|].
  intros Hne. apply Hd. by destruct (relevant threshold r).
Qed.

(** With no user id and an index without entries nothing passes and no call
    is made, where C1 as stated wants exactly one. *)
Lemma search_without_user_opens_no_ticket :
  let run := search_similar_docs (answering empty_response) "anything"
               default_k default_threshold None default_subject None
               fresh_world in
  run.1 = Returns [] /\ ticket_calls (trace run.2) = [].
Proof. vm_compute. done. Qed.

(** The second scenario of the spec: an index without entries and a user. *)
Lemma escalation_exclusive_witness :
  let run := search_similar_docs (answering empty_response) "anything"
               default_k default_threshold (Some 7%Z) default_subject None
               fresh_world in
  run.1 = Returns []
  /\ ticket_calls (trace run.2)
     = [AddQuestionCall 7 "anything" default_subject None]
  /\ (@nil ProcessedDoc <> [] -> db run.2 = db fresh_world).
Proof.
  apply (proj2 (escalation_exclusive (answering empty_response) "anything"
                  default_k default_threshold (Some 7%Z) default_subject None
                  fresh_world) empty_response); reflexivity.
Defined.

(** C10.  Without a user id the search makes no call to the ticket
    collaborator and leaves the database alone; when no document passes it
    returns the empty list.  A call is made only for a user id. *)
Theorem no_user_no_ticket knowledge_base query_text k threshold subject
    from_user w :
  (forall r, kb_query knowledge_base (collection w) [query_text] k
             = Returns (Some r) -> relevant threshold r = []) ->
  let run := search_similar_docs knowledge_base query_text k threshold
                                 None subject from_user w in
  run.1 = Returns []
  /\ ticket_calls (trace run.2) = ticket_calls (trace w)
  /\ db run.2 = db w
  /\ forall user_id,
       ticket_calls (trace (search_similar_docs knowledge_base query_text k
                              threshold user_id subject from_user w).2)
       <> ticket_calls (trace w) ->
       is_Some user_id.
Proof.
  intros Hnone run. subst run.
  destruct (search_similar_docs_run knowledge_base query_text k threshold
              None subject from_user w) as (w' & -> & [_ Ht _ Hd]).
  assert (Hesc : escalation knowledge_base query_text k threshold None subject
                   from_user (collection w) = []).
  { unfold escalation. by destruct (retrieved _ _ _ _ _) as [[[|]|]|]. }
  rewrite Hesc, app_nil_r in Ht. simpl.
  repeat split; [|done|by apply Hd|].
  - destruct (answer_cases knowledge_base query_text k threshold (collection w))
      as [->|(r & Hq & ->)]; [done|]. by rewrite (Hnone r Hq).
  - intros [uid|] Hcalls; [by eexists|]. exfalso. apply Hcalls.
    destruct (search_similar_docs_run knowledge_base query_text k threshold
                None subject from_user w) as (w2 & -> & [_ Ht2 _ _]).
    by rewrite Hesc, app_nil_r in Ht2.
Qed.

Lemma no_user_no_ticket_witness :
  let run := search_similar_docs (answering (one_candidate (DocStr "far") 2))
               "anything" default_k default_threshold None default_subject
               None fresh_world in
  run.1 = Returns []
  /\ ticket_calls (trace run.2) = ticket_calls (trace fresh_world)
  /\ db run.2 = db fresh_world
  /\ forall user_id,
       ticket_calls (trace (search_similar_docs
                              (answering (one_candidate (DocStr "far") 2))
                              "anything" default_k default_threshold user_id
                              default_subject None fresh_world).2)
       <> ticket_calls (trace fresh_world) ->
       is_Some user_id.
Proof.
  apply (no_user_no_ticket (answering (one_candidate (DocStr "far") 2))
           "anything" default_k default_threshold default_subject None
           fresh_world).
  intros r [= <-]. reflexivity.
Defined.

(** C9, as amended.  A failure of the ticket collaborator is not surfaced:
    when the search escalates and [add_question] raises, the exception is
    logged and the search returns the empty list, the value it also returns
    when the ticket was created.  So it is when the database is down. *)
Theorem ticket_failure_is_not_surfaced knowledge_base query_text k threshold
    uid subject from_user w r :
  kb_query knowledge_base (collection w) [query_text] k = Returns (Some r) ->
  well_formed r = true ->
  relevant threshold r = [] ->
  let run := search_similar_docs knowledge_base query_text k threshold
                                 (Some uid) subject from_user w in
  (exists w',
     logged (add_event (QueryCall [query_text] k) w) w'
     /\ (forall e w'',
           add_question uid query_text subject from_user w' = (Raises e, w'') ->
           run = (Returns [], add_event (Log ERROR (SearchFailed e)) w''))
     /\ (forall question w'',
           add_question uid query_text subject from_user w'
           = (Returns question, w'') ->
           run = (Returns [],
                  add_event (Log INFO (TicketCreated (question_ticket_id question)
                                                     uid)) w'')))
  /\ (faults (db w) = Some 0 ->
      run.1 = Returns []
      /\ db run.2 = db w
      /\ last (trace run.2)
         = Some (Log ERROR (SearchFailed (Exception "OperationalError"
                                                    "database unavailable")))).
Proof.
  intros Hq Hwf Hnone run. subst run.
  destruct (search_similar_docs_steps knowledge_base query_text k threshold
              (Some uid) subject from_user w) as (w' & Hw' & ->).
  rewrite (retrieved_well_formed _ _ _ _ _ r Hq Hwf), Hnone.
  split.
  - exists w'. split; [done|]. split; intros ? w'' ->; done.
  - intros Hdown. apply logged_quiet in Hw' as [_ Hdb]. simpl in Hdb.
    rewrite add_question_database_down by (by rewrite Hdb).
    simpl. split; [done|]. split; [done|]. by rewrite last_snoc.
Qed.

(** The database is down: the ticket is not created, the question is stored
    nowhere, and the search returns the empty list as if it had been. *)
Lemma ticket_failure_is_swallowed :
  let run := search_similar_docs (answering empty_response) "anything"
               default_k default_threshold (Some 7%Z) default_subject None
               world_without_database in
  run.1 = Returns []
  /\ tickets (db run.2) = []
  /\ questions (db run.2) = []
  /\ last (trace run.2)
     = Some (Log ERROR (SearchFailed
                          (Exception "OperationalError" "database unavailable"))).
Proof. vm_compute. done. Qed.

Lemma ticket_failure_is_not_surfaced_witness :
  let run := search_similar_docs (answering empty_response) "anything"
               default_k default_threshold (Some 7%Z) default_subject None
               world_without_database in
  (exists w',
     logged (add_event (QueryCall ["anything"] default_k) world_without_database)
            w'
     /\ (forall e w'',
           add_question 7 "anything" default_subject None w' = (Raises e, w'') ->
           run = (Returns [], add_event (Log ERROR (SearchFailed e)) w''))
     /\ (forall question w'',
           add_question 7 "anything" default_subject None w'
           = (Returns question, w'') ->
           run = (Returns [],
                  add_event (Log INFO (TicketCreated (question_ticket_id question)
                                                     7)) w'')))
  /\ (faults (db world_without_database) = Some 0 ->
      run.1 = Returns []
      /\ db run.2 = db world_without_database
      /\ last (trace run.2)
         = Some (Log ERROR (SearchFailed (Exception "OperationalError"
                                                    "database unavailable")))).
Proof.
  apply (ticket_failure_is_not_surfaced (answering empty_response) "anything"
           default_k default_threshold 7%Z default_subject None
           world_without_database empty_response); reflexivity.
Defined.

(* ================================================================== *)
(** * Retrieval *)

(** C3.  When the index has no entry for the query, or every distance it
    returns is above the threshold, the search returns the empty list: it
    does not raise.  For a well-formed response this is the case in which
    the ticket collaborator is called, once, for the user id given. *)
Theorem empty_result_is_not_an_error knowledge_base query_text k threshold
    user_id subject from_user w :
  (forall r, kb_query knowledge_base (collection w) [query_text] k
             = Returns (Some r) ->
             Forall (fun c => PyFloat.gt c.2 threshold = true) (candidates r)) ->
  let run := search_similar_docs knowledge_base query_text k threshold
                                 user_id subject from_user w in
  run.1 = Returns []
  /\ forall r, kb_query knowledge_base (collection w) [query_text] k
               = Returns (Some r) ->
               well_formed r = true ->
               ticket_calls (trace run.2)
               = ticket_calls (trace w)
                 ++ match user_id with
                    | Some uid => [AddQuestionCall uid query_text subject from_user]
                    | None => []
                    end.
Proof.
  intros Hfar run.
  assert (Hnone : forall r,
    kb_query knowledge_base (collection w) [query_text] k = Returns (Some r) ->
    relevant threshold r = []).
  { intros r Hq. apply omap_all_none. eapply Forall_impl; [exact (Hfar r Hq)|].
    intros c Hc. unfold keep. by rewrite Hc. }
  split.
  - subst run.
    destruct (search_similar_docs_run knowledge_base query_text k threshold
                user_id subject from_user w) as (w' & -> & _). simpl.
    destruct (answer_cases knowledge_base query_text k threshold (collection w))
      as [->|(r & Hq & ->)]; [done|]. by rewrite (Hnone r Hq).
  - intros r Hq Hwf.
    destruct (search_response knowledge_base query_text k threshold
                user_id subject from_user w r Hq Hwf) as (_ & Ht).
    by rewrite (Hnone r Hq) in Ht.
Qed.

Lemma empty_result_is_not_an_error_witness :
  let run := search_similar_docs (answering empty_response) "anything"
               default_k default_threshold (Some 7%Z) default_subject None
               fresh_world in
  run.1 = Returns []
  /\ forall r, Returns (Some empty_response) = Returns (Some r) ->
               well_formed r = true ->
               ticket_calls (trace run.2)
               = [AddQuestionCall 7 "anything" default_subject None].
Proof.
  apply (empty_result_is_not_an_error (answering empty_response) "anything"
           default_k default_threshold (Some 7%Z) default_subject None
           fresh_world).
  intros r [= <-]. vm_compute. constructor.
Defined.

(** C4.  For one query and one state of the index, a higher threshold never
    returns fewer documents. *)
Theorem threshold_monotone knowledge_base query_text k t1 t2 user_id subject
    from_user w :
  PyFloat.le t1 t2 = true ->
  exists docs1 docs2,
    (search_similar_docs knowledge_base query_text k t1 user_id subject
                         from_user w).1 = Returns docs1
    /\ (search_similar_docs knowledge_base query_text k t2 user_id subject
                            from_user w).1 = Returns docs2
    /\ length docs1 <= length docs2.
Proof.
  intros Hle.
  destruct (search_similar_docs_run knowledge_base query_text k t1 user_id
              subject from_user w) as (w1 & -> & _).
  destruct (search_similar_docs_run knowledge_base query_text k t2 user_id
              subject from_user w) as (w2 & -> & _).
  do 2 eexists. split; [reflexivity|]. split; [reflexivity|].
  by apply answer_mono.
Qed.

Lemma threshold_monotone_witness :
  exists docs1 docs2,
    (search_similar_docs (answering (one_candidate (DocStr "far") 2))
       "anything" default_k 1.3 None default_subject None fresh_world).1
    = Returns docs1
    /\ (search_similar_docs (answering (one_candidate (DocStr "far") 2))
          "anything" default_k 2 None default_subject None fresh_world).1
       = Returns docs2
    /\ length docs1 <= length docs2.
Proof.
  apply (threshold_monotone (answering (one_candidate (DocStr "far") 2))
           "anything" default_k 1.3 2 None default_subject None fresh_world).
  reflexivity.
Defined.

(** On stored candidates and a threshold that is a number, the test of the
    code is the comparison of the spec. *)
Lemma keep_within_threshold threshold candidate :
  stored_candidate candidate = true ->
  PyFloat.isnan threshold = false ->
  keep threshold candidate
  = if PyFloat.le candidate.2 threshold then text_of candidate else None.
Proof.
  destruct candidate as [doc distance]. unfold stored_candidate, keep, text_of.
  cbn [fst snd]. intros Hstored Hthreshold.
  destruct doc as [s|]; [|done]. apply negb_true_iff in Hstored.
  destruct (PyFloat.gt distance threshold) eqn:Hgt.
  - destruct (PyFloat.le distance threshold) eqn:Hle; [|done].
    apply PyFloatFacts.le_not_gt in Hle. congruence.
  - by rewrite (PyFloatFacts.not_gt_le _ _ Hstored Hthreshold Hgt).
Qed.

Lemma relevant_within_threshold threshold (l : list (Document * float)) :
  forallb stored_candidate l = true ->
  PyFloat.isnan threshold = false ->
  omap (keep threshold) l
  = omap text_of
      (List.filter (fun candidate => PyFloat.le candidate.2 threshold) l).
Proof.
  intros Hstored Hthreshold.
  induction l as [|candidate rest IH]; [done|].
  cbn [forallb] in Hstored. apply andb_prop in Hstored as [Hhead Hrest].
  cbn [omap list_omap List.filter].
  rewrite (keep_within_threshold threshold candidate Hhead Hthreshold),
    (IH Hrest).
  destruct (PyFloat.le candidate.2 threshold); [|done].
  cbn [omap list_omap]. by destruct (text_of candidate).
Qed.

(** C2.  For a response whose candidates are stored candidates (a text and
    a distance that is a number) and a threshold that is a number, the
    search returns the texts of exactly the candidates whose distance is
    less than or equal to the threshold, in the order of the response: a
    candidate passes the test of the code if and only if its distance is
    less than or equal to the threshold; one with a distance strictly
    greater is excluded, one with a distance equal to the threshold is
    returned. *)
Theorem threshold_inclusive knowledge_base query_text k threshold user_id
    subject from_user w r :
  kb_query knowledge_base (collection w) [query_text] k = Returns (Some r) ->
  well_formed r = true ->
  forallb stored_candidate (candidates r) = true ->
  PyFloat.isnan threshold = false ->
  (search_similar_docs knowledge_base query_text k threshold user_id subject
                       from_user w).1
  = Returns (omap text_of (within_threshold threshold r))
  /\ (forall candidate,
        candidate ∈ candidates r ->
        (is_Some (keep threshold candidate)
         <-> PyFloat.le candidate.2 threshold = true))
  /\ (forall candidate,
        candidate ∈ candidates r ->
        PyFloat.gt candidate.2 threshold = true ->
        keep threshold candidate = None)
  /\ (forall candidate,
        candidate ∈ candidates r ->
        PyFloat.eqb candidate.2 threshold = true ->
        is_Some (keep threshold candidate)).
Proof.
  intros Hq Hwf Hstored Hthreshold.
  destruct (search_response knowledge_base query_text k threshold
              user_id subject from_user w r Hq Hwf) as (Hres & _).
  assert (Hall : forall candidate,
    candidate ∈ candidates r -> stored_candidate candidate = true).
  { intros candidate Hin. apply list_elem_of_In in Hin.
    by apply (proj1 (forallb_forall _ _) Hstored). }
  assert (Htext : forall candidate,
    candidate ∈ candidates r -> is_Some (text_of candidate)).
  { intros [doc distance] Hin. apply Hall in Hin.
    unfold stored_candidate, text_of in *. cbn [fst snd] in *.
    destruct doc as [s|]; [by eexists|done]. }
  split; [|split; [|split]].
  - rewrite Hres. f_equal. by apply relevant_within_threshold.
  - intros candidate Hin.
    rewrite (keep_within_threshold threshold candidate) by auto.
    destruct (PyFloat.le candidate.2 threshold).
    + split; [done|]. intros _. by apply Htext.
    + split; [|done]. by intros [x Hx].
  - intros candidate Hin Hgt. unfold keep. by rewrite Hgt.
  - intros candidate Hin Heq.
    rewrite (keep_within_threshold threshold candidate) by auto.
    rewrite (eqb_le _ _ Heq). by apply Htext.
Qed.

(** Outside these inputs the test of the code is not the comparison alone:
    a candidate without a text is dropped at any distance, and a distance
    that is not a number passes every threshold. *)
Lemma threshold_is_not_the_only_test :
  PyFloat.le 0.5 default_threshold = true
  /\ (search_similar_docs (answering (one_candidate DocNone 0.5)) "anything"
        default_k default_threshold None default_subject None fresh_world).1
     = Returns []
  /\ PyFloat.le nan default_threshold = false
  /\ (search_similar_docs (answering (one_candidate (DocStr "text") nan))
        "anything" default_k default_threshold None default_subject None
        fresh_world).1
     = Returns [{| doc_text := "text" |}].
Proof. vm_compute. done. Qed.

(** The third scenario of the spec: a candidate at the threshold itself. *)
Lemma threshold_inclusive_witness :
  (search_similar_docs (answering (one_candidate (DocStr "far") 2)) "anything"
     default_k 2 None default_subject None fresh_world).1
  = Returns (omap text_of (within_threshold 2 (one_candidate (DocStr "far") 2)))
  /\ (forall candidate,
        candidate ∈ candidates (one_candidate (DocStr "far") 2) ->
        (is_Some (keep 2 candidate) <-> PyFloat.le candidate.2 2 = true))
  /\ (forall candidate,
        candidate ∈ candidates (one_candidate (DocStr "far") 2) ->
        PyFloat.gt candidate.2 2 = true ->
        keep 2 candidate = None)
  /\ (forall candidate,
        candidate ∈ candidates (one_candidate (DocStr "far") 2) ->
        PyFloat.eqb candidate.2 2 = true ->
        is_Some (keep 2 candidate)).
Proof.
  apply (threshold_inclusive (answering (one_candidate (DocStr "far") 2))
           "anything" default_k 2 None default_subject None fresh_world
           (one_candidate (DocStr "far") 2)); reflexivity.
Defined.

(* ================================================================== *)
(** * Ingestion *)

Lemma add_documents_to_chroma_collection knowledge_base chunks model w :
  (add_documents_to_chroma knowledge_base chunks model w).1 = Returns ()
  /\ collection (add_documents_to_chroma knowledge_base chunks model w).2
     = ingested chunks model (collection w).
Proof.
  unfold add_documents_to_chroma, ingested, model_encode, kb_upsert.
  steps.
  destruct (encode model (chunk_text <$> chunks)) as [embeddings|e];
    steps; [|done].
  destruct (forallb valid_embedding embeddings); steps; [|done].
  change (collection (add_event ?ev ?w0)) with (collection w0).
  change (collection (add_event ?ev ?w0)) with (collection w0).
  change (collection (add_event ?ev ?w0)) with (collection w0).
  change (collection (add_event ?ev ?w0)) with (collection w0).
  destruct (Chroma.upsert (chunk_id <$> chunks) (chunk_text <$> chunks)
              embeddings (collection w)) as [c'|e]; steps; done.
Qed.

Lemma write_union (m : gmap string Entry) (batch : list (string * Entry)) :
  Chroma.write m batch = list_to_map (reverse batch) ∪ m.
Proof.
  revert m. induction batch as [|[key entry] batch IH]; intros m.
  - simpl. by rewrite (left_id_L ∅ (∪)).
  - simpl. rewrite IH, reverse_cons, list_to_map_app. simpl.
    rewrite <- (assoc_L (∪)). f_equal.
    by rewrite insert_empty, insert_union_singleton_l.
Qed.

(** Writing a batch again changes nothing. *)
Lemma write_idempotent (m : gmap string Entry) (batch : list (string * Entry)) :
  Chroma.write (Chroma.write m batch) batch = Chroma.write m batch.
Proof.
  rewrite !write_union, (assoc_L (∪)). f_equal. apply (idemp_L (∪)).
Qed.

Lemma upsert_idempotent ids documents embeddings c c' :
  Chroma.upsert ids documents embeddings c = Returns c' ->
  Chroma.upsert ids documents embeddings c' = Returns c'.
Proof.
  unfold Chroma.upsert.
  destruct (negb _); [discriminate|].
  destruct embeddings as [|e0 embeddings]; [by intros [= <-]|].
  destruct (same_dimension _ _) eqn:Hdim; [|discriminate].
  intros [= <-]. cbn [dimension entries default].
  change (id (default (length e0) (dimension c)))
    with (default (length e0) (dimension c)).
  by rewrite Hdim, write_idempotent.
Qed.

Lemma ingested_idempotent chunks model c :
  ingested chunks model (ingested chunks model c) = ingested chunks model c.
Proof.
  unfold ingested.
  destruct (encode model (chunk_text <$> chunks)) as [embeddings|e]; [|done].
  destruct (forallb valid_embedding embeddings); [|done].
  destruct (Chroma.upsert _ _ embeddings c) as [c'|e] eqn:Hup.
  - by rewrite (upsert_idempotent _ _ _ _ _ Hup).
  - by rewrite Hup.
Qed.

Lemma chunk_ids_ordinal (start : nat) (parts : list string) :
  chunk_id <$> ((fun ic => {| chunk_id := chunk_name ic.1; chunk_text := ic.2 |})
                  <$> zip (seq start (length parts)) parts)
  = chunk_name <$> seq start (length parts).
Proof.
  revert start. induction parts as [|part parts IH]; intros start; [done|].
  simpl. by rewrite IH.
Qed.

Lemma chunk_texts_kept (start : nat) (parts : list string) :
  chunk_text <$> ((fun ic => {| chunk_id := chunk_name ic.1; chunk_text := ic.2 |})
                    <$> zip (seq start (length parts)) parts)
  = parts.
Proof.
  revert start. induction parts as [|part parts IH]; intros start; [done|].
  simpl. by rewrite IH.
Qed.

Lemma chunk_name_inj : Inj (=) (=) chunk_name.
Proof.
  intros i j Hij. unfold chunk_name in Hij.
  apply (inj (String.app "chunk_")) in Hij. apply (inj pretty) in Hij. lia.
Qed.

(** C6.  When the embedding model fails on the chunks of a batch, the
    failure is logged and the function returns before any upsert: no write
    is sent to the index and the collection is what it was. *)
Theorem embedding_failure_aborts_batch knowledge_base chunks model w e :
  encode model (chunk_text <$> chunks) = Raises e ->
  let run := add_documents_to_chroma knowledge_base chunks model w in
  run.1 = Returns ()
  /\ collection run.2 = collection w
  /\ upsert_calls (trace run.2) = upsert_calls (trace w)
  /\ trace run.2 = trace w ++ [Log INFO EmbeddingsStarted;
                               EncodeCall (chunk_text <$> chunks);
                               Log ERROR (EmbeddingsFailed e)].
Proof.
  intros He run. subst run.
  unfold add_documents_to_chroma, model_encode.
  steps. rewrite He. steps. simpl.
  repeat split; try done.
  - unfold upsert_calls. rewrite <- !app_assoc, List.filter_app. simpl.
    by rewrite app_nil_r.
  - by rewrite <- !app_assoc.
Qed.

Lemma embedding_failure_aborts_batch_witness :
  let run := add_documents_to_chroma (answering empty_response) refund_chunks
               (failing_model (Exception "ConnectionError" "no route to host"))
               fresh_world in
  run.1 = Returns ()
  /\ collection run.2 = collection fresh_world
  /\ upsert_calls (trace run.2) = upsert_calls (trace fresh_world)
  /\ trace run.2
     = trace fresh_world
       ++ [Log INFO EmbeddingsStarted;
           EncodeCall (chunk_text <$> refund_chunks);
           Log ERROR (EmbeddingsFailed
                        (Exception "ConnectionError" "no route to host"))].
Proof.
  apply (embedding_failure_aborts_batch (answering empty_response)
           refund_chunks
           (failing_model (Exception "ConnectionError" "no route to host"))
           fresh_world (Exception "ConnectionError" "no route to host")).
  reflexivity.
Defined.

(** C7.  The ids of the chunks are [chunk_1], [chunk_2], ... by position,
    all different within one call and the same on every call for the same
    text and parameters; so a second ingestion of the chunks writes to the
    ids of the first, and the collection has the size and the content it had
    after the first. *)
Theorem ingestion_idempotent (RecursiveCharacterTextSplitter : SplitterClass)
    text chunk_size chunk_overlap chunks knowledge_base model w :
  split_text_into_chunks RecursiveCharacterTextSplitter text chunk_size
                         chunk_overlap = Returns chunks ->
  let once := (add_documents_to_chroma knowledge_base chunks model w).2 in
  let twice := (add_documents_to_chroma knowledge_base chunks model once).2 in
  chunk_id <$> chunks = chunk_name <$> seq 0 (length chunks)
  /\ NoDup (chunk_id <$> chunks)
  /\ collection twice = collection once
  /\ Chroma.size (collection twice) = Chroma.size (collection once).
Proof.
  intros Hsplit once twice.
  assert (Hids : chunk_id <$> chunks = chunk_name <$> seq 0 (length chunks)).
  { unfold split_text_into_chunks in Hsplit.
    destruct (RecursiveCharacterTextSplitter chunk_size chunk_overlap)
      as [splitter|e]; [|discriminate].
    cbn in Hsplit. destruct (split_text splitter text) as [parts|e];
      [|discriminate].
    cbn in Hsplit. injection Hsplit as <-. unfold enumerate.
    rewrite chunk_ids_ordinal. by rewrite !length_fmap, length_zip_with, length_seq,
      Nat.min_id. }
  assert (Hsame : collection twice = collection once).
  { subst once twice.
    rewrite !(proj2 (add_documents_to_chroma_collection _ _ _ _)).
    apply ingested_idempotent. }
  split; [done|]. split; [|by rewrite Hsame].
  rewrite Hids. apply (NoDup_fmap_2 chunk_name (Inj0 := chunk_name_inj)).
  apply NoDup_seq.
Qed.

Lemma ingestion_idempotent_witness :
  let once := (add_documents_to_chroma (answering empty_response) refund_chunks
                 (constant_model [1; 0; 0]%float) fresh_world).2 in
  let twice := (add_documents_to_chroma (answering empty_response) refund_chunks
                  (constant_model [1; 0; 0]%float) once).2 in
  chunk_id <$> refund_chunks = chunk_name <$> seq 0 (length refund_chunks)
  /\ NoDup (chunk_id <$> refund_chunks)
  /\ collection twice = collection once
  /\ Chroma.size (collection twice) = Chroma.size (collection once).
Proof.
  apply (ingestion_idempotent
           (cutting_into ["The refund window is 30 days.";
                          "Contact support@example.com for help."])
           "The refund window is 30 days. Contact support@example.com for help."
           50 10 refund_chunks (answering empty_response)
           (constant_model [1; 0; 0]%float) fresh_world).
  reflexivity.
Defined.

(** C8, as amended.  [split_text_into_chunks] does not check its parameters.
    It fails exactly when the constructor of the splitter or its
    [split_text] fails, with that exception; otherwise it returns one chunk
    per part, numbered from 1. *)
Theorem chunking_fails_with_the_splitter
    (RecursiveCharacterTextSplitter : SplitterClass) text chunk_size
    chunk_overlap :
  (forall e,
     split_text_into_chunks RecursiveCharacterTextSplitter text chunk_size
                            chunk_overlap = Raises e
     <-> RecursiveCharacterTextSplitter chunk_size chunk_overlap = Raises e
         \/ exists splitter,
              RecursiveCharacterTextSplitter chunk_size chunk_overlap
              = Returns splitter
              /\ split_text splitter text = Raises e)
  /\ (forall splitter parts,
        RecursiveCharacterTextSplitter chunk_size chunk_overlap
        = Returns splitter ->
        split_text splitter text = Returns parts ->
        exists chunks,
          split_text_into_chunks RecursiveCharacterTextSplitter text chunk_size
                                 chunk_overlap = Returns chunks
          /\ chunk_id <$> chunks = chunk_name <$> seq 0 (length parts)
          /\ chunk_text <$> chunks = parts).
Proof.
  unfold split_text_into_chunks. split.
  - intros e.
    destruct (RecursiveCharacterTextSplitter chunk_size chunk_overlap)
      as [splitter|e0]; cbn.
    + destruct (split_text splitter text) as [parts|e1] eqn:Hs; cbn; split.
      * discriminate.
      * intros [|(sp & [= <-] & Hsp)]; [discriminate|]. congruence.
      * intros [= <-]. right. by exists splitter.
      * intros [|(sp & [= <-] & Hsp)]; [discriminate|]. congruence.
    + split; [intros [= ->]; by left|].
      intros [[= ->]|(sp & Hsp & _)]; [done|discriminate Hsp].
  - intros splitter parts Hc Hs. rewrite Hc. cbn. rewrite Hs. cbn.
    eexists. split; [reflexivity|].
    unfold enumerate. by rewrite chunk_ids_ordinal, chunk_texts_kept.
Qed.

(** The function itself does not make a call with an overlap of at least
    the chunk size fail: with a splitter class that accepts the parameters,
    the call succeeds. *)
Lemma chunking_has_no_parameter_check :
  ~ (forall (RecursiveCharacterTextSplitter : SplitterClass) text
            chunk_size chunk_overlap,
       (chunk_size <= chunk_overlap)%Z ->
       exists e, split_text_into_chunks RecursiveCharacterTextSplitter text
                                        chunk_size chunk_overlap = Raises e).
Proof.
  intros Hclaim.
  destruct (Hclaim (cutting_into ["The refund window is 30 days."])
              "The refund window is 30 days." 50%Z 50%Z) as [e He]; [lia|].
  discriminate He.
Qed.

(* ================================================================== *)
(** * Answer synthesis *)

(** C5, as amended.  The model object and the chain are built before the
    [try] block: when building them fails, that error leaves the function
    as it is, the chain is not called and nothing is logged.  With the
    chain built: when it returns [None] the function returns the fixed
    message that asks the user to rephrase; when it fails, the error is
    logged and the function raises [HTTPException] with status 500 and a
    fixed detail, so the error of the chain itself does not leave the
    function; any other response is returned as it is. *)
Theorem generation_failure_handling gpt token folder_id query_text context
    token_limit w :
  let run := generate_response_with_gpt gpt token folder_id query_text context
                                        token_limit w in
  match built_chain gpt token folder_id with
  | Raises e => run = (Raises e, w)
  | Returns chain =>
      match chain_invoke chain (input_data_of query_text context token_limit) with
      | Raises e =>
          run.1 = Raises gpt_error
          /\ last (trace run.2) = Some (Log ERROR (GptFailed e))
      | Returns None => run.1 = Returns fallback_answer
      | Returns (Some response) => run.1 = Returns response
      end
  end.
Proof.
  unfold generate_response_with_gpt, built_chain, invoke.
  fold (input_data_of query_text context token_limit). cbv zeta. steps.
  destruct (gpt token folder_id) as [llm|e]; cbn [mbind Outcome_bind];
    cbv beta iota; [|done].
  destruct (create_stuff_documents_chain llm) as [chain|e]; [|done]. steps.
  destruct (chain_invoke chain (input_data_of query_text context token_limit))
    as [[response|]|e]; steps; try done.
  split; [done|]. simpl. by rewrite last_snoc.
Qed.

(** When the chain fails the function raises instead of returning the
    fixed message, and an empty response is returned as it is. *)
Lemma generation_failure_is_raised :
  (generate_response_with_gpt (failing_gpt (Exception "TimeoutError" "timed out"))
     (Some "token") (Some "folder") "refund window" [] default_token_limit
     fresh_world).1
  = Raises (HTTPException 500 "Ошибка при обработке запроса к GPT")
  /\ (generate_response_with_gpt (answering_gpt EmptyString)
        (Some "token") (Some "folder") "refund window" [] default_token_limit
        fresh_world).1
     = Returns EmptyString.
Proof. vm_compute. done. Qed.

(** With a model class that asks for its credentials, a token that is not
    set makes the function raise the error of the class itself. *)
Lemma missing_token_error_is_raw :
  generate_response_with_gpt
    (strict_gpt {| chain_invoke := fun _ => Returns (Some "ok") |})
    None (Some "folder") "refund window" [] default_token_limit fresh_world
  = (Raises missing_credentials, fresh_world).
Proof. vm_compute. done. Qed.

(* ================================================================== *)
(** * Runs of the service *)

Lemma app_bind_run {A B} (m : App A) (f : A -> App B) s :
  (m ≫= f) s = match m s with
               | (Returns a, s') => f a s'
               | (Raises e, s') => (Raises e, s')
               end.
Proof. reflexivity. Qed.

Lemma app_try_except_run {A} (body : App A) (handler : PyExc -> App A) s :
  app_try_except body handler s = match body s with
                                  | (Returns a, s') => (Returns a, s')
                                  | (Raises e, s') => handler e s'
                                  end.
Proof. reflexivity. Qed.

Lemma note_run level msg s :
  note level msg s = (Returns (), add_step (Noted level msg) s).
Proof. reflexivity. Qed.

Lemma record_run st s : record st s = (Returns (), add_step st s).
Proof. reflexivity. Qed.

Lemma app_ret_run {A} (a : A) s : (mret a : App A) s = (Returns a, s).
Proof. reflexivity. Qed.

Lemma app_gets_run {A} (f : Site -> A) s : app_gets f s = (Returns (f s), s).
Proof. reflexivity. Qed.

Lemma app_update_run (f : Site -> Site) s : app_update f s = (Returns (), f s).
Proof. reflexivity. Qed.

Lemma app_lift_run {A} (o : Outcome A) s : app_lift o s = (o, s).
Proof. reflexivity. Qed.

Lemma app_raise_run {A} (e : PyExc) s : (app_raise e : App A) s = (Raises e, s).
Proof. reflexivity. Qed.

Lemma core_run {A} (m : M A) s :
  core m s = ((m (world s)).1, set_world (m (world s)).2 s).
Proof. unfold core. by destruct (m (world s)). Qed.

Ltac app_step :=
  first [ rewrite app_bind_run | rewrite app_try_except_run | rewrite note_run
        | rewrite record_run | rewrite app_ret_run | rewrite app_gets_run
        | rewrite app_update_run | rewrite app_lift_run | rewrite app_raise_run ];
  cbv beta iota.

Ltac app_steps := repeat app_step.

Lemma add_steps_nil s : add_steps [] s = s.
Proof. destruct s. unfold add_steps. simpl. by rewrite app_nil_r. Qed.

Lemma add_steps_app sts1 sts2 s :
  add_steps sts2 (add_steps sts1 s) = add_steps (sts1 ++ sts2) s.
Proof. unfold add_steps. simpl. by rewrite app_assoc. Qed.

Lemma noted_refl s : noted s s.
Proof. exists []. by rewrite add_steps_nil. Qed.

Lemma noted_trans s1 s2 s3 : noted s1 s2 -> noted s2 s3 -> noted s1 s3.
Proof.
  intros (sts1 & H1 & ->) (sts2 & H2 & ->). exists (sts1 ++ sts2).
  rewrite add_steps_app, forallb_app, H1, H2. done.
Qed.

Lemma noted_note level msg s : noted s (add_step (Noted level msg) s).
Proof. by exists [Noted level msg]. Qed.

Lemma notes_no_delete_call sts :
  forallb is_note sts = true -> delete_calls sts = [].
Proof.
  induction sts as [|st sts IH]; [done|]. simpl.
  intros [Hst Hsts]%andb_prop. destruct st; try discriminate. by apply IH.
Qed.

(* ================================================================== *)
(** * Search results as documents *)

Lemma process_doc_run {D} (Document_ : Document -> Outcome D) doc acc s :
  exists s', noted s s' /\
    process_doc Document_ doc acc s
    = (Returns (acc ++ option_list (built Document_ doc)), s').
Proof.
  unfold process_doc, built.
  destruct doc as [fields|]; simpl.
  - destruct (fields !! "text") as [text|]; simpl.
    + app_steps. destruct (Document_ text) as [document|e]; app_steps; simpl.
      * exists s. split; [apply noted_refl|done].
      * eexists. split; [apply noted_note|]. by rewrite app_nil_r.
    + app_steps. eexists. split; [apply noted_note|]. by rewrite app_nil_r.
  - app_steps. eexists. split; [apply noted_note|]. by rewrite app_nil_r.
Qed.

Lemma process_loop_run {D} (Document_ : Document -> Outcome D) docs acc s :
  exists s', noted s s' /\
    app_for_each docs (process_doc Document_) acc s
    = (Returns (acc ++ omap (built Document_) docs), s').
Proof.
  revert acc s. induction docs as [|doc docs IH]; intros acc s.
  - exists s. split; [apply noted_refl|]. simpl. by rewrite app_nil_r.
  - cbn [app_for_each]. rewrite app_bind_run.
    destruct (process_doc_run Document_ doc acc s) as (s1 & Hs1 & ->).
    cbv beta iota.
    destruct (IH (acc ++ option_list (built Document_ doc)) s1) as (s2 & Hs2 & ->).
    exists s2. split; [by eapply noted_trans|].
    cbn [omap list_omap]. destruct (built Document_ doc); simpl.
    + by rewrite <- app_assoc.
    + by rewrite app_nil_r.
Qed.

(** X1.  [process_search_results] never raises and changes nothing but the
    log.  It returns one document for each element that is a dictionary
    with the key [text] whose value the class [Document] accepts, in the
    order of the input; the other elements are left out and do not stop the
    loop. *)
Theorem process_search_results_skips_bad_items {D}
    (Document_ : Document -> Outcome D) similar_docs s :
  exists s',
    process_search_results Document_ similar_docs s
    = (Returns (omap (built Document_) similar_docs), s')
    /\ noted s s'
    /\ length (omap (built Document_) similar_docs) <= length similar_docs.
Proof.
  unfold process_search_results. rewrite app_bind_run.
  destruct (process_loop_run Document_ similar_docs [] s) as (s1 & Hs1 & ->).
  cbv beta iota. app_steps. cbn [app]. eexists. split; [reflexivity|]. split.
  - eapply noted_trans; [exact Hs1|apply noted_note].
  - induction similar_docs as [|doc docs IH]; [done|].
    cbn [omap list_omap]. destruct (built Document_ doc); simpl; lia.
Qed.

Lemma process_loop_search_output {D} (Document_ : Document -> Outcome D)
    (page : string -> D) docs acc s :
  (forall text, Document_ (DocStr text) = Returns (page text)) ->
  app_for_each (as_dict <$> docs) (process_doc Document_) acc s
  = (Returns (acc ++ ((fun doc => page (doc_text doc)) <$> docs)), s).
Proof.
  intros Hpage. revert acc. induction docs as [|doc docs IH]; intros acc.
  - simpl. by rewrite app_nil_r.
  - cbn [fmap list_fmap app_for_each]. rewrite app_bind_run.
    unfold process_doc at 1, as_dict at 1.
    rewrite lookup_singleton_eq. app_steps. rewrite Hpage. app_steps.
    rewrite IH. by rewrite <- app_assoc.
Qed.

(** X2.  Given the list that [search_similar_docs] returns, and a class
    [Document] that accepts every string, [process_search_results] builds
    one document per element, in the same order, with the text of the
    element as page content: nothing that the search found is dropped, and
    the only log record is the count. *)
Theorem process_search_results_keeps_search_output {D}
    (Document_ : Document -> Outcome D) (page : string -> D) docs s :
  (forall text, Document_ (DocStr text) = Returns (page text)) ->
  process_search_results Document_ (as_dict <$> docs) s
  = (Returns ((fun doc => page (doc_text doc)) <$> docs),
     add_step (Noted INFO (DocumentsProcessed (length docs))) s).
Proof.
  intros Hpage. unfold process_search_results. rewrite app_bind_run.
  rewrite (process_loop_search_output Document_ page) by done.
  cbv beta iota. app_steps. cbn [app]. by rewrite length_fmap.
Qed.

Lemma process_search_results_keeps_search_output_witness :
  process_search_results strict_document
    (as_dict <$> [ {| doc_text := "The refund window is 30 days." |};
                   {| doc_text := "Contact support@example.com for help." |} ])
    fresh_site
  = (Returns ((fun doc => {| page_content := doc_text doc |})
                <$> [ {| doc_text := "The refund window is 30 days." |};
                      {| doc_text := "Contact support@example.com for help." |} ]),
     add_step (Noted INFO (DocumentsProcessed 2)) fresh_site).
Proof.
  apply (process_search_results_keeps_search_output strict_document
           (fun text => {| page_content := text |})
           [ {| doc_text := "The refund window is 30 days." |};
             {| doc_text := "Contact support@example.com for help." |} ]
           fresh_site).
  reflexivity.
Defined.

(* ================================================================== *)
(** * Reading and clearing the collection *)

Lemma collection_get_run knowledge_base args s :
  collection_get knowledge_base args s
  = (kb_get knowledge_base (collection (world s)) args,
     add_step (GetCall args) s).
Proof. reflexivity. Qed.

Lemma collection_delete_run knowledge_base ids s :
  collection_delete knowledge_base ids s
  = match kb_delete knowledge_base (collection (world s)) ids with
    | Returns c =>
        (Returns (),
         set_world (set_collection c (world s)) (add_step (DeleteCall ids) s))
    | Raises e => (Raises e, add_step (DeleteCall ids) s)
    end.
Proof.
  unfold collection_delete. app_steps. simpl.
  by destruct (kb_delete knowledge_base (collection (world s)) ids).
Qed.

(** X3.  [get_documents_from_chroma] never raises, whatever the index
    does, and reads only: the world is what it was.  It asks the index
    once, for documents and metadata, with the limit it was given.  The
    dictionary it returns has a list under [documents]; it is the empty
    one unless the index answered with a dictionary whose [documents] are
    not [None]. *)
Theorem get_documents_from_chroma_never_raises knowledge_base limit s :
  exists listing s',
    get_documents_from_chroma knowledge_base limit s = (Returns listing, s')
    /\ world s' = world s
    /\ get_calls (journal s') = get_calls (journal s) ++ [listing_args limit]
    /\ delete_calls (journal s') = delete_calls (journal s)
    /\ (listing = empty_listing
        \/ exists result documents,
             kb_get knowledge_base (collection (world s)) (listing_args limit)
             = Returns (Some result)
             /\ got_documents result <> IsNone
             /\ listing_documents listing = documents
             /\ (got_documents result = Value documents
                 \/ got_documents result = Absent /\ documents = [])).
Proof.
  unfold get_documents_from_chroma. fold (listing_args limit).
  rewrite app_try_except_run, app_bind_run, collection_get_run.
  assert (Hcalls : forall sts,
    forallb is_note sts = true ->
    get_calls (journal s ++ [GetCall (listing_args limit)] ++ sts)
    = get_calls (journal s) ++ [listing_args limit]
    /\ delete_calls (journal s ++ [GetCall (listing_args limit)] ++ sts)
       = delete_calls (journal s)).
  { intros sts Hsts. unfold get_calls, delete_calls.
    rewrite !omap_app. simpl. split.
    - f_equal. f_equal. induction sts as [|st sts IH]; [done|].
      simpl in *. apply andb_prop in Hsts as [Hst Hsts].
      destruct st; try discriminate. by apply IH.
    - fold (delete_calls sts). rewrite (notes_no_delete_call sts Hsts).
      by rewrite app_nil_r. }
  destruct (kb_get knowledge_base (collection (world s)) (listing_args limit))
    as [[result|]|e] eqn:Hget; cbv beta iota.
  - destruct (got_documents result) as [| |documents] eqn:Hdocs; app_steps.
    + eexists _, _. split; [reflexivity|]. simpl.
      destruct (Hcalls [Noted INFO (DocumentsFetched 0)] eq_refl) as [Hg Hd].
      rewrite <- app_assoc. repeat split; try done.
      right. exists result, []. rewrite Hdocs. repeat split; auto.
    + eexists _, _. split; [reflexivity|]. simpl.
      destruct (Hcalls [Noted ERROR (FetchFailed
                  (Exception "TypeError" "object of type 'NoneType' has no len()"))]
                  eq_refl) as [Hg Hd].
      rewrite <- app_assoc. repeat split; try done. by left.
    + eexists _, _. split; [reflexivity|]. simpl.
      destruct (Hcalls [Noted INFO (DocumentsFetched (length documents))] eq_refl)
        as [Hg Hd].
      rewrite <- app_assoc. repeat split; try done.
      right. exists result, documents. rewrite Hdocs. repeat split; auto.
  - app_steps. eexists _, _. split; [reflexivity|]. simpl.
    destruct (Hcalls [Noted ERROR EmptyResult] eq_refl) as [Hg Hd].
    rewrite <- app_assoc. repeat split; try done. by left.
  - app_steps. eexists _, _. split; [reflexivity|]. simpl.
    destruct (Hcalls [Noted ERROR (FetchFailed e)] eq_refl) as [Hg Hd].
    rewrite <- app_assoc. repeat split; try done. by left.
Qed.

(** X4.  What [get_documents_from_chroma] returns does not tell an index
    that failed, or answered [None], from an empty collection: in both
    cases it is the dictionary with two empty lists. *)
Theorem fetch_failure_looks_like_empty_collection broken working limit s result :
  (exists e, kb_get broken (collection (world s)) (listing_args limit) = Raises e)
  \/ kb_get broken (collection (world s)) (listing_args limit) = Returns None ->
  kb_get working (collection (world s)) (listing_args limit)
  = Returns (Some result) ->
  got_documents result = Value [] ->
  got_metadatas result = Value [] ->
  (get_documents_from_chroma broken limit s).1 = Returns empty_listing
  /\ (get_documents_from_chroma working limit s).1 = Returns empty_listing.
Proof.
  intros Hbroken Hworking Hdocs Hmetas.
  unfold get_documents_from_chroma. fold (listing_args limit).
  rewrite !app_try_except_run, !app_bind_run, !collection_get_run.
  rewrite Hworking. cbv beta iota. rewrite Hdocs, Hmetas. app_steps.
  split; [|done].
  destruct Hbroken as [[e ->]| ->]; by app_steps.
Qed.

Lemma fetch_failure_looks_like_empty_collection_witness :
  (get_documents_from_chroma
     (failing_handle (Exception "ConnectionError" "no route to host"))
     default_limit fresh_site).1 = Returns empty_listing
  /\ (get_documents_from_chroma (answering_handle empty_get_result)
        default_limit fresh_site).1 = Returns empty_listing.
Proof.
  apply (fetch_failure_looks_like_empty_collection
           (failing_handle (Exception "ConnectionError" "no route to host"))
           (answering_handle empty_get_result) default_limit fresh_site
           empty_get_result).
  - left. eexists. reflexivity.
  - reflexivity.
  - reflexivity.
  - reflexivity.
Defined.

Lemma delete_calls_app j1 j2 :
  delete_calls (j1 ++ j2) = delete_calls j1 ++ delete_calls j2.
Proof. unfold delete_calls. by rewrite omap_app. Qed.

(** X5.  [clear_chroma_collection] never raises, whatever the index does,
    and touches neither the database nor the trace of the pipeline.  It
    asks for a deletion at most once: when the reading gave a list of ids
    that is not empty, and then with exactly that list.  When it asks for
    none, the collection is what it was. *)
Theorem clear_chroma_collection_never_raises knowledge_base s :
  exists s',
    clear_chroma_collection knowledge_base s = (Returns (), s')
    /\ db (world s') = db (world s)
    /\ trace (world s') = trace (world s)
    /\ delete_calls (journal s')
       = delete_calls (journal s)
         ++ option_list (ids_to_delete knowledge_base (collection (world s)))
    /\ (ids_to_delete knowledge_base (collection (world s)) = None ->
        collection (world s') = collection (world s)).
Proof.
  unfold clear_chroma_collection, ids_to_delete. fold all_items_args.
  rewrite app_try_except_run, app_bind_run, collection_get_run.
  destruct (kb_get knowledge_base (collection (world s)) all_items_args)
    as [[all_items|]|e]; cbv beta iota.
  - destruct (got_ids all_items) as [| |[|id more]]; app_steps;
      try (eexists; split; [reflexivity|]; simpl;
           rewrite <- ?app_assoc, delete_calls_app; simpl;
           by rewrite ?app_nil_r).
    rewrite collection_delete_run.
    change (collection (world (add_step ?st s))) with (collection (world s)).
    destruct (kb_delete knowledge_base (collection (world s)) (id :: more))
      as [c|e]; app_steps;
      (eexists; split; [reflexivity|]; simpl;
       rewrite <- ?app_assoc, delete_calls_app; simpl; by repeat split).
  - app_steps. eexists; split; [reflexivity|]; simpl.
    rewrite <- ?app_assoc, delete_calls_app; simpl. by rewrite ?app_nil_r.
  - app_steps. eexists; split; [reflexivity|]; simpl.
    rewrite <- ?app_assoc, delete_calls_app; simpl. by rewrite ?app_nil_r.
Qed.

(** X6.  With an index whose reading lists the ids that the collection
    holds and whose deletion removes the ids it is given, the collection
    has no entry after [clear_chroma_collection]. *)
Theorem clear_chroma_collection_empties knowledge_base s all_items ids c' :
  kb_get knowledge_base (collection (world s)) all_items_args
  = Returns (Some all_items) ->
  got_ids all_items = Value ids ->
  list_to_set ids = dom (entries (collection (world s))) ->
  kb_delete knowledge_base (collection (world s)) ids = Returns c' ->
  dom (entries c') = dom (entries (collection (world s))) ∖ list_to_set ids ->
  (clear_chroma_collection knowledge_base s).1 = Returns ()
  /\ entries (collection (world (clear_chroma_collection knowledge_base s).2)) = ∅.
Proof.
  intros Hget Hids Hdom Hdelete Hdom'.
  unfold clear_chroma_collection. fold all_items_args.
  rewrite app_try_except_run, app_bind_run, collection_get_run, Hget.
  cbv beta iota. rewrite Hids.
  destruct ids as [|id more]; app_steps.
  - split; [done|]. simpl. apply dom_empty_inv_L. by rewrite <- Hdom.
  - rewrite collection_delete_run.
    change (collection (world (add_step ?st s))) with (collection (world s)).
    rewrite Hdelete. app_steps. split; [done|]. simpl.
    apply dom_empty_inv_L. rewrite Hdom', <- Hdom. apply difference_diag_L.
Qed.

Lemma clear_chroma_collection_empties_witness :
  (clear_chroma_collection listing_handle refund_site).1 = Returns ()
  /\ entries (collection (world (clear_chroma_collection listing_handle
                                   refund_site).2)) = ∅.
Proof.
  apply (clear_chroma_collection_empties listing_handle refund_site
           {| got_ids := Value ["chunk_1"; "chunk_2"];
              got_documents := Value [DocStr "The refund window is 30 days.";
                                      DocStr "Contact support@example.com for help."];
              got_metadatas := Value [None; None] |}
           ["chunk_1"; "chunk_2"]
           {| dimension := Some 3; entries := ∅ |}).
  - vm_compute. reflexivity.
  - reflexivity.
  - vm_compute. reflexivity.
  - vm_compute. reflexivity.
  - vm_compute. reflexivity.
Defined.

(** X7.  On a collection without entries, with an index whose reading lists
    the ids that the collection holds, [clear_chroma_collection] asks for
    no deletion and changes nothing: it reads once and logs that the
    collection is empty already.  So clearing twice is clearing once. *)
Theorem clearing_an_empty_collection_deletes_nothing knowledge_base s
    all_items ids :
  entries (collection (world s)) = ∅ ->
  kb_get knowledge_base (collection (world s)) all_items_args
  = Returns (Some all_items) ->
  got_ids all_items = Value ids ->
  list_to_set ids = dom (entries (collection (world s))) ->
  clear_chroma_collection knowledge_base s
  = (Returns (),
     add_steps [GetCall all_items_args; Noted INFO CollectionAlreadyEmpty] s).
Proof.
  intros Hempty Hget Hids Hdom.
  rewrite Hempty, dom_empty_L in Hdom.
  destruct ids as [|id more].
  2: { simpl in Hdom. apply union_positive_l_L in Hdom.
       by apply non_empty_singleton_L in Hdom. }
  unfold clear_chroma_collection. fold all_items_args.
  rewrite app_try_except_run, app_bind_run, collection_get_run, Hget.
  cbv beta iota. rewrite Hids. app_steps.
  unfold add_step, add_steps. simpl. by rewrite <- app_assoc.
Qed.

Lemma clearing_an_empty_collection_deletes_nothing_witness :
  clear_chroma_collection listing_handle
    (clear_chroma_collection listing_handle refund_site).2
  = (Returns (),
     add_steps [GetCall all_items_args; Noted INFO CollectionAlreadyEmpty]
       (clear_chroma_collection listing_handle refund_site).2).
Proof.
  apply (clearing_an_empty_collection_deletes_nothing listing_handle
           (clear_chroma_collection listing_handle refund_site).2
           empty_get_result []).
  - vm_compute. reflexivity.
  - vm_compute. reflexivity.
  - reflexivity.
  - vm_compute. reflexivity.
Defined.

(* ================================================================== *)
(** * Loading a file into the index *)

Lemma load_text_file_run env file_path s :
  exists s',
    load_text_file env file_path s = (file_text env file_path, s')
    /\ world s' = world s.
Proof.
  unfold load_text_file, file_text. app_steps.
  destruct (env_open env file_path) as [text|e]; app_steps; [by eexists|].
  destruct (is_file_not_found e); app_steps; by eexists.
Qed.

Lemma initialize_chroma_client_run env collection_name persist_directory s :
  exists s',
    initialize_chroma_client env collection_name persist_directory s
    = (opened_collection env collection_name persist_directory, s')
    /\ world s' = world s.
Proof.
  unfold initialize_chroma_client, opened_collection. app_steps.
  destruct (env_client env persist_directory) as [chroma_client|e];
    app_steps; cbn [mbind Outcome_bind]; [|by eexists].
  destruct (env_model env "distiluse-base-multilingual-cased-v1") as [model|e];
    app_steps; cbn [mbind Outcome_bind]; by eexists.
Qed.

Lemma get_hf_embeddings_run env model_name s :
  exists s',
    get_hf_embeddings env model_name s = (env_model env model_name, s')
    /\ world s' = world s.
Proof. unfold get_hf_embeddings. app_steps. by eexists. Qed.

(** A run of [load_embeddings]: up to the ingestion the world is not
    touched; an exception raised on the way is logged and replaced; the
    ingestion itself cannot fail the request. *)
Lemma load_embeddings_run env model_name txt_path s :
  exists s',
    load_embeddings env model_name txt_path s
    = (match prepared env model_name txt_path with
       | Returns _ => Returns ()
       | Raises e => Raises (load_error env e)
       end, s')
    /\ match prepared env model_name txt_path with
       | Returns (chunks, model, knowledge_base) =>
           world s' = (add_documents_to_chroma knowledge_base chunks model
                         (world s)).2
           /\ last (journal s') = Some (Noted INFO EmbeddingsStored)
       | Raises e =>
           world s' = world s
           /\ last (journal s') = Some (Noted ERROR (EmbeddingsLoadFailed e))
       end.
Proof.
  unfold load_embeddings, prepared. fold (load_error env).
  rewrite app_bind_run, note_run. cbv beta iota.
  set (s0 := add_step _ s). assert (H0 : world s0 = world s) by done.
  clearbody s0. rewrite app_try_except_run, app_bind_run.
  destruct (load_text_file_run env txt_path s0) as (s1 & -> & H1).
  destruct (file_text env txt_path) as [text|e]; cbn [mbind Outcome_bind];
    cbv beta iota.
  2: { app_steps. eexists. split; [reflexivity|]. simpl.
       split; [congruence|]. by rewrite last_snoc. }
  app_steps.
  destruct (split_text_into_chunks (env_splitter env) text default_chunk_size
              default_chunk_overlap) as [chunks|e];
    cbn [mbind Outcome_bind]; cbv beta iota.
  2: { app_steps. eexists. split; [reflexivity|]. simpl.
       split; [congruence|]. by rewrite last_snoc. }
  app_steps.
  match goal with
  | |- context [get_hf_embeddings env model_name ?s2] =>
      destruct (get_hf_embeddings_run env model_name s2) as (s3 & -> & H3);
      simpl in H3
  end.
  destruct (env_model env model_name) as [model|e]; cbn [mbind Outcome_bind];
    cbv beta iota.
  2: { app_steps. eexists. split; [reflexivity|]. simpl.
       split; [congruence|]. by rewrite last_snoc. }
  app_steps.
  match goal with
  | |- context [initialize_chroma_client env ?n ?d ?s4] =>
      destruct (initialize_chroma_client_run env n d s4) as (s5 & -> & H5);
      simpl in H5
  end.
  destruct (opened_collection env "knowledge_base" (CHROMA_PERSIST_DIR env))
    as [knowledge_base|e]; cbn [mbind Outcome_bind]; cbv beta iota.
  2: { app_steps. eexists. split; [reflexivity|]. simpl.
       split; [congruence|]. by rewrite last_snoc. }
  app_steps. rewrite core_run.
  rewrite (proj1 (add_documents_to_chroma_collection knowledge_base chunks model
                    (world s5))).
  cbv beta iota. app_steps. eexists. split; [reflexivity|]. simpl.
  split; [|by rewrite last_snoc]. congruence.
Qed.

Lemma load_embeddings_collection env model_name txt_path s :
  collection (world (load_embeddings env model_name txt_path s).2)
  = match prepared env model_name txt_path with
    | Returns (chunks, model, _) => ingested chunks model (collection (world s))
    | Raises _ => collection (world s)
    end.
Proof.
  destruct (load_embeddings_run env model_name txt_path s) as (s' & -> & Hs').
  destruct (prepared env model_name txt_path) as [[[chunks model] kb]|e]; simpl.
  - destruct Hs' as [-> _]. apply add_documents_to_chroma_collection.
  - by destruct Hs' as [-> _].
Qed.

(** X8.  Whenever [load_embeddings] raises, the exception is an
    [HTTPException] with status 500 whose detail is the fixed prefix
    followed by the text of the exception that was caught, and the world is
    what it was: nothing was sent to the model or to the index, the
    collection and the database are untouched. *)
Theorem load_embeddings_failure_is_500 env model_name txt_path s e :
  (load_embeddings env model_name txt_path s).1 = Raises e ->
  (exists cause,
     prepared env model_name txt_path = Raises cause
     /\ e = HTTPException 500
              ("Ошибка при загрузке эмбеддингов: " +:+ env_str env cause))
  /\ world (load_embeddings env model_name txt_path s).2 = world s.
Proof.
  destruct (load_embeddings_run env model_name txt_path s) as (s' & -> & Hs').
  destruct (prepared env model_name txt_path) as [[[chunks model] kb]|cause];
    simpl; intros [= <-].
  destruct Hs' as [-> _]. split; [|done]. by exists cause.
Qed.

Lemma load_embeddings_failure_is_500_witness :
  (exists cause,
     prepared (working_env (one_file "/tmp/faq.txt" "refund window")
                 (failing_model (Exception "RuntimeError" "out of memory"))
                 (answering empty_response) (answering_gpt "ok"))
       default_model_name "/tmp/missing.txt" = Raises cause
     /\ HTTPException 500
          "Ошибка при загрузке эмбеддингов: 404: Файл не найден"
        = HTTPException 500
            ("Ошибка при загрузке эмбеддингов: " +:+ python_str cause))
  /\ world (load_embeddings
              (working_env (one_file "/tmp/faq.txt" "refund window")
                 (failing_model (Exception "RuntimeError" "out of memory"))
                 (answering empty_response) (answering_gpt "ok"))
              default_model_name "/tmp/missing.txt" fresh_site).2
     = world fresh_site.
Proof.
  apply (load_embeddings_failure_is_500
           (working_env (one_file "/tmp/faq.txt" "refund window")
              (failing_model (Exception "RuntimeError" "out of memory"))
              (answering empty_response) (answering_gpt "ok"))
           default_model_name "/tmp/missing.txt" fresh_site
           (HTTPException 500
              "Ошибка при загрузке эмбеддингов: 404: Файл не найден")).
  reflexivity.
Defined.

(** X9.  A file that is not there is answered with status 500, not 404:
    [load_text_file] raises the [HTTPException] with status 404, and the
    handler of [load_embeddings] catches it with every other exception and
    raises status 500, the 404 surviving only as text inside the detail. *)
Theorem missing_file_is_reported_as_500 env model_name txt_path s e :
  env_open env txt_path = Raises e ->
  is_file_not_found e = true ->
  (load_text_file env txt_path s).1 = Raises (HTTPException 404 "Файл не найден")
  /\ (load_embeddings env model_name txt_path s).1
     = Raises (HTTPException 500
                 ("Ошибка при загрузке эмбеддингов: "
                  +:+ env_str env (HTTPException 404 "Файл не найден"))).
Proof.
  intros Hopen Hclass. split.
  - destruct (load_text_file_run env txt_path s) as (s' & -> & _).
    unfold file_text. by rewrite Hopen, Hclass.
  - destruct (load_embeddings_run env model_name txt_path s) as (s' & -> & _).
    unfold prepared, file_text. by rewrite Hopen, Hclass.
Qed.

Lemma missing_file_is_reported_as_500_witness :
  (load_text_file
     (working_env (one_file "/tmp/faq.txt" "refund window")
        (constant_model [1; 0; 0]%float) (answering empty_response)
        (answering_gpt "ok"))
     "/tmp/missing.txt" fresh_site).1
  = Raises (HTTPException 404 "Файл не найден")
  /\ (load_embeddings
        (working_env (one_file "/tmp/faq.txt" "refund window")
           (constant_model [1; 0; 0]%float) (answering empty_response)
           (answering_gpt "ok"))
        default_model_name "/tmp/missing.txt" fresh_site).1
     = Raises (HTTPException 500
                 ("Ошибка при загрузке эмбеддингов: "
                  +:+ python_str (HTTPException 404 "Файл не найден"))).
Proof.
  apply (missing_file_is_reported_as_500
           (working_env (one_file "/tmp/faq.txt" "refund window")
              (constant_model [1; 0; 0]%float) (answering empty_response)
              (answering_gpt "ok"))
           default_model_name "/tmp/missing.txt" fresh_site
           (Exception "FileNotFoundError"
              "[Errno 2] No such file or directory: /tmp/missing.txt")).
  - reflexivity.
  - reflexivity.
Defined.

(** X10.  When the file, the splitter, the model loader and the client all
    work but the embedding model fails on the chunks, [load_embeddings]
    returns normally and its last log record says that the documents were
    added, although no write was sent to the index and the collection is
    what it was: the caller cannot tell this run from a successful one. *)
Theorem embedding_failure_is_reported_as_success env model_name txt_path s
    chunks model knowledge_base e :
  prepared env model_name txt_path = Returns (chunks, model, knowledge_base) ->
  encode model (chunk_text <$> chunks) = Raises e ->
  let run := load_embeddings env model_name txt_path s in
  run.1 = Returns ()
  /\ last (journal run.2) = Some (Noted INFO EmbeddingsStored)
  /\ collection (world run.2) = collection (world s)
  /\ upsert_calls (trace (world run.2)) = upsert_calls (trace (world s)).
Proof.
  intros Hprepared Hencode run. subst run.
  destruct (load_embeddings_run env model_name txt_path s) as (s' & -> & Hs').
  rewrite Hprepared in *. simpl. destruct Hs' as [-> Hlast].
  split; [done|]. split; [done|].
  unfold add_documents_to_chroma, model_encode. steps.
  rewrite Hencode. steps. simpl. split; [done|].
  unfold upsert_calls. rewrite <- !app_assoc, List.filter_app. simpl.
  by rewrite app_nil_r.
Qed.

Lemma embedding_failure_is_reported_as_success_witness :
  let run := load_embeddings
               (working_env (one_file "/tmp/faq.txt" "refund window")
                  (failing_model (Exception "RuntimeError" "out of memory"))
                  (answering empty_response) (answering_gpt "ok"))
               default_model_name "/tmp/faq.txt" fresh_site in
  run.1 = Returns ()
  /\ last (journal run.2) = Some (Noted INFO EmbeddingsStored)
  /\ collection (world run.2) = collection (world fresh_site)
  /\ upsert_calls (trace (world run.2)) = upsert_calls (trace (world fresh_site)).
Proof.
  apply (embedding_failure_is_reported_as_success
           (working_env (one_file "/tmp/faq.txt" "refund window")
              (failing_model (Exception "RuntimeError" "out of memory"))
              (answering empty_response) (answering_gpt "ok"))
           default_model_name "/tmp/faq.txt" fresh_site
           [ {| chunk_id := "chunk_1"; chunk_text := "refund" |};
             {| chunk_id := "chunk_2"; chunk_text := "window" |} ]
           (failing_model (Exception "RuntimeError" "out of memory"))
           (answering empty_response)
           (Exception "RuntimeError" "out of memory")).
  - reflexivity.
  - reflexivity.
Defined.



(** Runs that are not alike: the model fails in the first and works in the
    second, which then fills the collection. *)
Lemma unlike_runs_differ :
  let failing := working_env (one_file "/tmp/faq.txt" "refund window")
                   (failing_model (Exception "RuntimeError" "out of memory"))
                   (answering empty_response) (answering_gpt "ok") in
  let working := working_env (one_file "/tmp/faq.txt" "refund window")
                   (constant_model [1; 0; 0]%float)
                   (answering empty_response) (answering_gpt "ok") in
  let once := (load_embeddings failing default_model_name "/tmp/faq.txt"
                 fresh_site).2 in
  let twice := (load_embeddings working default_model_name "/tmp/faq.txt"
                  once).2 in
  Chroma.size (collection (world once)) = 0%nat
  /\ Chroma.size (collection (world twice)) = 2%nat.
Proof. vm_compute. done. Qed.


Lemma split_chunk_ids (RecursiveCharacterTextSplitter : SplitterClass) text
    chunk_size chunk_overlap chunks :
  split_text_into_chunks RecursiveCharacterTextSplitter text chunk_size
                         chunk_overlap = Returns chunks ->
  chunk_id <$> chunks = chunk_name <$> seq 0 (length chunks).
Proof.
  unfold split_text_into_chunks.
  destruct (RecursiveCharacterTextSplitter chunk_size chunk_overlap)
    as [splitter|e]; [|discriminate].
  cbn. destruct (split_text splitter text) as [parts|e]; [|discriminate].
  cbn. intros [= <-]. unfold enumerate.
  by rewrite chunk_ids_ordinal, !length_fmap, length_zip_with, length_seq,
    Nat.min_id.
Qed.

Lemma prepared_chunk_ids env model_name txt_path chunks model knowledge_base :
  prepared env model_name txt_path = Returns (chunks, model, knowledge_base) ->
  chunk_id <$> chunks = chunk_name <$> seq 0 (length chunks).
Proof.
  unfold prepared.
  destruct (file_text env txt_path) as [text|e]; [|discriminate]. cbn.
  destruct (split_text_into_chunks (env_splitter env) text default_chunk_size
              default_chunk_overlap) as [chunks0|e] eqn:Hsplit; [|discriminate].
  cbn. destruct (env_model env model_name) as [model0|e]; [|discriminate].
  cbn. destruct (opened_collection env _ _) as [kb|e]; [|discriminate].
  cbn. intros [= <- _ _]. by eapply split_chunk_ids.
Qed.

Lemma write_dom (m : gmap string Entry) (batch : list (string * Entry)) :
  dom (Chroma.write m batch) = list_to_set batch.*1 ∪ dom m.
Proof.
  rewrite write_union, dom_union_L, dom_list_to_map_L. f_equal.
  apply set_eq. intros key.
  by rewrite !elem_of_list_to_set, fmap_reverse, elem_of_reverse.
Qed.

Lemma rows_keys ids documents vectors :
  length ids = length documents -> length ids = length vectors ->
  (rows ids documents vectors).*1 = ids.
Proof.
  intros Hd Hv. unfold rows. apply fst_zip. rewrite length_zip_with. lia.
Qed.

Lemma write_lookup_row (m : gmap string Entry) ids documents vectors i key
    document vector :
  NoDup ids -> length ids = length documents -> length ids = length vectors ->
  ids !! i = Some key -> documents !! i = Some document ->
  vectors !! i = Some vector ->
  Chroma.write m (rows ids documents vectors) !! key
  = Some {| entry_document := document; entry_embedding := vector |}.
Proof.
  intros Hnodup Hd Hv Hkey Hdoc Hvec.
  rewrite write_union. apply lookup_union_Some_l.
  apply elem_of_list_to_map_1.
  - by rewrite fmap_reverse, rows_keys, reverse_Permutation.
  - apply elem_of_reverse. apply (list_elem_of_lookup_2 _ i).
    unfold rows, zip. apply lookup_zip_with_Some.
    eexists _, _. split; [reflexivity|]. split; [done|].
    apply lookup_zip_with_Some. by eexists _, _.
Qed.

Lemma same_dimension_valid d vectors :
  0 < d -> same_dimension d vectors = true ->
  forallb valid_embedding vectors = true.
Proof.
  intros Hd. unfold same_dimension, valid_embedding.
  induction vectors as [|v vectors IH]; [done|]. simpl.
  intros [Hv Hrest]%andb_prop. apply Nat.eqb_eq in Hv.
  rewrite IH by done. rewrite andb_true_r. apply Nat.ltb_lt. lia.
Qed.

(** The entries after a successful ingestion. *)
Lemma ingested_entries chunks model c vectors d :
  encode model (chunk_text <$> chunks) = Returns vectors ->
  length vectors = length chunks ->
  same_dimension d vectors = true ->
  0 < d ->
  dimension c = None \/ dimension c = Some d ->
  entries (ingested chunks model c)
  = Chroma.write (entries c)
      (rows (chunk_id <$> chunks) (chunk_text <$> chunks) vectors)
  /\ (dimension (ingested chunks model c) = None
      \/ dimension (ingested chunks model c) = Some d).
Proof.
  intros Hencode Hlen Hdim Hd Hc. unfold ingested.
  rewrite Hencode, (same_dimension_valid d) by done.
  unfold Chroma.upsert. rewrite !length_fmap, Hlen, Nat.eqb_refl. simpl.
  destruct vectors as [|v vectors].
  - destruct chunks; [|discriminate]. done.
  - assert (Hdefault : default (length v) (dimension c) = d).
    { destruct Hc as [-> | ->]; simpl; [|done].
      simpl in Hdim. apply andb_prop in Hdim as [Hv _].
      by apply Nat.eqb_eq in Hv. }
    rewrite Hdefault, Hdim. simpl. split; [done|]. by right.
Qed.

Lemma same_dimension_app d vectors1 vectors2 :
  same_dimension d (vectors1 ++ vectors2) = true ->
  same_dimension d vectors1 = true /\ same_dimension d vectors2 = true.
Proof. unfold same_dimension. rewrite forallb_app. apply andb_prop. Qed.

Lemma chunk_names_union (n m : nat) :
  list_to_set (C := gset string) (chunk_name <$> seq 0 n)
  ∪ list_to_set (chunk_name <$> seq 0 m)
  = list_to_set (chunk_name <$> seq 0 (Nat.max n m)).
Proof.
  apply set_eq. intros key.
  rewrite elem_of_union, !elem_of_list_to_set, !list_elem_of_fmap.
  split.
  - intros [(i & -> & Hi)|(i & -> & Hi)]; exists i; (split; [done|]);
      apply elem_of_seq in Hi; apply elem_of_seq; lia.
  - intros (i & -> & Hi). apply elem_of_seq in Hi.
    destruct (decide (i < n)).
    + left. exists i. split; [done|]. apply elem_of_seq. lia.
    + right. exists i. split; [done|]. apply elem_of_seq. lia.
Qed.

(** X12.  Every file is cut into chunks named [chunk_1], [chunk_2], ...,
    so two files loaded into the collection share their ids.  After a file
    A and then a file B are loaded into an empty collection, with a model
    that gives every chunk a vector of the same length, the collection
    holds as many entries as the longer file has chunks, not the sum; and
    wherever both files have a chunk at a position, the entry under that id
    holds the text of B: the chunk of A is gone. *)
Theorem later_file_overwrites_earlier_chunks env model_name path_a path_b s
    chunks_a chunks_b model kb_a kb_b vectors_a vectors_b d :
  prepared env model_name path_a = Returns (chunks_a, model, kb_a) ->
  prepared env model_name path_b = Returns (chunks_b, model, kb_b) ->
  encode model (chunk_text <$> chunks_a) = Returns vectors_a ->
  encode model (chunk_text <$> chunks_b) = Returns vectors_b ->
  length vectors_a = length chunks_a ->
  length vectors_b = length chunks_b ->
  same_dimension d (vectors_a ++ vectors_b) = true ->
  0 < d ->
  collection (world s) = Chroma.empty ->
  let after_a := (load_embeddings env model_name path_a s).2 in
  let after_b := (load_embeddings env model_name path_b after_a).2 in
  Chroma.size (collection (world after_b))
  = Nat.max (length chunks_a) (length chunks_b)
  /\ forall i chunk_a chunk_b,
       chunks_a !! i = Some chunk_a ->
       chunks_b !! i = Some chunk_b ->
       chunk_id chunk_a = chunk_id chunk_b
       /\ entry_document <$> entries (collection (world after_b)) !! chunk_id chunk_a
          = Some (chunk_text chunk_b).
Proof.
  intros Ha Hb Hva Hvb Hla Hlb Hdim Hd Hempty after_a after_b.
  apply same_dimension_app in Hdim as [Hda Hdb].
  pose proof (prepared_chunk_ids _ _ _ _ _ _ Ha) as Hida.
  pose proof (prepared_chunk_ids _ _ _ _ _ _ Hb) as Hidb.
  assert (Hnodup : forall n, NoDup (chunk_name <$> seq 0 n)).
  { intros n. apply (NoDup_fmap_2 chunk_name (Inj0 := chunk_name_inj)).
    apply NoDup_seq. }
  destruct (ingested_entries chunks_a model (collection (world s)) vectors_a d)
    as [Hea Hdima]; try done.
  { left. by rewrite Hempty. }
  destruct (ingested_entries chunks_b model
              (ingested chunks_a model (collection (world s))) vectors_b d)
    as [Heb _]; try done.
  assert (Hcol : collection (world after_b)
                 = ingested chunks_b model
                     (ingested chunks_a model (collection (world s)))).
  { subst after_a after_b. rewrite !load_embeddings_collection.
    by rewrite Ha, Hb. }
  rewrite Hcol. split.
  - unfold Chroma.size. rewrite <- size_dom, Heb, write_dom, Hea, write_dom.
    rewrite !rows_keys by (rewrite !length_fmap; lia).
    rewrite Hempty. simpl. rewrite dom_empty_L, (right_id_L ∅ (∪)).
    rewrite Hida, Hidb, chunk_names_union, size_list_to_set by apply Hnodup.
    rewrite length_fmap, length_seq. lia.
  - intros i chunk_a chunk_b Hia Hib.
    assert (Hka : chunk_id chunk_a = chunk_name i).
    { assert (H : (chunk_id <$> chunks_a) !! i = Some (chunk_id chunk_a))
        by (by rewrite list_lookup_fmap, Hia).
      rewrite Hida, list_lookup_fmap in H.
      apply lookup_lt_Some in Hia. rewrite lookup_seq_lt in H by done.
      by injection H as <-. }
    assert (Hkb : chunk_id chunk_b = chunk_name i).
    { assert (H : (chunk_id <$> chunks_b) !! i = Some (chunk_id chunk_b))
        by (by rewrite list_lookup_fmap, Hib).
      rewrite Hidb, list_lookup_fmap in H.
      apply lookup_lt_Some in Hib. rewrite lookup_seq_lt in H by done.
      by injection H as <-. }
    split; [congruence|].
    destruct (lookup_lt_is_Some_2 vectors_b i) as [vector Hvector].
    { apply lookup_lt_Some in Hib. lia. }
    rewrite Heb, Hka, <- Hkb.
    rewrite (write_lookup_row _ _ _ _ i (chunk_id chunk_b) (chunk_text chunk_b)
               vector); try done.
    + rewrite Hidb. apply Hnodup.
    + by rewrite !length_fmap.
    + rewrite !length_fmap. lia.
    + by rewrite list_lookup_fmap, Hib.
    + by rewrite list_lookup_fmap, Hib.
Qed.

Lemma later_file_overwrites_earlier_chunks_witness :
  let env := working_env
               (two_files "/tmp/refunds.txt" "refund window thirty days"
                          "/tmp/contact.txt" "contact support")
               (constant_model [1; 0; 0]%float) (answering empty_response)
               (answering_gpt "ok") in
  let after_a := (load_embeddings env default_model_name "/tmp/refunds.txt"
                    fresh_site).2 in
  let after_b := (load_embeddings env default_model_name "/tmp/contact.txt"
                    after_a).2 in
  Chroma.size (collection (world after_b)) = Nat.max 4 2
  /\ forall i chunk_a chunk_b,
       [ {| chunk_id := "chunk_1"; chunk_text := "refund" |};
         {| chunk_id := "chunk_2"; chunk_text := "window" |};
         {| chunk_id := "chunk_3"; chunk_text := "thirty" |};
         {| chunk_id := "chunk_4"; chunk_text := "days" |} ] !! i = Some chunk_a ->
       [ {| chunk_id := "chunk_1"; chunk_text := "contact" |};
         {| chunk_id := "chunk_2"; chunk_text := "support" |} ] !! i = Some chunk_b ->
       chunk_id chunk_a = chunk_id chunk_b
       /\ entry_document <$> entries (collection (world after_b)) !! chunk_id chunk_a
          = Some (chunk_text chunk_b).
Proof.
  apply (later_file_overwrites_earlier_chunks
           (working_env
              (two_files "/tmp/refunds.txt" "refund window thirty days"
                         "/tmp/contact.txt" "contact support")
              (constant_model [1; 0; 0]%float) (answering empty_response)
              (answering_gpt "ok"))
           default_model_name "/tmp/refunds.txt" "/tmp/contact.txt" fresh_site
           [ {| chunk_id := "chunk_1"; chunk_text := "refund" |};
             {| chunk_id := "chunk_2"; chunk_text := "window" |};
             {| chunk_id := "chunk_3"; chunk_text := "thirty" |};
             {| chunk_id := "chunk_4"; chunk_text := "days" |} ]
           [ {| chunk_id := "chunk_1"; chunk_text := "contact" |};
             {| chunk_id := "chunk_2"; chunk_text := "support" |} ]
           (constant_model [1; 0; 0]%float)
           (answering empty_response) (answering empty_response)
           [[1; 0; 0]; [1; 0; 0]; [1; 0; 0]; [1; 0; 0]]%float
           [[1; 0; 0]; [1; 0; 0]]%float 3).
  - reflexivity.
  - reflexivity.
  - reflexivity.
  - reflexivity.
  - reflexivity.
  - reflexivity.
  - reflexivity.
  - lia.
  - reflexivity.
Defined.

(* ================================================================== *)
(** * Tickets *)

Lemma core_session_execute_up {A} (read : Database -> A) s :
  faults (db (world s)) = None ->
  core (session_execute read) s = (Returns (read (db (world s))), s).
Proof.
  intros Hup. rewrite core_run. unfold session_execute, roundtrip.
  rewrite bind_run, Hup. cbv beta iota. rewrite gets_run. simpl.
  by destruct s.
Qed.

Lemma roundtrip_up w : faults (db w) = None -> roundtrip w = (Returns (), w).
Proof. intros Hup. unfold roundtrip. by rewrite Hup. Qed.

Lemma session_commit_up {A} (change : Database -> Outcome (A * Database)) w :
  faults (db w) = None ->
  session_commit change w
  = match change (db w) with
    | Returns (a, d) => (Returns a, set_db d w)
    | Raises e => (Raises e, w)
    end.
Proof. intros Hup. by rewrite session_commit_run, roundtrip_up. Qed.

Lemma core_session_commit_up {A} (change : Database -> A * Database) s :
  faults (db (world s)) = None ->
  core (session_commit (accepted change)) s
  = (Returns (change (db (world s))).1,
     set_world (set_db (change (db (world s))).2 (world s)) s).
Proof.
  intros Hup. rewrite core_run, session_commit_up by done. unfold accepted.
  by destruct (change (db (world s))).
Qed.

Lemma set_active_twice id v1 v2 d :
  (set_active id v2 (set_active id v1 d).2).2 = (set_active id v2 d).2.
Proof.
  unfold set_active. simpl. f_equal. rewrite <- list_fmap_compose.
  apply list_fmap_ext. intros i t _. simpl.
  destruct (Z.eqb (ticket_id t) id) eqn:Hid; simpl; by rewrite Hid.
Qed.

Lemma ticket_by_id_set_active id value d :
  ticket_by_id id (set_active id value d).2
  = with_active value <$> ticket_by_id id d.
Proof.
  unfold ticket_by_id, set_active. simpl.
  induction (tickets d) as [|t ts IH]; [done|]. simpl.
  destruct (Z.eqb (ticket_id t) id) eqn:Hid; simpl; by rewrite Hid.
Qed.

Lemma ticket_by_id_unique id d t t' :
  NoDup (ticket_id <$> tickets d) ->
  ticket_by_id id d = Some t -> t' ∈ tickets d -> ticket_id t' = id -> t' = t.
Proof.
  unfold ticket_by_id. induction (tickets d) as [|t0 ts IH]; [done|].
  simpl. intros [Hnotin Hnodup]%NoDup_cons Hfind Hin Hid.
  apply elem_of_cons in Hin.
  destruct (Z.eqb (ticket_id t0) id) eqn:Hid0.
  - injection Hfind as <-. destruct Hin as [->|Hin]; [done|].
    apply Z.eqb_eq in Hid0. exfalso. apply Hnotin.
    apply list_elem_of_fmap. exists t'. split; [congruence|done].
  - destruct Hin as [->|Hin]; [|by apply IH].
    apply Z.eqb_neq in Hid0. done.
Qed.

Lemma filter_fmap_ticket_ids (P : Ticket -> bool) (f : Ticket -> Ticket)
    (l : list Ticket) :
  (forall t, P (f t) = P t) -> (forall t, ticket_id (f t) = ticket_id t) ->
  ticket_id <$> List.filter P (f <$> l) = ticket_id <$> List.filter P l.
Proof.
  intros HP Hid. induction l as [|t l IH]; [done|].
  cbn [fmap list_fmap List.filter]. rewrite HP.
  destruct (P t); cbn [fmap list_fmap]; by rewrite ?Hid, IH.
Qed.

Lemma user_lists_set_active user_id id value d :
  user_lists user_id (set_active id value d).2 = user_lists user_id d.
Proof.
  unfold user_lists, select_user_tickets, select_user_closed_tickets, set_active.
  cbn [snd tickets].
  rewrite !filter_fmap_ticket_ids; try done;
    intros t; by destruct (Z.eqb (ticket_id t) id).
Qed.

Lemma user_lists_tickets user_id d d' :
  tickets d' = tickets d -> user_lists user_id d' = user_lists user_id d.
Proof.
  unfold user_lists, select_user_tickets, select_user_closed_tickets.
  by intros ->.
Qed.

Lemma roundtrip_tickets w : tickets (db (roundtrip w).2) = tickets (db w).
Proof. unfold roundtrip. by destruct (faults (db w)) as [[|n]|]. Qed.

Lemma session_execute_tickets {A} (read : Database -> A) w :
  tickets (db (session_execute read w).2) = tickets (db w).
Proof.
  unfold session_execute. rewrite bind_run.
  pose proof (roundtrip_tickets w) as H.
  by destruct (roundtrip w) as [[[]|e] w1].
Qed.

(** A commit either fails and writes nothing, or applies the change to
    the tables as they are. *)
Lemma session_commit_tickets {A} (change : Database -> A * Database) w :
  db (session_commit (accepted change) w).2 = db w
  \/ exists d, tickets d = tickets (db w)
               /\ db (session_commit (accepted change) w).2 = (change d).2.
Proof.
  rewrite session_commit_run. unfold accepted, roundtrip.
  destruct w as [c [us ts qs fs] tr]. cbn [db faults].
  destruct fs as [[|n]|]; cbv beta iota.
  - by left.
  - right.
    exists {| users := us; tickets := ts; questions := qs; faults := Some n |}.
    split; [reflexivity|]. cbn [db set_db users tickets questions faults].
    by destruct (change {| users := us; tickets := ts; questions := qs;
                           faults := Some n |}).
  - right.
    exists {| users := us; tickets := ts; questions := qs; faults := None |}.
    split; [reflexivity|]. cbn [db set_db users tickets questions faults].
    by destruct (change {| users := us; tickets := ts; questions := qs;
                           faults := None |}).
Qed.

(** A closing function, whatever value it writes and whenever the database
    fails, leaves the lists of every user as they are. *)
Lemma closing_run_user_lists (value : Ticket -> bool) (msg : Note) id user_id s :
  user_lists user_id
    (db (world
      ((ticket ← core (session_execute (ticket_by_id id));
        match ticket with
        | Some ticket =>
            core (session_commit (accepted (set_active id (value ticket))));;
            note INFO msg
        | None => note WARNING (TicketNotFound id)
        end) s).2))
  = user_lists user_id (db (world s)).
Proof.
  rewrite app_bind_run, core_run.
  pose proof (session_execute_tickets (ticket_by_id id) (world s)) as Hread.
  destruct (session_execute (ticket_by_id id) (world s)) as [[[t|]|e] w1];
    cbn [fst snd] in *; try by apply user_lists_tickets.
  rewrite app_bind_run, core_run. cbn [world set_world].
  pose proof (session_commit_tickets (set_active id (value t)) w1) as Hcommit.
  destruct (session_commit (accepted (set_active id (value t))) w1)
    as [[[]|e] w2];
    cbn [fst snd] in *; rewrite ?note_run; cbn [snd world add_step set_world].
  all: destruct Hcommit as [->|(d & Hd & ->)];
    [ by apply user_lists_tickets
    | rewrite user_lists_set_active; apply user_lists_tickets; congruence ].
Qed.

Lemma same_lists_eq a b : a = b -> same_lists a b.
Proof. by intros ->. Qed.

(** X13.  None of the three closing functions marks a ticket as closed by
    its user: whatever the state of the database, after [close_ticket],
    [close_ticket_by_admin] or [close_ticket_by_user] the tickets that
    [get_user_tickets] selects for a user are the ones it selected
    before, up to the order in which they are listed, and so for
    [get_user_closed_tickets].  A ticket that an administrator closes
    stays among the open tickets of its user. *)
Theorem closing_keeps_the_lists_of_the_user id user_id s :
  same_lists (user_lists user_id (db (world (close_ticket id s).2)))
             (user_lists user_id (db (world s)))
  /\ same_lists (user_lists user_id (db (world (close_ticket_by_admin id s).2)))
                (user_lists user_id (db (world s)))
  /\ same_lists (user_lists user_id (db (world (close_ticket_by_user id s).2)))
                (user_lists user_id (db (world s))).
Proof.
  split; [|split]; apply same_lists_eq.
  - apply (closing_run_user_lists (fun _ => false) (TicketClosed id)).
  - apply (closing_run_user_lists (fun _ => false) (TicketClosedByAdmin id)).
  - apply (closing_run_user_lists (fun t => negb (ticket_active t))
             (TicketStatusChanged id)).
Qed.

Lemma closing_run_up (value : Ticket -> bool) (msg : Note) id s :
  faults (db (world s)) = None ->
  (ticket ← core (session_execute (ticket_by_id id));
   match ticket with
   | Some ticket =>
       core (session_commit (accepted (set_active id (value ticket))));;
       note INFO msg
   | None => note WARNING (TicketNotFound id)
   end) s
  = match ticket_by_id id (db (world s)) with
    | Some t =>
        (Returns (),
         add_step (Noted INFO msg)
           (set_world (set_db (set_active id (value t) (db (world s))).2
                              (world s)) s))
    | None => (Returns (), add_step (Noted WARNING (TicketNotFound id)) s)
    end.
Proof.
  intros Hup. rewrite app_bind_run, core_session_execute_up by done.
  cbv beta iota. destruct (ticket_by_id id (db (world s))) as [t|]; [|done].
  rewrite app_bind_run, core_session_commit_up by done. done.
Qed.

Lemma closing_db_msg (value : Ticket -> bool) (msg1 msg2 : Note) id s :
  db (world
    ((ticket ← core (session_execute (ticket_by_id id));
      match ticket with
      | Some ticket =>
          core (session_commit (accepted (set_active id (value ticket))));;
          note INFO msg1
      | None => note WARNING (TicketNotFound id)
      end) s).2)
  = db (world
    ((ticket ← core (session_execute (ticket_by_id id));
      match ticket with
      | Some ticket =>
          core (session_commit (accepted (set_active id (value ticket))));;
          note INFO msg2
      | None => note WARNING (TicketNotFound id)
      end) s).2).
Proof.
  rewrite !app_bind_run.
  destruct (core (session_execute (ticket_by_id id)) s) as [[[t|]|e] s1];
    [|done|done].
  rewrite !app_bind_run.
  by destruct (core (session_commit (accepted (set_active id (value t)))) s1)
    as [[[]|e] s2].
Qed.

Lemma set_active_tickets id value d t :
  t ∈ tickets (set_active id value d).2 ->
  exists t0, t0 ∈ tickets d
             /\ t = if Z.eqb (ticket_id t0) id then with_active value t0 else t0.
Proof.
  unfold set_active. cbn [snd tickets]. intros (t0 & -> & Hin)%list_elem_of_fmap.
  by exists t0.
Qed.

(** X14.  With a database that works and an id within the range of the
    32-bit column, [close_ticket_by_admin] returns normally and leaves
    every ticket with the given id inactive and every other ticket as it
    was; called again it changes nothing; for an id that no ticket has it
    changes nothing either and still returns normally.  [close_ticket]
    does to the database what [close_ticket_by_admin] does, whatever the
    state of the database. *)
Theorem close_ticket_by_admin_closes id s :
  faults (db (world s)) = None ->
  int32 id = true ->
  let run := close_ticket_by_admin id s in
  run.1 = Returns ()
  /\ (forall t, t ∈ tickets (db (world run.2)) -> ticket_id t = id ->
                ticket_active t = false)
  /\ (forall t, ticket_id t <> id ->
                t ∈ tickets (db (world run.2)) <-> t ∈ tickets (db (world s)))
  /\ db (world (close_ticket_by_admin id run.2).2) = db (world run.2)
  /\ (ticket_by_id id (db (world s)) = None -> db (world run.2) = db (world s))
  /\ db (world (close_ticket id s).2) = db (world run.2).
Proof.
  intros Hup _ run.
  assert (Hrun : run = close_ticket_by_admin id s) by done. clearbody run.
  split; [|split; [|split; [|split; [|split]]]].
  - rewrite Hrun. unfold close_ticket_by_admin.
    rewrite (closing_run_up (fun _ => false)) by done.
    by destruct (ticket_by_id id (db (world s))).
  - rewrite Hrun. unfold close_ticket_by_admin.
    rewrite (closing_run_up (fun _ => false)) by done.
    destruct (ticket_by_id id (db (world s))) as [t0|] eqn:Hfind;
      cbn [snd world add_step set_world db set_db].
    + intros t (t1 & Hin & ->)%set_active_tickets Hid.
      destruct (Z.eqb (ticket_id t1) id) eqn:H1; [done|].
      apply Z.eqb_neq in H1. done.
    + intros t Hin Hid. apply list_elem_of_In in Hin.
      pose proof (List.find_none _ _ Hfind t Hin) as Hn. cbv beta in Hn.
      by apply Z.eqb_neq in Hn.
  - rewrite Hrun. unfold close_ticket_by_admin.
    rewrite (closing_run_up (fun _ => false)) by done.
    destruct (ticket_by_id id (db (world s))) as [t0|];
      cbn [snd world add_step set_world db set_db]; [|done].
    intros t Hid. unfold set_active. cbn [snd tickets]. split.
    + intros (t1 & -> & Hin)%list_elem_of_fmap.
      destruct (Z.eqb (ticket_id t1) id) eqn:H1; [|done].
      apply Z.eqb_eq in H1. done.
    + intros Hin. apply list_elem_of_fmap. exists t. split; [|done].
      apply Z.eqb_neq in Hid. by rewrite Hid.
  - rewrite Hrun. unfold close_ticket_by_admin.
    rewrite (closing_run_up (fun _ => false) _ id s) by done.
    destruct (ticket_by_id id (db (world s))) as [t0|] eqn:Hfind;
      cbn [snd]; rewrite (closing_run_up (fun _ => false)) by done;
      cbn [world add_step set_world db set_db].
    + rewrite ticket_by_id_set_active, Hfind. cbn [fmap option_fmap option_map].
      cbn [snd world add_step set_world db set_db].
      by rewrite set_active_twice.
    + by rewrite Hfind.
  - rewrite Hrun. unfold close_ticket_by_admin.
    rewrite (closing_run_up (fun _ => false)) by done. by intros ->.
  - rewrite Hrun. apply (closing_db_msg (fun _ => false)).
Qed.

Lemma close_ticket_by_admin_closes_witness :
  let run := close_ticket_by_admin 1 ticket_site in
  run.1 = Returns ()
  /\ (forall t, t ∈ tickets (db (world run.2)) -> ticket_id t = 1%Z ->
                ticket_active t = false)
  /\ (forall t, ticket_id t <> 1%Z ->
                t ∈ tickets (db (world run.2))
                <-> t ∈ tickets (db (world ticket_site)))
  /\ db (world (close_ticket_by_admin 1 run.2).2) = db (world run.2)
  /\ (ticket_by_id 1 (db (world ticket_site)) = None ->
      db (world run.2) = db (world ticket_site))
  /\ db (world (close_ticket 1 ticket_site).2) = db (world run.2).
Proof.
  apply (close_ticket_by_admin_closes 1 ticket_site); reflexivity.
Defined.

Lemma with_active_same t : with_active (ticket_active t) t = t.
Proof. by destruct t. Qed.

(** X15.  [close_ticket_by_user] does not close: it inverts the state of
    the ticket, so on a ticket that is closed it opens it again.  With a
    database that works and ticket ids that are unique, the ticket has the
    opposite state after one call, and after two calls the database is
    what it was. *)
Theorem close_ticket_by_user_is_a_toggle id s t :
  faults (db (world s)) = None ->
  NoDup (ticket_id <$> tickets (db (world s))) ->
  ticket_by_id id (db (world s)) = Some t ->
  let once := (close_ticket_by_user id s).2 in
  let twice := (close_ticket_by_user id once).2 in
  ticket_by_id id (db (world once))
  = Some (with_active (negb (ticket_active t)) t)
  /\ db (world twice) = db (world s).
Proof.
  intros Hup Hnodup Hfind once twice.
  assert (Honce : db (world once)
                  = (set_active id (negb (ticket_active t)) (db (world s))).2).
  { subst once. unfold close_ticket_by_user.
    rewrite (closing_run_up (fun t => negb (ticket_active t))) by done.
    by rewrite Hfind. }
  assert (Hfind1 : ticket_by_id id (db (world once))
                   = Some (with_active (negb (ticket_active t)) t)).
  { by rewrite Honce, ticket_by_id_set_active, Hfind. }
  split; [done|].
  subst twice. unfold close_ticket_by_user at 1.
  rewrite (closing_run_up (fun t => negb (ticket_active t)))
    by (by rewrite Honce).
  rewrite Hfind1. cbn [snd world add_step set_world db set_db with_active
                       ticket_active].
  rewrite Honce, set_active_twice, negb_involutive.
  destruct (db (world s)) as [us ts qs fs] eqn:Hdb. unfold set_active.
  cbn [snd users tickets questions faults] in *. f_equal.
  transitivity ((fun t' : Ticket => t') <$> ts); [|apply list_fmap_id].
  apply list_fmap_ext. intros i t' Hi. cbv beta.
  destruct (Z.eqb (ticket_id t') id) eqn:Hid; [|done].
  apply Z.eqb_eq in Hid.
  rewrite (ticket_by_id_unique id {| users := us; tickets := ts;
                                     questions := qs; faults := fs |} t t');
    try done.
  - apply with_active_same.
  - by eapply list_elem_of_lookup_2.
Qed.

Lemma close_ticket_by_user_is_a_toggle_witness :
  let once := (close_ticket_by_user 2 ticket_site).2 in
  let twice := (close_ticket_by_user 2 once).2 in
  ticket_by_id 2 (db (world once))
  = Some (with_active (negb false)
            {| ticket_id := 2; ticket_telegram_id := 7;
               ticket_active := false; ticket_closed_by_user := false |})
  /\ db (world twice) = db (world ticket_site).
Proof.
  apply (close_ticket_by_user_is_a_toggle 2 ticket_site
           {| ticket_id := 2; ticket_telegram_id := 7;
              ticket_active := false; ticket_closed_by_user := false |}).
  - reflexivity.
  - apply (bool_decide_unpack _). vm_compute. exact I.
  - reflexivity.
Defined.

Lemma session_execute_cases {A} (read : Database -> A) w :
  faults (db w) = Some 0
  /\ session_execute read w
     = (Raises (Exception "OperationalError" "database unavailable"), w)
  \/ faults (db w) <> Some 0
     /\ exists w', session_execute read w = (Returns (read (db w')), w')
                   /\ users (db w') = users (db w)
                   /\ tickets (db w') = tickets (db w)
                   /\ questions (db w') = questions (db w).
Proof.
  unfold session_execute, roundtrip. rewrite bind_run.
  destruct (faults (db w)) as [[|n]|] eqn:Hf; cbv beta iota.
  - by left.
  - right. split; [done|]. eexists. by rewrite gets_run.
  - right. split; [done|]. eexists. by rewrite gets_run.
Qed.

Lemma ticket_by_id_tickets id d d' :
  tickets d' = tickets d -> ticket_by_id id d' = ticket_by_id id d.
Proof. unfold ticket_by_id. by intros ->. Qed.

(** X16.  For an id that no ticket has, [add_question_to_ticket] raises and
    stores nothing: users, tickets and questions are what they were.  The
    exception is the [ValueError] that names the id, unless the database
    failed on the reading. *)
Theorem add_question_to_missing_ticket user_id id text subject s :
  ticket_by_id id (db (world s)) = None ->
  let run := add_question_to_ticket user_id id text subject s in
  (exists e, run.1 = Raises e)
  /\ (faults (db (world s)) <> Some 0 ->
      run.1 = Raises (Exception "ValueError"
                        ("Тикет с id " +:+ pretty id +:+ " не найден.")))
  /\ users (db (world run.2)) = users (db (world s))
  /\ tickets (db (world run.2)) = tickets (db (world s))
  /\ questions (db (world run.2)) = questions (db (world s)).
Proof.
  intros Hfind run. subst run. unfold add_question_to_ticket.
  rewrite app_bind_run, core_run.
  destruct (session_execute_cases (ticket_by_id id) (world s))
    as [[Hdown ->]|(Hup & w' & -> & Hu & Ht & Hq)]; cbn [fst snd].
  - split; [by eexists|]. split; [done|]. by destruct s.
  - rewrite (ticket_by_id_tickets id _ _ Ht), Hfind. rewrite app_raise_run.
    cbn [fst snd world set_world]. split; [by eexists|]. done.
Qed.

Lemma add_question_to_missing_ticket_witness :
  let run := add_question_to_ticket 7 5 "and the fee?" "Вопрос из чата"
               ticket_site in
  (exists e, run.1 = Raises e)
  /\ (faults (db (world ticket_site)) <> Some 0 ->
      run.1 = Raises (Exception "ValueError"
                        ("Тикет с id " +:+ pretty 5%Z +:+ " не найден.")))
  /\ users (db (world run.2)) = users (db (world ticket_site))
  /\ tickets (db (world run.2)) = tickets (db (world ticket_site))
  /\ questions (db (world run.2)) = questions (db (world ticket_site)).
Proof.
  apply (add_question_to_missing_ticket 7 5 "and the fee?" "Вопрос из чата"
           ticket_site).
  reflexivity.
Defined.

Lemma core_session_commit_checked {A}
    (change : Database -> Outcome (A * Database)) s :
  faults (db (world s)) = None ->
  core (session_commit change) s
  = match change (db (world s)) with
    | Returns (a, d) => (Returns a, set_world (set_db d (world s)) s)
    | Raises e => (Raises e, s)
    end.
Proof.
  intros Hup. rewrite core_run, session_commit_up by done.
  destruct (change (db (world s))) as [[a d]|e]; [done|]. by destruct s.
Qed.

Lemma ticket_by_id_exists id d t :
  ticket_by_id id d = Some t ->
  existsb (fun t => Z.eqb (ticket_id t) id) (tickets d) = true.
Proof.
  unfold ticket_by_id. intros [Hin Hid]%List.find_some.
  apply existsb_exists. by exists t.
Qed.

(** A question that breaks no constraint is stored. *)
Lemma new_question_accepted user_id id text subject d :
  is_Some (users d !! user_id) ->
  existsb (fun t => Z.eqb (ticket_id t) id) (tickets d) = true ->
  varchar 3000 text = true ->
  varchar 255 subject = true ->
  new_question user_id id text subject d
  = Returns ({| question_id := next_id (question_id <$> questions d);
                question_telegram_id := user_id;
                question_ticket_id := id;
                question_text := text;
                question_subject := subject |},
             {| users := users d; tickets := tickets d;
                questions := questions d
                             ++ [ {| question_id := next_id (question_id <$> questions d);
                                     question_telegram_id := user_id;
                                     question_ticket_id := id;
                                     question_text := text;
                                     question_subject := subject |} ];
                faults := faults d |}).
Proof.
  intros [user Huser] Hticket Htext Hsubject. unfold new_question.
  by rewrite Huser, Hticket, Htext, Hsubject.
Qed.

(** X17.  With a database that works, [add_question_to_ticket] on a ticket
    that exists, for a user who has a row in [users] and with a text and a
    subject that fit their columns (3000 and 255 characters), stores
    exactly one question, after the ones that were there, with the text
    and the subject given, under the id of the ticket and the id of the
    user given, who need not be the owner of the ticket.  It makes the
    ticket active, so that the ticket is not among the closed tickets
    afterwards; it does not touch the mark of the user, so the ticket
    stays in the list of its user where it was, up to the order of the
    listing. *)
Theorem add_question_to_ticket_reopens user_id id text subject s t :
  faults (db (world s)) = None ->
  ticket_by_id id (db (world s)) = Some t ->
  is_Some (users (db (world s)) !! user_id) ->
  varchar 3000 text = true ->
  varchar 255 subject = true ->
  let run := add_question_to_ticket user_id id text subject s in
  exists question,
    run.1 = Returns question
    /\ questions (db (world run.2)) = questions (db (world s)) ++ [question]
    /\ question_telegram_id question = user_id
    /\ question_ticket_id question = id
    /\ question_text question = text
    /\ question_subject question = subject
    /\ ticket_by_id id (db (world run.2)) = Some (with_active true t)
    /\ (forall t', t' ∈ select_closed_tickets (db (world run.2)) ->
                   ticket_id t' <> id)
    /\ (forall owner, same_lists (user_lists owner (db (world run.2)))
                                 (user_lists owner (db (world s)))).
Proof.
  intros Hup Hfind Huser Htext Hsubject run. subst run.
  unfold add_question_to_ticket.
  rewrite app_bind_run, core_session_execute_up by done. cbv beta iota.
  rewrite Hfind, app_bind_run, core_session_commit_checked by done.
  unfold reopen_with_question.
  rewrite (new_question_accepted user_id id text subject (db (world s)) Huser
             (ticket_by_id_exists _ _ _ Hfind) Htext Hsubject).
  cbn [mbind Outcome_bind mret Outcome_ret fst snd]. cbv beta iota. app_steps.
  cbn [fst snd world add_step set_world db set_db].
  eexists. split; [reflexivity|].
  cbn [question_telegram_id question_ticket_id question_text question_subject].
  split; [done|]. do 4 (split; [done|]).
  match goal with
  | |- context [(set_active id true ?d).2] => set (d1 := d)
  end.
  assert (Hts : tickets d1 = tickets (db (world s))) by done.
  split; [|split].
  - rewrite ticket_by_id_set_active.
    change (ticket_by_id id d1) with (ticket_by_id id (db (world s))).
    by rewrite Hfind.
  - intros t' Hin Hid. unfold select_closed_tickets in Hin.
    apply list_elem_of_In, List.filter_In in Hin as [Hin Hactive].
    apply list_elem_of_In, set_active_tickets in Hin as (t0 & _ & ->).
    destruct (Z.eqb (ticket_id t0) id) eqn:H0; [done|].
    by apply Z.eqb_neq in H0.
  - intros owner. apply same_lists_eq.
    rewrite user_lists_set_active. by apply user_lists_tickets.
Qed.

Lemma add_question_to_ticket_reopens_witness :
  let run := add_question_to_ticket 7 2 "and the fee?" "Вопрос из чата"
               ticket_site in
  exists question,
    run.1 = Returns question
    /\ questions (db (world run.2))
       = questions (db (world ticket_site)) ++ [question]
    /\ question_telegram_id question = 7%Z
    /\ question_ticket_id question = 2%Z
    /\ question_text question = "and the fee?"
    /\ question_subject question = "Вопрос из чата"
    /\ ticket_by_id 2 (db (world run.2))
       = Some (with_active true
                 {| ticket_id := 2; ticket_telegram_id := 7;
                    ticket_active := false; ticket_closed_by_user := false |})
    /\ (forall t', t' ∈ select_closed_tickets (db (world run.2)) ->
                   ticket_id t' <> 2%Z)
    /\ (forall owner, same_lists (user_lists owner (db (world run.2)))
                                 (user_lists owner (db (world ticket_site)))).
Proof.
  apply (add_question_to_ticket_reopens 7 2 "and the fee?" "Вопрос из чата"
           ticket_site
           {| ticket_id := 2; ticket_telegram_id := 7;
              ticket_active := false; ticket_closed_by_user := false |}).
  - reflexivity.
  - reflexivity.
  - by eexists.
  - reflexivity.
  - reflexivity.
Defined.

(** The second half of [add_question], once the user has a row: on a
    database that works, with a text and a subject that fit, the ticket
    and the question are stored. *)
Lemma add_question_tail user_id text subject w :
  faults (db w) = None ->
  is_Some (users (db w) !! user_id) ->
  varchar 3000 text = true ->
  varchar 255 subject = true ->
  exists question ticket w',
    (ticket ← session_commit (new_ticket user_id);
     question ← session_commit (new_question user_id (ticket_id ticket)
                                             text subject);
     session_commit (accepted (fun d => ((), d)));;
     logging INFO (QuestionAdded (ticket_id ticket));;
     mret question) w = (Returns question, w')
    /\ tickets (db w') = tickets (db w) ++ [ticket]
    /\ questions (db w') = questions (db w) ++ [question]
    /\ faults (db w') = None
    /\ ticket_telegram_id ticket = user_id
    /\ ticket_active ticket = true
    /\ ticket_closed_by_user ticket = false
    /\ question_ticket_id question = ticket_id ticket
    /\ question_text question = text
    /\ question_subject question = subject.
Proof.
  destruct w as [c [us ts qs fs] tr]. cbn [db faults users].
  intros -> [user Huser] Htext Hsubject.
  rewrite bind_run, session_commit_up by done.
  unfold new_ticket. cbn [db users tickets questions faults]. rewrite Huser.
  cbv beta iota. rewrite bind_run, session_commit_up by done.
  cbn [db set_db ticket_id].
  rewrite new_question_accepted; try done.
  2: { cbn [tickets]. rewrite existsb_app. cbn [existsb ticket_id].
       by rewrite Z.eqb_refl, orb_true_r. }
  cbv beta iota. cbn [users tickets questions faults set_db db].
  rewrite bind_run, session_commit_up by done. unfold accepted.
  cbv beta iota. steps.
  do 3 eexists. split; [reflexivity|]. cbn. done.
Qed.

(** The names that [add_question] writes for a new user fit when the names
    of the Telegram user do. *)
Lemma username_of_fits from_user :
  names_fit from_user = true -> varchar 30 (username_of from_user) = true.
Proof.
  destruct from_user as [[[[|c rest]|] first last]|]; try done.
  cbn. by intros [H _]%andb_prop.
Qed.

(** The ticket that [add_question] opens, on a database that works, for a
    text, a subject and names that fit their columns. *)
Lemma add_question_opens user_id text subject from_user w :
  faults (db w) = None ->
  varchar 3000 text = true ->
  varchar 255 subject = true ->
  names_fit from_user = true ->
  exists question ticket w',
    add_question user_id text subject from_user w = (Returns question, w')
    /\ tickets (db w') = tickets (db w) ++ [ticket]
    /\ questions (db w') = questions (db w) ++ [question]
    /\ faults (db w') = None
    /\ ticket_telegram_id ticket = user_id
    /\ ticket_active ticket = true
    /\ ticket_closed_by_user ticket = false
    /\ question_ticket_id question = ticket_id ticket
    /\ question_text question = text
    /\ question_subject question = subject.
Proof.
  destruct w as [c [us ts qs fs] tr]. cbn [db faults].
  intros -> Htext Hsubject Hnames.
  unfold add_question, session_execute. steps.
  rewrite roundtrip_up by done. steps. cbn [db users add_event].
  match goal with
  | |- context [let (_, _) := ?m ?w0 in _] =>
      assert (Hstep : exists w1,
        m w0 = (Returns (), w1)
        /\ faults (db w1) = None
        /\ is_Some (users (db w1) !! user_id)
        /\ tickets (db w1) = ts
        /\ questions (db w1) = qs)
  end.
  { destruct (us !! user_id) as [user|] eqn:Huser.
    - destruct from_user as [u|];
        [destruct (bool_decide (user_username user ≠ tg_username u)
                   || bool_decide (user_full_name user ≠ full_name_of u))|].
      + cbn [names_fit] in Hnames. apply andb_prop in Hnames as [Hname Hfull].
        rewrite bind_run, session_commit_up by done. unfold put_user.
        cbn [user_username user_full_name]. rewrite Hname, Hfull.
        cbn [negb]. cbv beta iota. steps.
        eexists. split; [reflexivity|]. cbn. by rewrite lookup_insert_eq.
      + rewrite ret_run. eexists. split; [reflexivity|]. cbn. by rewrite Huser.
      + rewrite ret_run. eexists. split; [reflexivity|]. cbn. by rewrite Huser.
    - pose proof (username_of_fits from_user Hnames) as Hname.
      assert (Hfull : varchar 100 match from_user with
                                  | Some u => full_name_of u
                                  | None => "Неизвестно"
                                  end = true).
      { destruct from_user as [u|]; [|done].
        cbn [names_fit] in Hnames. by apply andb_prop in Hnames as [_ Hfull]. }
      rewrite bind_run, session_commit_up by done. unfold put_user.
      cbn [user_username user_full_name].
      change (default EmptyString (Some (username_of from_user)))
        with (username_of from_user).
      rewrite Hname, Hfull.
      cbn [negb]. cbv beta iota. steps.
      eexists. split; [reflexivity|]. cbn. by rewrite lookup_insert_eq. }
  destruct Hstep as (w1 & -> & Hup & Huser & Hts & Hqs).
  destruct (add_question_tail user_id text subject w1 Hup Huser Htext Hsubject)
    as (question & ticket & w' & Hrun & Ht & Hq & Hrest).
  exists question, ticket, w'. cbn [tickets questions].
  by rewrite Hrun, Ht, Hq, Hts, Hqs.
Qed.

(** X18.  The ticket that the search opens reaches the lists of the bot.
    When the index answers with a well-formed response of which no document
    passes the threshold, a user id within the range of its 64-bit column
    is given, the database works, and the query text, the subject and the
    names of the user fit their columns (3000, 255, 30 and 100
    characters), then after the search [get_user_tickets] returns for that
    user the tickets it returned before and one new ticket, which is
    active; [get_closed_tickets] returns what it returned before, both up
    to the order of the listing; and the last question stored is the query
    text under the subject given, attached to the new ticket. *)
Theorem escalated_question_is_in_the_tickets_of_the_user knowledge_base
    query_text k threshold user_id subject from_user s r :
  kb_query knowledge_base (collection (world s)) [query_text] k
  = Returns (Some r) ->
  well_formed r = true ->
  relevant threshold r = [] ->
  faults (db (world s)) = None ->
  int64 user_id = true ->
  varchar 3000 query_text = true ->
  varchar 255 subject = true ->
  names_fit from_user = true ->
  let after := (core (search_similar_docs knowledge_base query_text k threshold
                        (Some user_id) subject from_user) s).2 in
  exists ticket question found closed,
    (get_user_tickets user_id after).1 = Returns found
    /\ found ≡ₚ select_user_tickets user_id (db (world s)) ++ [ticket]
    /\ ticket_active ticket = true
    /\ (get_closed_tickets after).1 = Returns closed
    /\ closed ≡ₚ select_closed_tickets (db (world s))
    /\ questions (db (world after)) = questions (db (world s)) ++ [question]
    /\ question_ticket_id question = ticket_id ticket
    /\ question_text question = query_text
    /\ question_subject question = subject.
Proof.
  intros Hquery Hwf Hnone Hup _ Htext Hsubject Hnames after.
  assert (Hafter : exists ticket question,
    tickets (db (world after)) = tickets (db (world s)) ++ [ticket]
    /\ questions (db (world after)) = questions (db (world s)) ++ [question]
    /\ faults (db (world after)) = None
    /\ ticket_telegram_id ticket = user_id
    /\ ticket_active ticket = true
    /\ ticket_closed_by_user ticket = false
    /\ question_ticket_id question = ticket_id ticket
    /\ question_text question = query_text
    /\ question_subject question = subject).
  { subst after. rewrite core_run. cbn [snd world set_world].
    destruct (search_similar_docs_steps knowledge_base query_text k threshold
                (Some user_id) subject from_user (world s))
      as (w1 & Hw1 & ->).
    rewrite (retrieved_well_formed _ _ _ _ _ r Hquery Hwf), Hnone.
    assert (Hdb : db w1 = db (world s)).
    { destruct Hw1 as (evs & _ & ->). done. }
    destruct (add_question_opens user_id query_text subject from_user w1)
      as (question & ticket & w2 & -> & Ht & Hq & Hf & Hrest); try done.
    { by rewrite Hdb. }
    exists ticket, question. cbn [snd db add_event].
    by rewrite Ht, Hq, Hdb. }
  destruct Hafter as (ticket & question & Ht & Hq & Hf & Huser & Hactive
                      & Hmark & Hrest).
  exists ticket, question.
  unfold get_user_tickets, get_closed_tickets.
  rewrite !app_bind_run, !core_session_execute_up by done.
  cbv beta iota. app_steps. cbn [fst].
  do 2 eexists. split; [reflexivity|].
  unfold select_user_tickets, select_closed_tickets.
  rewrite Ht, !List.filter_app. cbn [List.filter].
  rewrite Huser, Z.eqb_refl, Hmark, Hactive. cbn [andb negb].
  by rewrite app_nil_r.
Qed.

Lemma escalated_question_is_in_the_tickets_of_the_user_witness :
  let after := (core (search_similar_docs
                        (answering (one_candidate (DocStr "far") 2))
                        "refund window" default_k default_threshold (Some 7%Z)
                        "Вопрос из чата" None) ticket_site).2 in
  exists ticket question found closed,
    (get_user_tickets 7 after).1 = Returns found
    /\ found ≡ₚ select_user_tickets 7 (db (world ticket_site)) ++ [ticket]
    /\ ticket_active ticket = true
    /\ (get_closed_tickets after).1 = Returns closed
    /\ closed ≡ₚ select_closed_tickets (db (world ticket_site))
    /\ questions (db (world after))
       = questions (db (world ticket_site)) ++ [question]
    /\ question_ticket_id question = ticket_id ticket
    /\ question_text question = "refund window"
    /\ question_subject question = "Вопрос из чата".
Proof.
  apply (escalated_question_is_in_the_tickets_of_the_user
           (answering (one_candidate (DocStr "far") 2))
           "refund window" default_k default_threshold 7 "Вопрос из чата" None
           ticket_site (one_candidate (DocStr "far") 2)).
  - reflexivity.
  - reflexivity.
  - reflexivity.
  - reflexivity.
  - reflexivity.
  - reflexivity.
  - reflexivity.
  - reflexivity.
Defined.

(** Values that do not fit.  A query text of 3001 letters: the ticket is
    stored, the question is refused, and the search returns the empty list
    all the same.  A new user whose username has 31 letters: nothing is
    stored. *)
Lemma long_values_are_refused :
  let long_text := search_similar_docs
                     (answering (one_candidate (DocStr "far") 2))
                     (letters 3001) default_k default_threshold (Some 7%Z)
                     "Вопрос из чата" None (world ticket_site) in
  let long_name := search_similar_docs
                     (answering (one_candidate (DocStr "far") 2))
                     "refund window" default_k default_threshold (Some 7%Z)
                     "Вопрос из чата"
                     (Some {| tg_username := Some (letters 31);
                              tg_first_name := Some "Ann";
                              tg_last_name := None |})
                     fresh_world in
  long_text.1 = Returns []
  /\ length (tickets (db long_text.2)) = 3
  /\ questions (db long_text.2) = questions two_tickets
  /\ long_name.1 = Returns []
  /\ users (db long_name.2) !! 7%Z = None
  /\ tickets (db long_name.2) = []
  /\ questions (db long_name.2) = [].
Proof. vm_compute. done. Qed.

(* ================================================================== *)
(** * A mention of the bot in a chat *)

Lemma replies_app j1 j2 : replies (j1 ++ j2) = replies j1 ++ replies j2.
Proof. unfold replies. by rewrite omap_app. Qed.



Lemma initialize_chroma_client_replies env collection_name persist_directory s :
  replies (journal (initialize_chroma_client env collection_name
                      persist_directory s).2)
  = replies (journal s).
Proof.
  unfold initialize_chroma_client. app_steps.
  destruct (env_client env persist_directory) as [chroma_client|e];
    app_steps; simpl; rewrite ?replies_app; simpl; [|by rewrite app_nil_r].
  destruct (env_model env "distiluse-base-multilingual-cased-v1") as [model|e];
    app_steps; simpl; rewrite ?replies_app; simpl;
    by rewrite ?replies_app, ?app_nil_r.
Qed.

Lemma reply_run message text s :
  reply message text s = (message_reply message text, add_step (ReplyCall text) s).
Proof. reflexivity. Qed.


















(** The answer to a question: the chat gets exactly one reply, in a chat
    that takes every reply. *)
Lemma answer_mention_replies_once env message text s :
  (forall reply_text, message_reply message reply_text = Returns ()) ->
  exists reply_text s',
    answer_mention env message text s = (Returns (), s')
    /\ replies (journal s') = replies (journal s) ++ [reply_text].
Proof.
  intros Hreply.
  assert (Hfailed : forall e s0,
    replies (journal s0) = replies (journal s) ->
    exists reply_text s',
      mention_failed env message e s0 = (Returns (), s')
      /\ replies (journal s') = replies (journal s) ++ [reply_text]).
  { intros e s0 Hs0. unfold mention_failed. app_steps.
    rewrite reply_run, Hreply. eexists _, _. split; [reflexivity|].
    cbn [journal add_step]. rewrite !replies_app, Hs0. cbn.
    by rewrite app_nil_r. }
  unfold answer_mention. rewrite app_try_except_run, app_bind_run.
  pose proof (initialize_chroma_client_replies env "knowledge_base"
                (CHROMA_PERSIST_DIR env) s) as Hreplies.
  destruct (initialize_chroma_client env "knowledge_base"
              (CHROMA_PERSIST_DIR env) s) as [[knowledge_base|e] s1];
    cbn [snd] in Hreplies; cbv beta iota; [|by apply Hfailed].
  destruct (message_from_user message) as [[user_id user]|]; app_steps;
    [|by apply Hfailed].
  rewrite core_run. cbn [fst snd].
  destruct (search_similar_docs_run knowledge_base text 3 default_threshold
              (Some user_id) chat_subject (Some user) (world s1))
    as (w1 & -> & _).
  cbn [fst snd]. cbv beta iota. unfold respond.
  destruct (answer knowledge_base text 3 default_threshold
              (collection (world s1))) as [|doc docs].
  - rewrite reply_run, Hreply. eexists _, _. split; [reflexivity|].
    cbn [journal add_step set_world]. rewrite replies_app, Hreplies. done.
  - cbv zeta. app_steps. rewrite core_run.
    match goal with
    | |- context [generate_response_with_gpt ?g ?t ?f ?q ?ctx ?l ?w] =>
        destruct (generate_response_with_gpt g t f q ctx l w)
          as [[response|e] w2]
    end; cbn [fst snd]; cbv beta iota.
    + rewrite reply_run, Hreply. eexists _, _. split; [reflexivity|].
      cbn [journal add_step set_world].
      rewrite !replies_app, Hreplies. cbn. by rewrite !app_nil_r.
    + apply Hfailed. cbn [journal add_step set_world].
      rewrite !replies_app, Hreplies. cbn. by rewrite !app_nil_r.
Qed.

(** X23.  In a chat that takes every reply, with a bot whose name can be
    read and a message that has a text or a caption, [handle_mention]
    never raises and sends exactly one reply, whatever the index, the
    database, the model and the chain do. *)
Theorem handle_mention_replies_once env message s bot_username raw :
  message_get_me message = Returns bot_username ->
  text_or_caption message = Some raw ->
  (forall reply_text, message_reply message reply_text = Returns ()) ->
  exists reply_text,
    (handle_mention env message s).1 = Returns ()
    /\ replies (journal (handle_mention env message s).2)
       = replies (journal s) ++ [reply_text].
Proof.
  intros Hme Hraw Hreply. unfold handle_mention. app_steps.
  rewrite Hme. cbv beta iota. rewrite Hraw. cbv zeta.
  destruct (strip (remove_all ("@" +:+ bot_username) raw)) as [|c rest].
  - rewrite reply_run, Hreply. eexists. split; [reflexivity|].
    cbn [snd journal add_step]. rewrite !replies_app. cbn.
    by rewrite app_nil_r.
  - destruct (answer_mention_replies_once env message (String c rest)
                (add_step GetMeCall s) Hreply) as (reply_text & s' & -> & Hs').
    exists reply_text. split; [done|]. cbn [snd]. rewrite Hs'.
    cbn [journal add_step]. rewrite replies_app. cbn. by rewrite app_nil_r.
Qed.

Lemma handle_mention_replies_once_witness :
  exists reply_text,
    (handle_mention
       (working_env (one_file "/tmp/faq.txt" "refund window")
          (constant_model [1; 0; 0]%float) (answering empty_response)
          (answering_gpt "ok"))
       (mention "@support_bot") down_site).1 = Returns ()
    /\ replies (journal (handle_mention
                           (working_env (one_file "/tmp/faq.txt" "refund window")
                              (constant_model [1; 0; 0]%float)
                              (answering empty_response) (answering_gpt "ok"))
                           (mention "@support_bot") down_site).2)
       = replies (journal down_site) ++ [reply_text].
Proof.
  apply (handle_mention_replies_once
           (working_env (one_file "/tmp/faq.txt" "refund window")
              (constant_model [1; 0; 0]%float) (answering empty_response)
              (answering_gpt "ok"))
           (mention "@support_bot") down_site "support_bot" "@support_bot").
  - reflexivity.
  - reflexivity.
  - intros reply_text. reflexivity.
Defined.
